(** * PRD-Executioner: the multi-phase PRD review pipeline

    A shallow embedding of the persona scaling module
    ([demo2_multi_agent/persona_scaling.py]), the batch workflow
    ([demo2_multi_agent/langgraph_workflow.py]) and the streaming endpoint
    ([api_server.py]), followed by the properties of the pipeline that the
    specification states.

    Conventions.
    - Python [int] is [Z]; [len] and [sum(1 for ...)] counters are [nat].
    - Python [float] is IEEE 754 binary64, taken from [SpecFloat] with
      [prec = 53] and [emax = 1024].
    - A [dict] is an association list in insertion order: the pipeline
      iterates over [.items()], so the order is observable in the stream.
    - The oracle ([baml_client.b]) is external: its four operations are
      section variables over an abstract oracle state, each call returning
      a record or raising.
    - A generator is a computation that appends to the list of events it
      yields; [print] appends to a console log. Timestamps and durations
      are left out. *)

From Stdlib Require Import ZArith List Bool String Ascii Lia Permutation.
From Stdlib Require Import DecimalString.
From Stdlib Require Import SpecFloat.
Import ListNotations.

Local Open Scope string_scope.
Local Open Scope list_scope.
Local Open Scope Z_scope.

(** ** Python values *)

Module Py.

(** An exception: [type(e).__name__] and [str(e)]. *)
Record Exn := mkExn { exn_type : string; exn_msg : string }.

Inductive Result (A : Type) :=
| Ok (a : A)
| Raise (e : Exn).
Arguments Ok {A} a.
Arguments Raise {A} e.

Definition ZeroDivisionError (msg : string) : Exn := mkExn "ZeroDivisionError" msg.
(** Raised by [/] and by [//]. *)
Definition division_by_zero : Exn := ZeroDivisionError "division by zero".
Definition integer_division_by_zero : Exn :=
  ZeroDivisionError "integer division or modulo by zero".
Definition AttributeError (msg : string) : Exn := mkExn "AttributeError" msg.

(** *** float *)

Definition float := spec_float.
Definition prec : Z := 53.
Definition emax : Z := 1024.

Definition float_of_int (z : Z) : float := binary_normalize prec emax z 0 false.
Definition fdiv : float -> float -> float := SFdiv prec emax.
Definition fmul : float -> float -> float := SFmul prec emax.
(** [x > y] *)
Definition fgt (x y : float) : bool := SFltb y x.

(** [count / total * 100] on two [int]s, [total] not zero. The quotient of
    two [int]s is the correctly rounded quotient, which for lengths is the
    binary64 quotient of the two converted operands. *)
Definition percent (count total : nat) : float :=
  fmul (fdiv (float_of_int (Z.of_nat count)) (float_of_int (Z.of_nat total)))
       (float_of_int 100).

(** *** dict with [str] keys, in insertion order *)

Definition dict (V : Type) := list (string * V).

Fixpoint dict_get {V} (d : dict V) (k : string) : option V :=
  match d with
  | [] => None
  | (k', v) :: d' => if String.eqb k' k then Some v else dict_get d' k
  end.

(** [d[k] = v]: an existing key keeps its position. *)
Fixpoint dict_set {V} (d : dict V) (k : string) (v : V) : dict V :=
  match d with
  | [] => [(k, v)]
  | (k', v') :: d' =>
      if String.eqb k' k then (k', v) :: d' else (k', v') :: dict_set d' k v
  end.

Definition dict_keys {V} (d : dict V) : list string := map fst d.

(** [d.get(k, default)] *)
Definition dict_get_default {V} (d : dict V) (k : string) (default : V) : V :=
  match dict_get d k with Some v => v | None => default end.

(** [s.startswith(prefix)] *)
Definition startswith (s pre : string) : bool := String.prefix pre s.

(** [a // b] with [b] a length. *)
Definition floordiv (a : Z) (b : nat) : Result Z :=
  match b with
  | O => Raise integer_division_by_zero
  | S _ => Ok (a / Z.of_nat b)
  end.

End Py.
Import Py.

(** ** Data model *)

(** A demographic segment: one entry of [sample_data/demographic_segments.json],
    or the generic template built for a custom segment. *)
Record Demographic := mkDemographic {
  age_range : string;
  income_level_range : string;
  family_status : string;
  employment : string }.

Record Behavioral := mkBehavioral {
  tech_savviness : string;
  time_constraints : string;
  budget_sensitivity : string;
  feature_priorities : list string }.

Record Segment := mkSegment {
  segment_id : string;
  demographic : Demographic;
  behavioral : Behavioral;
  custom_name : option string;
  custom_description : option string }.

(** [SegmentConfig] of the API: [count] is validated to [0 <= count <= 100]. *)
Record SegmentConfig := mkSegmentConfig {
  cfg_segment_id : string;
  cfg_count : Z;
  cfg_custom_name : option string;
  cfg_custom_description : option string }.

(** Modelled from the spec: the record types of [baml_client.types]
    ([UserPersona], [PRDReview], [DebateSession], [AggregatedInsights]) are
    generated code that is not part of the sources; the fields are the ones
    the pipeline reads. *)
Record UserPersona := mkPersona {
  name : string;
  age : Z;
  occupation : string;
  tech_comfort : string;
  income_level : string;
  pain_points : list string;
  goals : list string;
  preferred_channels : list string;
  quote : string }.

Record PRDReview := mkReview {
  reviewer_name : string;
  reviewer_segment : string;
  overall_sentiment : string;
  willingness_to_adopt : Z;
  key_concerns : list string;
  missing_features : list string;
  what_they_loved : list string;
  dealbreakers : list string;
  reasoning : string;
  persona_quote : string }.

Record DebatePoint := mkDebatePoint {
  speaker_name : string;
  speaker_segment : string;
  position : string;
  challenges_to : list string;
  supporting_evidence : string }.

Record Conflict := mkConflict {
  conflict_topic : string;
  segment_a : string;
  segment_b : string;
  segment_a_wants : string;
  segment_b_wants : string;
  why_it_conflicts : string;
  potential_resolution : string }.

Record DebateSession := mkDebate {
  topic : string;
  participants : list string;
  debate_points : list DebatePoint;
  conflicts_surfaced : list Conflict;
  key_insight : string }.

Record SentimentBreakdown := mkBreakdown {
  sb_positive : nat;
  sb_neutral : nat;
  sb_negative : nat;
  sb_total : nat }.

Record AggregatedInsights := mkInsights {
  total_reviews : nat;
  sentiment_breakdown : SentimentBreakdown;
  top_concerns : list string;
  critical_gaps : list string;
  major_conflicts : list Conflict;
  non_obvious_insights : list string;
  risk_score : float;
  executive_summary : string }.

(** ** Requests sent to the oracle *)

Record ReviewRequest := mkReviewRequest {
  persona_name : string;
  persona_age : Z;
  persona_occupation : string;
  persona_tech_comfort : string;
  persona_pain_points : list string;
  persona_goals : list string;
  persona_segment : string;
  rq_prd_content : string }.

(** [reviews_json] is [json.dumps] of a field-wise copy of the reviews: the
    reviews themselves stand for it. *)
Record DebateRequest := mkDebateRequest {
  dr_topic : string;
  dr_segment_name : string;
  dr_reviews_json : list PRDReview }.

Record AggregateRequest := mkAggregateRequest {
  ar_reviews_json : list PRDReview;
  ar_debates_json : list DebateSession;
  ar_total_personas : nat }.

(** ** Events of the stream and lines of the console *)

(** The [progress] payloads, one constructor per f-string of
    [stream_prd_review]. *)
Inductive Message :=
| MsgStarting (num_personas : Z)
| MsgLoadingSegments
| MsgCustomSegments (num_personas : Z) (active_segments : nat)
| MsgAllSegments (num_personas : Z) (n_segments : nat)
| MsgSegment (count : Z) (seg : string)
| MsgGenerated (total_personas : nat)
| MsgWorkflow
| MsgPhase1 (n_personas : nat)
| MsgPhase1Executing
| MsgDebatesStarting (concerning_pct : float)
| MsgDebateRunning (seg : string)
| MsgDebateSkipped (negative_pct : float)
| MsgAggregating.

Definition phase (m : Message) : string :=
  match m with
  | MsgStarting _ => "initialization"
  | MsgLoadingSegments | MsgCustomSegments _ _ | MsgAllSegments _ _
  | MsgSegment _ _ => "persona_generation"
  | MsgGenerated _ => "persona_generation_complete"
  | MsgWorkflow => "workflow_creation"
  | MsgPhase1 _ => "phase1_reviews"
  | MsgPhase1Executing => "phase1_executing"
  | MsgDebatesStarting _ => "debates_starting"
  | MsgDebateRunning _ => "debate_running"
  | MsgDebateSkipped _ => "debate_skipped"
  | MsgAggregating => "aggregating"
  end.

Inductive Event :=
| EvProgress (m : Message)
| EvPersonaGenerated (seg : string) (p : UserPersona) (total_so_far : nat)
| EvReviewGenerated (r : PRDReview) (total_so_far : nat)
| EvReviewComplete (n_reviews : nat) (negative_sentiment_pct : float)
| EvDebateGenerated (d : DebateSession)
| EvDebateComplete (debates_conducted : nat)
| EvFinalResult (insights : AggregatedInsights) (reviews_count debates_count : nat)
| EvComplete
| EvError (e : Exn).

(** The [type] field of [StreamEvent]. *)
Definition event_type (e : Event) : string :=
  match e with
  | EvProgress _ => "progress"
  | EvPersonaGenerated _ _ _ => "persona_generated"
  | EvReviewGenerated _ _ => "review_generated"
  | EvReviewComplete _ _ => "review_complete"
  | EvDebateGenerated _ => "debate_generated"
  | EvDebateComplete _ => "debate_complete"
  | EvFinalResult _ _ _ => "final_result"
  | EvComplete => "complete"
  | EvError _ => "error"
  end.

(** The lines printed by the [except] handlers. *)
Inductive LogLine :=
| LogPersonaError (i : Z) (e : Exn)
| LogReviewError (persona : string) (e : Exn)
| LogDebateError (seg : string) (e : Exn)
| LogFacilitateError (e : Exn)
| LogAggregateError (e : Exn).

(** ** The oracle *)

(** [baml_client.b]: four operations over a state of its own; each call
    returns a record of the schema or raises. *)
Record Baml := mkBaml {
  OracleState : Type;
  GeneratePersona : string -> OracleState -> Result UserPersona * OracleState;
  ReviewPRD : ReviewRequest -> OracleState -> Result PRDReview * OracleState;
  FacilitateDebate : DebateRequest -> OracleState -> Result DebateSession * OracleState;
  AggregateReviews :
    AggregateRequest -> OracleState -> Result AggregatedInsights * OracleState }.

(** ** Computations: oracle state, yielded events, console, exceptions *)

Section Pipeline.

Variable b : Baml.

(** The file system: the segment catalog, and the personas saved by an earlier
    run for a given persona count (if any). *)
Variable segments_file : Result (list Segment).
Variable personas_file : Z -> option (list UserPersona).

Record Outcome (A : Type) := mkOutcome {
  result : Result A;
  events : list Event;
  console : list LogLine;
  oracle : OracleState b }.
Arguments mkOutcome {A}.
Arguments result {A}.
Arguments events {A}.
Arguments console {A}.
Arguments oracle {A}.

Definition M (A : Type) : Type := OracleState b -> Outcome A.

Definition ret {A} (a : A) : M A := fun s => mkOutcome (Ok a) [] [] s.

Definition raise {A} (e : Exn) : M A := fun s => mkOutcome (Raise e) [] [] s.

Definition bind {A B} (m : M A) (f : A -> M B) : M B :=
  fun s =>
    let o := m s in
    match result o with
    | Raise e => mkOutcome (Raise e) (events o) (console o) (oracle o)
    | Ok a =>
        let o' := f a (oracle o) in
        mkOutcome (result o') (events o ++ events o') (console o ++ console o')
                  (oracle o')
    end.

(** [try: m except Exception as e: handler e] *)
Definition try_except {A} (m : M A) (handler : Exn -> M A) : M A :=
  fun s =>
    let o := m s in
    match result o with
    | Ok a => o
    | Raise e =>
        let o' := handler e (oracle o) in
        mkOutcome (result o') (events o ++ events o') (console o ++ console o')
                  (oracle o')
    end.

(** [yield await send_event(...)] *)
Definition yield (e : Event) : M unit := fun s => mkOutcome (Ok tt) [e] [] s.

Definition print (l : LogLine) : M unit := fun s => mkOutcome (Ok tt) [] [l] s.

Definition call {Q A} (op : Q -> OracleState b -> Result A * OracleState b) (q : Q)
  : M A :=
  fun s => let '(r, s') := op q s in mkOutcome r [] [] s'.

Definition of_result {A} (r : Result A) : M A :=
  match r with Ok a => ret a | Raise e => raise e end.

Notation "x <- m ;; k" := (bind m (fun x => k))
  (at level 61, m at next level, right associativity).
Notation "m ;;; k" := (bind m (fun _ => k))
  (at level 61, right associativity).

(** ** persona_scaling.py *)

Definition VARIATION_PROMPTS : list string := [
  "Create a unique individual with distinct personality traits.";
  "Make this person have different priorities than typical segment members.";
  "Give this person some contrarian views or unusual preferences.";
  "Create someone at the younger end of this segment's age range.";
  "Create someone at the older end of this segment's age range.";
  "Make this person particularly tech-savvy for their segment.";
  "Make this person less tech-comfortable than average for their segment.";
  "Create someone with additional accessibility needs.";
  "Make this person have unique cultural or lifestyle preferences.";
  "Create someone who is skeptical of new technology."
].

Definition nl : string := String (ascii_of_nat 10) EmptyString.

(** [VARIATION_PROMPTS[variation_index % len(VARIATION_PROMPTS)]]: the
    remainder of Python's [%] by a positive length lies in [0, len). *)
Definition variation_prompt (variation_index : Z) : string :=
  nth (Z.to_nat (variation_index mod Z.of_nat (List.length VARIATION_PROMPTS)))
      VARIATION_PROMPTS "".

(** The f-string [segment_data], with the local [variation_prompt]. *)
Definition segment_data (segment : Segment) (variation_prompt : string) : string :=
  ("Segment: " ++ segment_id segment ++ nl ++ nl ++
  "Demographics:" ++ nl ++
  "- Age range: " ++ age_range (demographic segment) ++ nl ++
  "- Income: " ++ income_level_range (demographic segment) ++ nl ++
  "- Family: " ++ family_status (demographic segment) ++ nl ++
  "- Employment: " ++ employment (demographic segment) ++ nl ++ nl ++
  "Behavioral traits:" ++ nl ++
  "- Tech savviness: " ++ tech_savviness (behavioral segment) ++ nl ++
  "- Time constraints: " ++ time_constraints (behavioral segment) ++ nl ++
  "- Budget sensitivity: " ++ budget_sensitivity (behavioral segment) ++ nl ++
  "- Priorities: " ++ String.concat ", " (feature_priorities (behavioral segment))
    ++ nl ++ nl ++
  "VARIATION INSTRUCTION: " ++ variation_prompt ++ nl)%string.

Definition generate_persona_variation (segment : Segment) (variation_index : Z)
  : M UserPersona :=
  call (GeneratePersona b) (segment_data segment (variation_prompt variation_index)).

(** The inner loop of [scale_personas]: [for i in range(personas_per_segment)]
    from [i] on, [todo] iterations left. *)
Fixpoint scale_segment (segment : Segment) (i : Z) (todo : nat)
    (segment_personas : list UserPersona) : M (list UserPersona) :=
  match todo with
  | O => ret segment_personas
  | S todo' =>
      segment_personas' <-
        try_except
          (persona <- generate_persona_variation segment i ;;
           ret (segment_personas ++ [persona]))
          (fun e => print (LogPersonaError (i + 1) e) ;;; ret segment_personas) ;;
      scale_segment segment (i + 1) todo' segment_personas'
  end.

Fixpoint scale_personas_from (segments : list Segment) (personas_per_segment : Z)
    (all_personas : list UserPersona) : M (list UserPersona) :=
  match segments with
  | [] => ret all_personas
  | segment :: rest =>
      segment_personas <-
        scale_segment segment 0 (Z.to_nat personas_per_segment) [] ;;
      scale_personas_from rest personas_per_segment (all_personas ++ segment_personas)
  end.

Definition scale_personas (segments : list Segment) (personas_per_segment : Z)
  : M (list UserPersona) :=
  scale_personas_from segments personas_per_segment [].

Definition load_segments : M (list Segment) := of_result segments_file.

(** ** Sentiment counters *)

(** [sum(1 for r in reviews if r.overall_sentiment == label)] *)
Definition count_sentiment (label : string) (reviews : list PRDReview) : nat :=
  List.length (filter (fun r => String.eqb (overall_sentiment r) label) reviews).

(** [r.overall_sentiment in ["negative", "neutral"]] *)
Definition is_concerning (r : PRDReview) : bool :=
  String.eqb (overall_sentiment r) "negative"
  || String.eqb (overall_sentiment r) "neutral".

(** ** langgraph_workflow.py *)

Record WorkflowState := mkState {
  prd_content : string;
  personas_count : Z;
  personas : list UserPersona;
  reviews : list PRDReview;
  negative_sentiment_pct : float;
  needs_debate : bool;
  debates : option (list DebateSession);
  final_insights : option AggregatedInsights }.

Definition set_personas (st : WorkflowState) (ps : list UserPersona) :=
  mkState (prd_content st) (personas_count st) ps (reviews st)
          (negative_sentiment_pct st) (needs_debate st) (debates st)
          (final_insights st).

Definition set_reviews (st : WorkflowState) (rs : list PRDReview) (pct : float) :=
  mkState (prd_content st) (personas_count st) (personas st) rs pct
          (needs_debate st) (debates st) (final_insights st).

Definition set_debates (st : WorkflowState) (ds : option (list DebateSession)) :=
  mkState (prd_content st) (personas_count st) (personas st) (reviews st)
          (negative_sentiment_pct st) (needs_debate st) ds (final_insights st).

Definition set_final_insights (st : WorkflowState) (i : option AggregatedInsights) :=
  mkState (prd_content st) (personas_count st) (personas st) (reviews st)
          (negative_sentiment_pct st) (needs_debate st) (debates st) i.

(** Node 1. The personas saved by an earlier run are loaded when the file
    exists; otherwise they are generated (and saved, which this run does not
    read back). *)
Definition generate_personas_node (state : WorkflowState) : M WorkflowState :=
  match personas_file (personas_count state) with
  | Some loaded => ret (set_personas state loaded)
  | None =>
      segments <- load_segments ;;
      personas_per_segment <-
        of_result (floordiv (personas_count state) (List.length segments)) ;;
      generated <- scale_personas segments personas_per_segment ;;
      ret (set_personas state generated)
  end.

(** The request of the batch path: the segment is the literal ["unknown"]. *)
Definition batch_review_request (persona : UserPersona) (prd : string) : ReviewRequest :=
  mkReviewRequest (name persona) (age persona) (occupation persona)
    (tech_comfort persona) (pain_points persona) (goals persona) "unknown" prd.

(** [for i, persona in enumerate(personas): try: ... except: continue] *)
Fixpoint phase1_loop (todo : list UserPersona) (prd : string)
    (acc : list PRDReview) : M (list PRDReview) :=
  match todo with
  | [] => ret acc
  | persona :: rest =>
      acc' <-
        try_except
          (review <- call (ReviewPRD b) (batch_review_request persona prd) ;;
           ret (acc ++ [review]))
          (fun e => print (LogReviewError (name persona) e) ;;; ret acc) ;;
      phase1_loop rest prd acc'
  end.

(** [(negative_count / len(reviews)) * 100], with no test on [reviews]. *)
Definition batch_negative_pct (rs : list PRDReview) : Result float :=
  match rs with
  | [] => Raise division_by_zero
  | _ :: _ => Ok (percent (count_sentiment "negative" rs) (List.length rs))
  end.

(** Node 2. *)
Definition phase1_reviews_node (state : WorkflowState) : M WorkflowState :=
  rs <- phase1_loop (personas state) (prd_content state) [] ;;
  negative_pct <- of_result (batch_negative_pct rs) ;;
  ret (set_reviews state rs negative_pct).

(** The conditional edge. *)
Inductive Route := debate | skip_debate.

Definition batch_threshold : float := float_of_int 30.

Definition should_debate (state : WorkflowState) : Route :=
  if fgt (negative_sentiment_pct state) batch_threshold then debate else skip_debate.

Definition debate_topics : list string := [
  "Pricing model and tier structure";
  "Notification frequency and customization";
  "Accessibility and inclusion features";
  "Technical complexity vs ease of use"
].

Fixpoint phase2_loop (topics : list string) (rs : list PRDReview)
    (acc : list DebateSession) : M (list DebateSession) :=
  match topics with
  | [] => ret acc
  | t :: rest =>
      acc' <-
        try_except
          (d <- call (FacilitateDebate b) (mkDebateRequest t "mixed" (firstn 10 rs)) ;;
           ret (acc ++ [d]))
          (fun e => print (LogFacilitateError e) ;;; ret acc) ;;
      phase2_loop rest rs acc'
  end.

(** Node 3. *)
Definition phase2_debates_node (state : WorkflowState) : M WorkflowState :=
  ds <- phase2_loop debate_topics (reviews state) [] ;;
  ret (set_debates state (Some ds)).

Definition skip_debate_node (state : WorkflowState) : M WorkflowState :=
  ret (set_debates state None).

(** Node 4. [state.get("debates", []) or []]; the oracle call is inside
    [try]; the handler prints and stores [None]. *)
Definition aggregation_node (state : WorkflowState) : M WorkflowState :=
  let ds := match debates state with Some l => l | None => [] end in
  try_except
    (insights <-
       call (AggregateReviews b)
         (mkAggregateRequest (reviews state) ds (List.length (reviews state))) ;;
     ret (set_final_insights state (Some insights)))
    (fun e => print (LogAggregateError e) ;;; ret (set_final_insights state None)).

(** [create_workflow().compile().invoke(initial_state)]: the graph
    generate_personas -> phase1_reviews -> (phase2_debates | skip_debate)
    -> aggregation -> END. *)
Definition invoke (initial_state : WorkflowState) : M WorkflowState :=
  s1 <- generate_personas_node initial_state ;;
  s2 <- phase1_reviews_node s1 ;;
  s3 <- match should_debate s2 with
        | debate => phase2_debates_node s2
        | skip_debate => skip_debate_node s2
        end ;;
  aggregation_node s3.

Definition float_zero : float := S754_zero false.

Definition run_workflow (prd : string) (count : Z) : M (option AggregatedInsights) :=
  final_state <- invoke (mkState prd count [] [] float_zero false None None) ;;
  ret (final_insights final_state).

(** ** api_server.py: the segment allocation *)

Record Allocation := mkAllocation {
  alloc_segment : Segment;
  alloc_count : Z }.

(** [if config.custom_name:] keeps a string that is neither [None] nor empty. *)
Definition truthy (o : option string) : option string :=
  match o with
  | Some "" => None
  | _ => o
  end.

(** The generic template of a custom segment. *)
Definition custom_segment (config : SegmentConfig) : Segment :=
  mkSegment (cfg_segment_id config)
    (mkDemographic "18-65" "varied" "varied" "varied")
    (mkBehavioral "moderate" "moderate" "moderate"
       ["usability"; "value"; "functionality"])
    (truthy (cfg_custom_name config))
    (truthy (cfg_custom_description config)).

(** [next((s for s in all_segments if s['segment_id'] == id), None)] *)
Definition matching_segment (all_segments : list Segment) (id : string)
  : option Segment :=
  find (fun s => String.eqb (segment_id s) id) all_segments.

(** One turn of [for config in segment_configs]. *)
Definition add_config (all_segments : list Segment)
    (segment_distribution : dict Allocation) (config : SegmentConfig)
  : dict Allocation :=
  if 0 <? cfg_count config then
    if startswith (cfg_segment_id config) "custom_" then
      dict_set segment_distribution (cfg_segment_id config)
        (mkAllocation (custom_segment config) (cfg_count config))
    else
      match matching_segment all_segments (cfg_segment_id config) with
      | Some s =>
          dict_set segment_distribution (cfg_segment_id config)
            (mkAllocation s (cfg_count config))
      | None => segment_distribution
      end
  else segment_distribution.

Definition custom_distribution (all_segments : list Segment)
    (segment_configs : list SegmentConfig) : dict Allocation :=
  fold_left (add_config all_segments) segment_configs [].

(** The dict comprehension of the default branch. *)
Definition even_distribution (all_segments : list Segment)
    (personas_per_segment : Z) : dict Allocation :=
  fold_left
    (fun d seg => dict_set d (segment_id seg) (mkAllocation seg personas_per_segment))
    all_segments [].

(** [if segment_configs:] holds for a list that is neither [None] nor empty. *)
Definition build_distribution (num_personas : Z)
    (segment_configs : option (list SegmentConfig)) (all_segments : list Segment)
  : M (dict Allocation) :=
  match segment_configs with
  | Some (c :: cs) =>
      let segment_distribution := custom_distribution all_segments (c :: cs) in
      yield (EvProgress
               (MsgCustomSegments num_personas (List.length segment_distribution))) ;;;
      ret segment_distribution
  | _ =>
      personas_per_segment <-
        of_result (floordiv num_personas (List.length all_segments)) ;;
      yield (EvProgress (MsgAllSegments num_personas (List.length all_segments))) ;;;
      ret (even_distribution all_segments personas_per_segment)
  end.

(** The sum of the counts of an allocation. *)
Definition total_allocated (d : dict Allocation) : Z :=
  fold_right (fun kv acc => alloc_count (snd kv) + acc) 0 d.

(** ** api_server.py: persona generation *)

Record Generated := mkGenerated {
  all_personas : list UserPersona;
  persona_to_segment : dict string;
  variation_index : Z }.

(** [for i in range(count)]: the oracle call is not inside a [try] of its
    own. *)
Fixpoint generate_for_segment (seg_id : string) (segment : Segment) (todo : nat)
    (g : Generated) : M Generated :=
  match todo with
  | O => ret g
  | S todo' =>
      persona <- generate_persona_variation segment (variation_index g) ;;
      let g' := mkGenerated (all_personas g ++ [persona])
                  (dict_set (persona_to_segment g) (name persona) seg_id)
                  (variation_index g + 1) in
      yield (EvPersonaGenerated seg_id persona (List.length (all_personas g'))) ;;;
      generate_for_segment seg_id segment todo' g'
  end.

(** [for segment_id, config in segment_distribution.items()] *)
Fixpoint generate_personas (items : dict Allocation) (g : Generated) : M Generated :=
  match items with
  | [] => ret g
  | (seg_id, config) :: rest =>
      yield (EvProgress (MsgSegment (alloc_count config) seg_id)) ;;;
      g' <- generate_for_segment seg_id (alloc_segment config)
              (Z.to_nat (alloc_count config)) g ;;
      generate_personas rest g'
  end.

(** ** api_server.py: reviews, one by one *)

Definition stream_review_request (persona : UserPersona) (p2s : dict string)
    (prd : string) : ReviewRequest :=
  mkReviewRequest (name persona) (age persona) (occupation persona)
    (tech_comfort persona) (pain_points persona) (goals persona)
    (dict_get_default p2s (name persona) "unknown") prd.

(** One turn of the review loop: the [try] and its handler. *)
Definition review_one (persona : UserPersona) (p2s : dict string) (prd : string)
    (acc : list PRDReview) : M (list PRDReview) :=
  try_except
    (review <- call (ReviewPRD b) (stream_review_request persona p2s prd) ;;
     yield (EvReviewGenerated review (List.length (acc ++ [review]))) ;;;
     ret (acc ++ [review]))
    (fun e => print (LogReviewError (name persona) e) ;;; ret acc).

(** [for i, persona in enumerate(all_personas)] *)
Fixpoint stream_reviews (todo : list UserPersona) (p2s : dict string) (prd : string)
    (acc : list PRDReview) : M (list PRDReview) :=
  match todo with
  | [] => ret acc
  | persona :: rest =>
      acc' <- review_one persona p2s prd acc ;;
      stream_reviews rest p2s prd acc'
  end.

(** [(count / len(reviews) * 100) if reviews else 0] *)
Definition guarded_pct (count : nat) (rs : list PRDReview) : float :=
  match rs with
  | [] => float_zero
  | _ :: _ => percent count (List.length rs)
  end.

Definition negative_pct (rs : list PRDReview) : float :=
  guarded_pct (count_sentiment "negative" rs) rs.

Definition concerning_count (rs : list PRDReview) : nat :=
  (count_sentiment "negative" rs + count_sentiment "neutral" rs)%nat.

Definition concerning_pct (rs : list PRDReview) : float :=
  guarded_pct (concerning_count rs) rs.

(** ** api_server.py: debates *)

Definition stream_threshold : float := float_of_int 20.

(** One turn of the grouping loop: [segment_reviews[segment].append(review)],
    after creating the empty list for a new segment. *)
Definition group_step (segment_reviews : dict (list PRDReview)) (review : PRDReview)
  : dict (list PRDReview) :=
  let segment := reviewer_segment review in
  dict_set segment_reviews segment
    (dict_get_default segment_reviews segment [] ++ [review]).

Definition group_by_segment (rs : list PRDReview) : dict (list PRDReview) :=
  fold_left group_step rs [].

(** [sum(1 for r in seg_reviews if r.overall_sentiment in ["negative", "neutral"])] *)
Definition seg_negative (seg_reviews : list PRDReview) : nat :=
  List.length (filter is_concerning seg_reviews).

Definition debate_request (seg_id : string) (seg_reviews : list PRDReview)
  : DebateRequest :=
  mkDebateRequest ("PRD concerns and missing features for " ++ seg_id)%string
    seg_id seg_reviews.

(** One turn of the debate loop: the eligibility test, the [try] and its
    handler. *)
Definition debate_one (seg_id : string) (seg_reviews : list PRDReview)
    (acc : list DebateSession) : M (list DebateSession) :=
  if (2 <=? seg_negative seg_reviews)%nat then
    try_except
      (yield (EvProgress (MsgDebateRunning seg_id)) ;;;
       d <- call (FacilitateDebate b) (debate_request seg_id seg_reviews) ;;
       yield (EvDebateGenerated d) ;;;
       ret (acc ++ [d]))
      (fun e => print (LogDebateError seg_id e) ;;; ret acc)
  else ret acc.

(** [for segment_id, seg_reviews in segment_reviews.items()] *)
Fixpoint debate_loop (items : dict (list PRDReview)) (acc : list DebateSession)
  : M (list DebateSession) :=
  match items with
  | [] => ret acc
  | (seg_id, seg_reviews) :: rest =>
      acc' <- debate_one seg_id seg_reviews acc ;;
      debate_loop rest acc'
  end.

(** The router of the streaming path and the branch it selects. *)
Definition debate_phase (rs : list PRDReview) : M (list DebateSession) :=
  if fgt (concerning_pct rs) stream_threshold then
    yield (EvProgress (MsgDebatesStarting (concerning_pct rs))) ;;;
    ds <- debate_loop (group_by_segment rs) [] ;;
    match ds with
    | [] => ret tt
    | _ :: _ => yield (EvDebateComplete (List.length ds))
    end ;;;
    ret ds
  else
    yield (EvProgress (MsgDebateSkipped (negative_pct rs))) ;;;
    ret [].

(** ** api_server.py: the generator *)

Definition review_stage (ps : list UserPersona) (p2s : dict string) (prd : string)
  : M (list PRDReview) :=
  yield (EvProgress MsgWorkflow) ;;;
  yield (EvProgress (MsgPhase1 (List.length ps))) ;;;
  yield (EvProgress MsgPhase1Executing) ;;;
  rs <- stream_reviews ps p2s prd [] ;;
  yield (EvReviewComplete (List.length rs) (negative_pct rs)) ;;;
  ret rs.

Definition aggregation_stage (ps : list UserPersona) (rs : list PRDReview)
    (ds : list DebateSession) : M unit :=
  yield (EvProgress MsgAggregating) ;;;
  insights <- call (AggregateReviews b) (mkAggregateRequest rs ds (List.length ps)) ;;
  yield (EvFinalResult insights (List.length rs) (List.length ds)).

Definition persona_stage (num_personas : Z)
    (segment_configs : option (list SegmentConfig)) : M Generated :=
  yield (EvProgress (MsgStarting num_personas)) ;;;
  yield (EvProgress MsgLoadingSegments) ;;;
  all_segments <- load_segments ;;
  segment_distribution <- build_distribution num_personas segment_configs all_segments ;;
  g <- generate_personas segment_distribution (mkGenerated [] [] 0) ;;
  yield (EvProgress (MsgGenerated (List.length (all_personas g)))) ;;;
  ret g.

(** The body of the outer [try], up to the last [yield]. *)
Definition stream_body (prd : string) (num_personas : Z)
    (segment_configs : option (list SegmentConfig)) : M unit :=
  g <- persona_stage num_personas segment_configs ;;
  rs <- review_stage (all_personas g) (persona_to_segment g) prd ;;
  ds <- debate_phase rs ;;
  aggregation_stage (all_personas g) rs ds.

Definition stream_prd_review (prd : string) (num_personas : Z)
    (segment_configs : option (list SegmentConfig)) : M unit :=
  try_except
    (stream_body prd num_personas segment_configs ;;; yield EvComplete)
    (fun e => yield (EvError e)).

(** ** api_server.py: the non-streaming endpoint *)

Record ReviewResponse := mkResponse {
  success : bool;
  insights : AggregatedInsights;
  reviews_count : nat;
  debates_count : nat }.

Definition HTTPException (status_code : Z) (detail : string) : Exn :=
  mkExn "HTTPException" detail.

Definition review_prd (prd : string) (num_personas : Z) : M ReviewResponse :=
  try_except
    (segments <- load_segments ;;
     personas_per_segment <-
       of_result (floordiv num_personas (List.length segments)) ;;
     ps <- scale_personas segments personas_per_segment ;;
     final <- invoke (mkState prd (Z.of_nat (List.length ps)) ps [] float_zero
                        false (Some []) None) ;;
     match final_insights final with
     | None =>
         raise (AttributeError "'NoneType' object has no attribute 'total_reviews'")
     | Some i =>
         match debates final with
         | None => raise (mkExn "TypeError" "object of type 'NoneType' has no len()")
         | Some ds =>
             ret (mkResponse true i (List.length (reviews final)) (List.length ds))
         end
     end)
    (fun e => raise (HTTPException 500 (exn_msg e))).

End Pipeline.

Arguments result {b A}.
Arguments events {b A}.
Arguments console {b A}.
Arguments oracle {b A}.
Arguments mkOutcome {b A}.
Arguments ret {b A}.
Arguments raise {b A}.
Arguments bind {b A B}.
Arguments try_except {b A}.
Arguments yield {b}.
Arguments print {b}.
Arguments call {b Q A}.
Arguments of_result {b A}.

(** ** Observations on runs *)

(** Every event yielded by a computation satisfies [P]. *)
Definition emits (b : Baml) (P : Event -> Prop) {A} (m : M b A) : Prop :=
  forall s, Forall P (events (m s)).

(** A computation that returns whatever the oracle does. *)
Definition never_raises (b : Baml) {A} (m : M b A) : Prop :=
  forall s, exists a, result (m s) = Ok a.

(** Events other than [final_result], [complete] and [error]. *)
Definition ordinary (e : Event) : Prop :=
  event_type e <> "final_result" /\ event_type e <> "complete"
  /\ event_type e <> "error".

(** What the body of the [try] has yielded when it stops: ordinary events
    only if it raised, ordinary events and then [final_result] if it
    returned. *)
Definition body_shape {b : Baml} {A} (o : Outcome b A) : Prop :=
  match result o with
  | Raise _ => Forall ordinary (events o)
  | Ok _ =>
      exists pre i n m,
        events o = pre ++ [EvFinalResult i n m] /\ Forall ordinary pre
  end.

(** Progress events by phase. *)
Definition in_phase (p : string) (e : Event) : bool :=
  match e with
  | EvProgress m => String.eqb (phase m) p
  | _ => false
  end.

Definition has_phase (p : string) (evs : list Event) : bool :=
  existsb (in_phase p) evs.

(** The number of events of a given type in a stream. *)
Definition count_events (t : string) (evs : list Event) : nat :=
  List.length (filter (fun e => String.eqb (event_type e) t) evs).

(** What a shifted mantissa knows of the rational [N / D] it stands for: [m]
    is its integer part, and the round and sticky bits tell where the
    fractional part lies with respect to one half. *)
Definition frac_inv (mrs : shr_record) (N D : Z) : Prop :=
  let m := shr_m mrs in
  match shr_r mrs, shr_s mrs with
  | false, false => N = m * D
  | false, true => m * D < N /\ 2 * N < (2 * m + 1) * D
  | true, false => 2 * N = (2 * m + 1) * D
  | true, true => (2 * m + 1) * D < 2 * N /\ N < (m + 1) * D
  end.

(** The reviews of a segment, in the order of the review list. *)
Definition reviews_of (seg : string) (rs : list PRDReview) : list PRDReview :=
  filter (fun r => String.eqb (reviewer_segment r) seg) rs.

(** The number of negative or neutral reviews of a segment. *)
Definition concerning_in (seg : string) (rs : list PRDReview) : nat :=
  seg_negative (reviews_of seg rs).

Definition nonempty {A} (l : list A) : option (list A) :=
  match l with
  | [] => None
  | _ :: _ => Some l
  end.

(** An oracle that answers under the segment it was asked about. *)
Definition echoes_segment (b : Baml) : Prop :=
  forall rq s r s1,
    ReviewPRD b rq s = (Ok r, s1) -> reviewer_segment r = persona_segment rq.

(** Every generated persona has an entry in [persona_to_segment], and every
    entry names a segment among [K]. *)
Definition tracked (K : list string) (ps : list UserPersona) (p2s : dict string)
  : Prop :=
  (forall p, In p ps -> In (name p) (dict_keys p2s))
  /\ (forall k v, dict_get p2s k = Some v -> In v K).

(** ** The words of the specification

    The review counts that the specification speaks of, written without the
    pipeline's own counters, which are compared with them below. *)

Module Spec.

(** "reviews whose sentiment is negative" *)
Definition negative (r : PRDReview) : bool :=
  if string_dec (overall_sentiment r) "negative" then true else false.

(** "reviews whose sentiment is negative or neutral" *)
Definition concerning (r : PRDReview) : bool :=
  if string_dec (overall_sentiment r) "negative" then true
  else if string_dec (overall_sentiment r) "neutral" then true
  else false.

(** "a segment's reviews" *)
Definition of_segment (seg : string) (r : PRDReview) : bool :=
  if string_dec (reviewer_segment r) seg then true else false.

(** The number of reviews with a property. *)
Fixpoint count (p : PRDReview -> bool) (rs : list PRDReview) : nat :=
  match rs with
  | [] => 0
  | r :: rest => if p r then S (count p rest) else count p rest
  end.

End Spec.

(** ** Calls made to the oracle *)

Section Attempts.

Context {S Q A : Type}.




Fixpoint raised (answers : list (Result A)) : list Exn :=
  match answers with
  | [] => []
  | Ok _ :: rest => raised rest
  | Raise e :: rest => e :: raised rest
  end.

End Attempts.
















(** ** The aggregation calls of a run *)

(** The oracle [b], made to keep in its state the request and the answer of
    every aggregation call, latest last; its answers are those of [b]. *)
Definition recording (b : Baml) : Baml :=
  mkBaml (OracleState b * list (AggregateRequest * Result AggregatedInsights))
    (fun rq s => let '(r, s1) := GeneratePersona b rq (fst s) in (r, (s1, snd s)))
    (fun rq s => let '(r, s1) := ReviewPRD b rq (fst s) in (r, (s1, snd s)))
    (fun rq s => let '(r, s1) := FacilitateDebate b rq (fst s) in (r, (s1, snd s)))
    (fun rq s =>
       let '(r, s1) := AggregateReviews b rq (fst s) in
       (r, (s1, snd s ++ [(rq, r)]))).

Definition aggregation_calls {b : Baml} (s : OracleState (recording b))
  : list (AggregateRequest * Result AggregatedInsights) :=
  snd s.

(** The outcome over the recording oracle is the outcome over [b], the
    record apart. *)
Definition same_run {b : Baml} {A} (o : Outcome b A) (o' : Outcome (recording b) A)
  : Prop :=
  result o' = result o /\ events o' = events o /\ console o' = console o
  /\ fst (oracle o') = oracle o.

Definition simulates {b : Baml} {A} (m : M b A) (m' : M (recording b) A) : Prop :=
  forall s log, same_run (m s) (m' (s, log)).

(** A computation that leaves an observation of the oracle state as it
    found it. *)
Definition keeps (b : Baml) {X} (obs : OracleState b -> X) {A} (m : M b A) : Prop :=
  forall s, obs (oracle (m s)) = obs s.

(** A computation that makes no aggregation call, or one whose answer [r]
    stands in the relation [R] to its result and its console. *)
Definition calls_once {b : Baml} {A}
    (R : Result AggregatedInsights -> Result A -> list LogLine -> Prop)
    (m : M (recording b) A) : Prop :=
  forall s,
    aggregation_calls (oracle (m s)) = aggregation_calls s
    \/ exists rq r,
         aggregation_calls (oracle (m s)) = aggregation_calls s ++ [(rq, r)]
         /\ R r (result (m s)) (console (m s)).

(** The streaming body after an aggregation call answered [r]. *)
Definition streamed (r : Result AggregatedInsights) (res : Result unit)
    (_ : list LogLine) : Prop :=
  res = match r with Ok _ => Ok tt | Raise e => Raise e end.

(** The batch workflow after an aggregation call answered [r]. *)
Definition aggregated (r : Result AggregatedInsights) (res : Result WorkflowState)
    (con : list LogLine) : Prop :=
  exists final,
    res = Ok final
    /\ match r with
       | Ok i => final_insights final = Some i
       | Raise e =>
           final_insights final = None
           /\ exists before, con = before ++ [LogAggregateError e]
       end.

(** ** Scripted oracles and a sample catalog *)

Module Scenario.

(** The number of calls made so far to each operation. *)
Record Counters := mkCounters {
  n_persona : nat;
  n_review : nat;
  n_debate : nat;
  n_aggregate : nat }.

(** Which calls raise (by call number), and the sentiment of each review. *)
Record Script := mkScript {
  persona_fails : nat -> bool;
  review_fails : nat -> bool;
  debate_fails : nat -> bool;
  aggregate_fails : nat -> bool;
  sentiment_of : nat -> string }.

Definition oracle_error : Exn := mkExn "BamlError" "the oracle call failed".

Definition decimal (n : nat) : string := NilZero.string_of_uint (Nat.to_uint n).

Definition persona_of (k : nat) : UserPersona :=
  mkPersona ("persona_" ++ decimal k)%string 30 "engineer" "moderate" "medium"
    [] [] [] "".

(** The reviewer answers under the name and the segment of the request. *)
Definition review_of (rq : ReviewRequest) (sentiment : string) : PRDReview :=
  mkReview (persona_name rq) (persona_segment rq) sentiment 5 [] [] [] [] "" "".

Definition debate_of (rq : DebateRequest) : DebateSession :=
  mkDebate (dr_topic rq) (map reviewer_name (dr_reviews_json rq)) [] [] "".

Definition insights_of (rq : AggregateRequest) : AggregatedInsights :=
  let rs := ar_reviews_json rq in
  mkInsights (List.length rs)
    (mkBreakdown (count_sentiment "positive" rs) (count_sentiment "neutral" rs)
       (count_sentiment "negative" rs) (List.length rs))
    [] [] [] [] (S754_zero false) "".

Definition answer {A} (fails : bool) (a : A) : Result A :=
  if fails then Raise oracle_error else Ok a.

Definition scripted (sc : Script) : Baml :=
  mkBaml Counters
    (fun _ c =>
       (answer (persona_fails sc (n_persona c)) (persona_of (n_persona c)),
        mkCounters (S (n_persona c)) (n_review c) (n_debate c) (n_aggregate c)))
    (fun rq c =>
       (answer (review_fails sc (n_review c))
               (review_of rq (sentiment_of sc (n_review c))),
        mkCounters (n_persona c) (S (n_review c)) (n_debate c) (n_aggregate c)))
    (fun rq c =>
       (answer (debate_fails sc (n_debate c)) (debate_of rq),
        mkCounters (n_persona c) (n_review c) (S (n_debate c)) (n_aggregate c)))
    (fun rq c =>
       (answer (aggregate_fails sc (n_aggregate c)) (insights_of rq),
        mkCounters (n_persona c) (n_review c) (n_debate c) (S (n_aggregate c)))).

Definition start : Counters := mkCounters 0 0 0 0.

Definition never (_ : nat) : bool := false.
Definition always (_ : nat) : bool := true.

(** Every call succeeds and every review is positive. *)
Definition all_positive : Script :=
  mkScript never never never never (fun _ => "positive").

(** Modelled from the spec: [sample_data/demographic_segments.json] is not part
    of the sources; the catalog has four segments. *)
Definition sample_segment (id : string) : Segment :=
  mkSegment id (mkDemographic "25-40" "medium" "single" "full-time")
    (mkBehavioral "high" "high" "moderate" ["speed"; "price"]) None None.

Definition catalog : list Segment :=
  map sample_segment ["busy_parents"; "young_professionals"; "retirees"; "students"].

Definition no_saved_personas (_ : Z) : option (list UserPersona) := None.

Definition sample_review (seg sentiment : string) : PRDReview :=
  mkReview "reviewer" seg sentiment 5 [] [] [] [] "" "".

(** Five reviews, one of them neutral: 20.0 percent are concerning. *)
Definition one_in_five : list PRDReview :=
  sample_review "students" "neutral"
  :: repeat (sample_review "students" "positive") 4.

(** Ten reviews, three of them negative: 30.0 percent are negative. *)
Definition three_in_ten : list PRDReview :=
  repeat (sample_review "students" "negative") 3
  ++ repeat (sample_review "students" "positive") 7.

Definition empty_state : WorkflowState :=
  mkState "prd" 10 [] [] (S754_zero false) false None None.

(** Every review call raises. *)
Definition reviews_fail : Script :=
  mkScript never always never never (fun _ => "positive").

(** The second, fifth and eighth review calls raise. *)
Definition three_reviews_fail : Script :=
  mkScript never (fun k => Nat.eqb (k mod 3) 1 && Nat.ltb k 9) never never
           (fun _ => "positive").

(** The first persona call raises. *)
Definition first_persona_fails : Script :=
  mkScript (fun k => Nat.eqb k 0) never never never (fun _ => "positive").

(** The aggregation call raises. *)
Definition aggregation_fails : Script :=
  mkScript never never never always (fun _ => "positive").

(** Two concerning reviews of students, one of retirees. *)
Definition mixed_reviews : list PRDReview :=
  [ sample_review "students" "neutral";
    sample_review "retirees" "negative";
    sample_review "students" "negative";
    sample_review "retirees" "positive" ].

(** A custom entry, an entry of an unknown segment, a custom entry asking for
    no persona. *)
Definition custom_devs : SegmentConfig :=
  mkSegmentConfig "custom_devs" 3 (Some "Developers") None.
Definition martians : SegmentConfig := mkSegmentConfig "martians" 5 None None.
Definition custom_nobody : SegmentConfig := mkSegmentConfig "custom_nobody" 0 None None.

(** The first six reviews are negative, the others positive. *)
Definition six_negative : Script :=
  mkScript never never never never
           (fun k => if Nat.ltb k 6 then "negative" else "positive").

(** Ten personas in one custom segment. *)
Definition ten_custom : option (list SegmentConfig) :=
  Some [mkSegmentConfig "custom_devs" 10 None None].

End Scenario.

(** ** An oracle whose personas all bear one name *)

Module Namesake.




End Namesake.

(** ** Ten personas, of whose reviews the first three are negative *)

Module Boundary.

Definition three_negative : Scenario.Script :=
  Scenario.mkScript Scenario.never Scenario.never Scenario.never Scenario.never
    (fun k => if Nat.ltb k 3 then "negative" else "positive").

Definition ten_personas : WorkflowState :=
  set_personas Scenario.empty_state (map Scenario.persona_of (seq 0 10)).

End Boundary.

(** * Properties *)

(** ** Facts about dicts *)

Section DictFacts.

Context {V : Type}.
Implicit Types (d : dict V) (k : string) (v : V).

Lemma dict_get_set_eq d k v : dict_get (dict_set d k v) k = Some v.
Proof.
  induction d as [| [k' v'] d IH]; simpl.
  - now rewrite String.eqb_refl.
  - destruct (String.eqb k' k) eqn:E; simpl; rewrite E; [reflexivity | exact IH].
Qed.

Lemma dict_get_set_neq d k v k' :
  k <> k' -> dict_get (dict_set d k v) k' = dict_get d k'.
Proof.
  intros Hne. induction d as [| [k0 v0] d IH]; simpl.
  - destruct (String.eqb_spec k k'); [contradiction | reflexivity].
  - destruct (String.eqb_spec k0 k) as [-> | Hk]; simpl.
    + destruct (String.eqb_spec k k'); [contradiction | reflexivity].
    + now rewrite IH.
Qed.

Lemma dict_keys_set d k v k' :
  In k' (dict_keys (dict_set d k v)) <-> k' = k \/ In k' (dict_keys d).
Proof.
  unfold dict_keys. induction d as [| [k0 v0] d IH]; simpl.
  - intuition.
  - destruct (String.eqb_spec k0 k) as [-> | Hk]; simpl.
    + intuition.
    + rewrite IH. intuition.
Qed.

Lemma dict_set_NoDup d k v :
  NoDup (dict_keys d) -> NoDup (dict_keys (dict_set d k v)).
Proof.
  unfold dict_keys. induction d as [| [k0 v0] d IH]; simpl; intros Hnd.
  - constructor; [intros [] | constructor].
  - inversion Hnd as [| ? ? Hnotin Hnd']; subst.
    destruct (String.eqb_spec k0 k) as [-> | Hk]; simpl.
    + now constructor.
    + constructor; [| now apply IH].
      intros Hin. apply (dict_keys_set d k v k0) in Hin.
      destruct Hin as [-> | Hin]; [now apply Hk | now apply Hnotin].
Qed.

Lemma dict_get_In d k v : dict_get d k = Some v -> In (k, v) d.
Proof.
  induction d as [| [k0 v0] d IH]; simpl; [discriminate |].
  destruct (String.eqb_spec k0 k) as [-> | Hk].
  - intros [= ->]. now left.
  - intros H. right. now apply IH.
Qed.

Lemma dict_In_get d k v :
  NoDup (dict_keys d) -> In (k, v) d -> dict_get d k = Some v.
Proof.
  unfold dict_keys. induction d as [| [k0 v0] d IH]; simpl; [intros _ [] |].
  intros Hnd [Heq | Hin]; inversion Hnd as [| ? ? Hnotin Hnd']; subst.
  - injection Heq as -> ->. now rewrite String.eqb_refl.
  - destruct (String.eqb_spec k0 k) as [-> | Hk]; [| now apply IH].
    exfalso. apply Hnotin. change k with (fst (k, v)). now apply in_map.
Qed.

(** A new key goes to the end. *)
Lemma dict_set_new d k v : ~ In k (dict_keys d) -> dict_set d k v = d ++ [(k, v)].
Proof.
  unfold dict_keys. induction d as [| [k0 v0] d IH]; simpl; intros Hnotin.
  - reflexivity.
  - destruct (String.eqb_spec k0 k) as [-> | Hk]; [tauto |].
    rewrite IH by tauto. reflexivity.
Qed.

(** Every entry after an assignment is the new one or an old one. *)
Lemma dict_set_In d k v k' v' :
  In (k', v') (dict_set d k v) -> (k' = k /\ v' = v) \/ In (k', v') d.
Proof.
  induction d as [| [k0 v0] d IH]; simpl.
  - intros [[= <- <-] | []]. now left.
  - destruct (String.eqb_spec k0 k) as [-> | Hk]; simpl.
    + intros [[= <- <-] | Hin]; [now left | right; now right].
    + intros [Heq | Hin]; [right; now left |].
      destruct (IH Hin) as [H | H]; [now left | right; now right].
Qed.

Lemma dict_key_get d k : In k (dict_keys d) -> exists v, dict_get d k = Some v.
Proof.
  unfold dict_keys. induction d as [| [k0 v0] d IH]; simpl; [intros [] |].
  destruct (String.eqb_spec k0 k) as [-> | Hk].
  - intros _. now exists v0.
  - intros [Heq | Hin]; [contradiction | now apply IH].
Qed.

Lemma dict_get_key d k v : dict_get d k = Some v -> In k (dict_keys d).
Proof.
  intros H. apply dict_get_In in H. unfold dict_keys.
  change k with (fst (k, v)). now apply in_map.
Qed.

End DictFacts.

(** ** Reasoning about computations *)

Section Computations.

Variable b : Baml.

Lemma bind_ok {A B} (m : M b A) (f : A -> M b B) s a :
  result (m s) = Ok a ->
  bind m f s =
  mkOutcome (result (f a (oracle (m s))))
            (events (m s) ++ events (f a (oracle (m s))))
            (console (m s) ++ console (f a (oracle (m s))))
            (oracle (f a (oracle (m s)))).
Proof. intros H. unfold bind. now rewrite H. Qed.


(** A computation that returns has run both halves of a [bind]. *)
Lemma bind_result_ok {A B} (m : M b A) (f : A -> M b B) s x :
  result (bind m f s) = Ok x ->
  exists a, result (m s) = Ok a /\ result (f a (oracle (m s))) = Ok x.
Proof.
  unfold bind. destruct (result (m s)) as [a | e] eqn:E; simpl; intros H.
  - now exists a.
  - discriminate.
Qed.

(** Two computations that start alike and go on alike are equal. *)
Lemma bind_congr {A B} (m m' : M b A) (f g : A -> M b B) s :
  m s = m' s ->
  (forall a, result (m s) = Ok a -> f a (oracle (m s)) = g a (oracle (m s))) ->
  bind m f s = bind m' g s.
Proof.
  intros Hm Hfg. unfold bind. rewrite <- Hm.
  destruct (result (m s)) as [a | e] eqn:E; [| reflexivity].
  now rewrite (Hfg a).
Qed.

Lemma try_except_ok {A} (m : M b A) h s a :
  result (m s) = Ok a -> try_except m h s = m s.
Proof. intros H. unfold try_except. now rewrite H. Qed.

Lemma try_except_raise {A} (m : M b A) h s e :
  result (m s) = Raise e ->
  try_except m h s =
  mkOutcome (result (h e (oracle (m s))))
            (events (m s) ++ events (h e (oracle (m s))))
            (console (m s) ++ console (h e (oracle (m s))))
            (oracle (h e (oracle (m s)))).
Proof. intros H. unfold try_except. now rewrite H. Qed.

(** *** What a computation can yield *)

Section Emits.

Variable P : Event -> Prop.

Lemma emits_ret {A} (a : A) : emits b P (ret a).
Proof. intros s. constructor. Qed.

Lemma emits_raise {A} e : emits b P (@raise b A e).
Proof. intros s. constructor. Qed.

Lemma emits_print l : emits b P (@print b l).
Proof. intros s. constructor. Qed.

Lemma emits_yield e : P e -> emits b P (@yield b e).
Proof. intros H s. simpl. now repeat constructor. Qed.

Lemma emits_call {Q A} (op : Q -> OracleState b -> Result A * OracleState b) q :
  emits b P (call op q).
Proof. intros s. unfold call. destruct (op q s). constructor. Qed.

Lemma emits_of_result {A} (r : Result A) : emits b P (@of_result b A r).
Proof. destruct r; [apply emits_ret | apply emits_raise]. Qed.

Lemma emits_bind {A B} (m : M b A) (f : A -> M b B) :
  emits b P m -> (forall a, emits b P (f a)) -> emits b P (bind m f).
Proof.
  intros Hm Hf s. unfold bind.
  destruct (result (m s)); simpl.
  - apply Forall_app. split; [apply Hm | apply Hf].
  - apply Hm.
Qed.

Lemma emits_try_except {A} (m : M b A) h :
  emits b P m -> (forall e, emits b P (h e)) -> emits b P (try_except m h).
Proof.
  intros Hm Hh s. unfold try_except.
  destruct (result (m s)); simpl.
  - apply Hm.
  - apply Forall_app. split; [apply Hm | apply Hh].
Qed.

End Emits.

End Computations.

(** Splits a computation along its [bind]s, [try]s and [yield]s. *)
Ltac emits_step :=
  first [ apply emits_ret | apply emits_raise | apply emits_print
        | apply emits_call | apply emits_of_result
        | apply emits_bind; [ | intros ? ]
        | apply emits_try_except; [ | intros ? ]
        | apply emits_yield ].
Ltac emits_auto := repeat emits_step.

(** Finds an event in an evaluated stream. *)
Ltac find_in := vm_compute; repeat (first [left; reflexivity | right]).

(** ** The variation directive *)

Lemma variation_index_in_range (i : Z) :
  (Z.to_nat (i mod Z.of_nat (List.length VARIATION_PROMPTS))
   < List.length VARIATION_PROMPTS)%nat.
Proof.
  assert (H : 0 <= i mod Z.of_nat (List.length VARIATION_PROMPTS)
              < Z.of_nat (List.length VARIATION_PROMPTS))
    by (apply Z.mod_pos_bound; simpl; lia).
  lia.
Qed.

(** C9. For every variation index, negative ones included, the directive is
    the entry of the fixed pool at position [index mod 10]; two indices with
    the same remainder select the same entry; and whatever the state of the
    oracle (however many calls were made before), synthesizing a persona for
    a segment and an index issues the request built from that segment and
    that entry. *)
Theorem variation_directive_is_pool_entry (i : Z) :
  exists directive,
    nth_error VARIATION_PROMPTS (Z.to_nat (i mod 10)) = Some directive
    /\ variation_prompt i = directive
    /\ (forall j, i mod 10 = j mod 10 -> variation_prompt j = directive)
    /\ (forall (b : Baml) (segment : Segment) (s : OracleState b),
          generate_persona_variation b segment i s
          = call (GeneratePersona b) (segment_data segment directive) s).
Proof.
  exists (variation_prompt i).
  split; [| split; [reflexivity | split]].
  - unfold variation_prompt.
    apply nth_error_nth'. apply variation_index_in_range.
  - intros j Hj. unfold variation_prompt. simpl List.length.
    change (Z.of_nat 10) with 10. now rewrite Hj.
  - reflexivity.
Qed.

(** ** The shape of the event stream *)

Ltac ordinary_event := unfold ordinary; simpl; repeat split; discriminate.

Section StreamShape.

Variable b : Baml.
Variable segments_file : Result (list Segment).

Lemma emits_generate_for_segment seg_id segment todo :
  forall g, emits b ordinary (generate_for_segment b seg_id segment todo g).
Proof.
  induction todo as [| todo IH]; intros g; simpl.
  - apply emits_ret.
  - unfold generate_persona_variation. emits_auto; [ordinary_event | apply IH].
Qed.

Lemma emits_generate_personas items :
  forall g, emits b ordinary (generate_personas b items g).
Proof.
  induction items as [| [seg_id config] rest IH]; intros g; simpl.
  - apply emits_ret.
  - emits_auto; [ordinary_event | apply emits_generate_for_segment | apply IH].
Qed.

Lemma emits_build_distribution n cfgs all_segments :
  emits b ordinary (build_distribution b n cfgs all_segments).
Proof.
  unfold build_distribution.
  destruct cfgs as [[| c cs] |]; emits_auto; ordinary_event.
Qed.

Lemma emits_persona_stage n cfgs :
  emits b ordinary (persona_stage b segments_file n cfgs).
Proof.
  unfold persona_stage, load_segments.
  emits_auto; try ordinary_event.
  - apply emits_build_distribution.
  - apply emits_generate_personas.
Qed.

Lemma emits_stream_reviews todo p2s prd :
  forall acc, emits b ordinary (stream_reviews b todo p2s prd acc).
Proof.
  induction todo as [| persona rest IH]; intros acc; cbn [stream_reviews].
  - apply emits_ret.
  - apply emits_bind; [| intros ?; apply IH].
    unfold review_one. emits_auto. ordinary_event.
Qed.

Lemma emits_review_stage ps p2s prd :
  emits b ordinary (review_stage b ps p2s prd).
Proof.
  unfold review_stage. emits_auto; try ordinary_event.
  apply emits_stream_reviews.
Qed.

Lemma emits_debate_loop (P : Event -> Prop) items :
  (forall seg, P (EvProgress (MsgDebateRunning seg))) ->
  (forall d, P (EvDebateGenerated d)) ->
  forall acc, emits b P (debate_loop b items acc).
Proof.
  intros Hrun Hgen.
  induction items as [| [seg_id seg_reviews] rest IH]; intros acc;
    cbn [debate_loop].
  - apply emits_ret.
  - apply emits_bind; [| intros ?; apply IH].
    unfold debate_one.
    destruct (2 <=? seg_negative seg_reviews)%nat; emits_auto;
      [apply Hrun | apply Hgen].
Qed.

Lemma emits_debate_phase rs : emits b ordinary (debate_phase b rs).
Proof.
  unfold debate_phase.
  destruct (fgt (concerning_pct rs) stream_threshold); emits_auto;
    try ordinary_event.
  - apply emits_debate_loop; intros; ordinary_event.
  - match goal with |- emits _ _ (match ?l with _ => _ end) => destruct l end;
      emits_auto; ordinary_event.
Qed.

Lemma body_shape_bind {A B} (m : M b A) (f : A -> M b B) :
  emits b ordinary m -> (forall a s, body_shape (f a s)) ->
  forall s, body_shape (bind m f s).
Proof.
  intros Hm Hf s. unfold body_shape, bind.
  destruct (result (m s)) as [a | e] eqn:E; simpl.
  - specialize (Hf a (oracle (m s))). unfold body_shape in Hf.
    destruct (result (f a (oracle (m s)))).
    + destruct Hf as (pre & i & n & k & Hev & Hpre).
      exists (events (m s) ++ pre), i, n, k. split.
      * rewrite Hev. now rewrite app_assoc.
      * apply Forall_app. split; [apply Hm | exact Hpre].
    + apply Forall_app. split; [apply Hm | exact Hf].
  - apply Hm.
Qed.

Lemma body_shape_aggregation ps rs ds s :
  body_shape (aggregation_stage b ps rs ds s).
Proof.
  unfold body_shape, aggregation_stage, bind, call, yield. simpl.
  destruct (AggregateReviews b _ s) as [[i | e] s']; simpl.
  - exists [EvProgress MsgAggregating], i, (List.length rs), (List.length ds).
    split; [reflexivity |]. repeat constructor; discriminate.
  - repeat constructor; discriminate.
Qed.

Lemma body_shape_stream_body prd n cfgs s :
  body_shape (stream_body b segments_file prd n cfgs s).
Proof.
  unfold stream_body.
  apply body_shape_bind; [apply emits_persona_stage | intros g s1].
  apply body_shape_bind; [apply emits_review_stage | intros rs s2].
  apply body_shape_bind; [apply emits_debate_phase | intros ds s3].
  apply body_shape_aggregation.
Qed.

(** The stream of a run, by the way the body of the [try] ended. *)
Lemma stream_prd_review_cases prd n cfgs s :
  let body := stream_body b segments_file prd n cfgs s in
  let run := stream_prd_review b segments_file prd n cfgs s in
  result run = Ok tt
  /\ ((exists pre i k m,
         result body = Ok tt
         /\ events run = pre ++ [EvFinalResult i k m; EvComplete]
         /\ Forall ordinary pre)
      \/ (exists pre e,
            result body = Raise e
            /\ events run = pre ++ [EvError e]
            /\ Forall ordinary pre)).
Proof.
  intros body run.
  pose proof (body_shape_stream_body prd n cfgs s) as Hshape.
  fold body in Hshape. unfold body_shape in Hshape.
  subst run. unfold stream_prd_review, try_except, bind, yield.
  fold body.
  destruct (result body) as [[] | e] eqn:E; simpl.
  - split; [reflexivity | left].
    destruct Hshape as (pre & i & k & m & Hev & Hpre).
    exists pre, i, k, m. repeat split; [| exact Hpre].
    rewrite Hev. now rewrite <- app_assoc.
  - split; [reflexivity | right].
    exists (events body), e. repeat split. exact Hshape.
Qed.

End StreamShape.

(** C8. The generator always ends normally, and the events it has yielded
    are a sequence of events that are neither [complete] nor [error],
    followed by exactly one last event that is [complete] or [error]; so an
    [error] event is never followed by another event. *)
Theorem stream_ends_in_complete_or_error
    (b : Baml) (segments_file : Result (list Segment)) (prd : string)
    (num_personas : Z) (segment_configs : option (list SegmentConfig))
    (s : OracleState b) :
  let run := stream_prd_review b segments_file prd num_personas segment_configs s in
  result run = Ok tt
  /\ exists before last,
       events run = before ++ [last]
       /\ (last = EvComplete \/ exists e, last = EvError e)
       /\ Forall (fun ev => event_type ev <> "complete" /\ event_type ev <> "error")
            before.
Proof.
  intros run.
  destruct (stream_prd_review_cases b segments_file prd num_personas
              segment_configs s) as [Hres Hcases].
  split; [exact Hres |].
  destruct Hcases as [(pre & i & k & m & _ & Hev & Hpre) | (pre & e & _ & Hev & Hpre)].
  - exists (pre ++ [EvFinalResult i k m]), EvComplete. repeat split.
    + subst run. rewrite Hev. now rewrite <- app_assoc.
    + now left.
    + apply Forall_app. split.
      * eapply Forall_impl; [| exact Hpre]. unfold ordinary. tauto.
      * repeat constructor; discriminate.
  - exists pre, (EvError e). repeat split.
    + exact Hev.
    + right. now exists e.
    + eapply Forall_impl; [| exact Hpre]. unfold ordinary. tauto.
Qed.

(** Four personas, one per catalog segment, all reviews positive: the debate
    is skipped and the stream ends with one [final_result] and one
    [complete], in that order. *)
Example all_positive_run :
  let run := stream_prd_review (Scenario.scripted Scenario.all_positive)
               (Ok Scenario.catalog) "prd" 4 None Scenario.start in
  map event_type (events run)
  = [ "progress"; "progress"; "progress";
      "progress"; "persona_generated"; "progress"; "persona_generated";
      "progress"; "persona_generated"; "progress"; "persona_generated";
      "progress"; "progress"; "progress"; "progress";
      "review_generated"; "review_generated"; "review_generated";
      "review_generated"; "review_complete";
      "progress"; "progress"; "final_result"; "complete" ]
  /\ has_phase "debate_skipped" (events run) = true
  /\ count_events "debate_generated" (events run) = 0%nat.
Proof. cbv zeta. repeat split; vm_compute; reflexivity. Qed.

(** Ten personas in one segment, six negative reviews: 60 percent is above
    both thresholds, the segment is debated in the streaming path and the
    batch router answers [debate]. *)
Example six_of_ten_negative_run :
  let b := Scenario.scripted Scenario.six_negative in
  let run := stream_prd_review b (Ok Scenario.catalog) "prd" 10 Scenario.ten_custom
               Scenario.start in
  filter (in_phase "debate_running") (events run)
  = [EvProgress (MsgDebateRunning "custom_devs")]
  /\ count_events "debate_generated" (events run) = 1%nat
  /\ last (events run) (EvError division_by_zero) = EvComplete
  /\ should_debate
       (set_reviews Scenario.empty_state
          (repeat (Scenario.sample_review "custom_devs" "negative") 6
           ++ repeat (Scenario.sample_review "custom_devs" "positive") 4)
          (percent 6 10))
     = debate.
Proof. cbv zeta. repeat split; vm_compute; reflexivity. Qed.

(** ** Binary64 arithmetic

    [count / total * 100 > T] is the exact comparison
    [T * total < 100 * count] for [T = 20] and [T = 30] and every
    [count <= total < 2 ^ 52]: the quotient and the product are each within
    half a unit in the last place of the exact value. *)

(** *** The number of binary digits *)

Lemma digits2_pos_bounds p :
  2 ^ (Zpos (digits2_pos p) - 1) <= Zpos p < 2 ^ Zpos (digits2_pos p).
Proof.
  induction p as [p IH | p IH |]; cbn [digits2_pos].
  - rewrite Pos2Z.inj_succ, Pos2Z.inj_xI.
    replace (Z.succ (Zpos (digits2_pos p)) - 1) with (Z.succ (Zpos (digits2_pos p) - 1)) by lia.
    rewrite !Z.pow_succ_r by lia. lia.
  - rewrite Pos2Z.inj_succ, (Pos2Z.inj_xO p).
    replace (Z.succ (Zpos (digits2_pos p)) - 1) with (Z.succ (Zpos (digits2_pos p) - 1)) by lia.
    rewrite !Z.pow_succ_r by lia. lia.
  - simpl. lia.
Qed.

Lemma digits2_pos_unique p d :
  2 ^ (d - 1) <= Zpos p < 2 ^ d -> Zpos (digits2_pos p) = d.
Proof.
  intros [Hlo Hhi]. pose proof (digits2_pos_bounds p) as [Hlo' Hhi'].
  assert (Hd : 0 < d).
  { destruct (Z.ltb_spec 0 d); [assumption |].
    destruct (Z.eq_dec d 0) as [-> | ]; [simpl in Hhi; lia |].
    rewrite Z.pow_neg_r in Hhi by lia. lia. }
  set (d' := Zpos (digits2_pos p)) in *.
  assert (d' - 1 < d) by (apply (Z.pow_lt_mono_r_iff 2); lia).
  assert (d - 1 < d') by (apply (Z.pow_lt_mono_r_iff 2); lia).
  lia.
Qed.

Lemma fexp_normal e : -1021 <= e -> fexp prec emax e = e - 53.
Proof. unfold fexp, emin, prec, emax. lia. Qed.

(** *** Shifting right and rounding *)

Lemma shr_1_inv mrs N D :
  0 <= shr_m mrs -> 0 < D -> frac_inv mrs N D ->
  shr_m (shr_1 mrs) = shr_m mrs / 2 /\ frac_inv (shr_1 mrs) N (2 * D).
Proof.
  destruct mrs as [m r s]. cbn [shr_m]. intros Hm HD Hinv.
  assert (Hdiv : forall a b, 0 <= b < 2 -> (2 * a + b) / 2 = a).
  { intros a b Hb. symmetry. apply (Z.div_unique _ 2 a b); lia. }
  destruct m as [| p | p]; [| | lia].
  - unfold frac_inv in *. cbn [shr_1 shr_m shr_r shr_s orb] in *.
    destruct r, s; cbn [orb]; split; try reflexivity; lia.
  - destruct p as [p | p |]; unfold frac_inv in *;
      cbn [shr_1 shr_m shr_r shr_s] in *.
    + rewrite (Pos2Z.inj_xI p) in *. rewrite (Hdiv (Zpos p) 1) by lia.
      set (P := Zpos p) in *.
      destruct r, s; cbn [orb]; split; try reflexivity; nia.
    + rewrite (Pos2Z.inj_xO p) in *.
      replace (2 * Zpos p) with (2 * Zpos p + 0) at 1 by lia.
      rewrite (Hdiv (Zpos p) 0) by lia.
      set (P := Zpos p) in *.
      destruct r, s; cbn [orb]; split; try reflexivity; nia.
    + destruct r, s; cbn [orb]; split; try reflexivity; lia.
Qed.

Lemma shr_1_nonneg mrs : 0 <= shr_m mrs -> 0 <= shr_m (shr_1 mrs).
Proof.
  destruct mrs as [m r s]. cbn [shr_m]. intros Hm.
  destruct m as [| p | p]; [cbn; lia | | lia].
  destruct p; cbn; lia.
Qed.

Lemma iter_shr_inv p :
  forall mrs N D,
    0 <= shr_m mrs -> 0 < D -> frac_inv mrs N D ->
    0 <= shr_m (iter_pos shr_1 p mrs)
    /\ shr_m (iter_pos shr_1 p mrs) = shr_m mrs / 2 ^ Zpos p
    /\ frac_inv (iter_pos shr_1 p mrs) N (2 ^ Zpos p * D).
Proof.
  induction p as [p IH | p IH |]; intros mrs N D Hm HD Hinv; cbn [iter_pos].
  - destruct (shr_1_inv mrs N D Hm HD Hinv) as [E1 I1].
    pose proof (shr_1_nonneg mrs Hm) as P1.
    destruct (IH _ N (2 * D) P1 ltac:(lia) I1) as (P2 & E2 & I2).
    assert (HD2 : 0 < 2 ^ Zpos p * (2 * D)) by (pose proof (Z.pow_pos_nonneg 2 (Zpos p)); nia).
    destruct (IH _ N _ P2 HD2 I2) as (P3 & E3 & I3).
    split; [exact P3 |]. split.
    + rewrite E3, E2, E1, !Z.div_div by (try apply Z.pow_pos_nonneg; lia).
      f_equal. rewrite (Pos2Z.inj_xI p).
      replace (2 * Zpos p + 1) with (1 + Zpos p + Zpos p) by lia.
      rewrite !Z.pow_add_r by lia. change (2 ^ 1) with 2. ring.
    + replace (2 ^ Zpos p~1 * D) with (2 ^ Zpos p * (2 ^ Zpos p * (2 * D))); [exact I3 |].
      rewrite (Pos2Z.inj_xI p).
      replace (2 * Zpos p + 1) with (1 + Zpos p + Zpos p) by lia.
      rewrite !Z.pow_add_r by lia. change (2 ^ 1) with 2. ring.
  - destruct (IH _ N D Hm HD Hinv) as (P2 & E2 & I2).
    assert (HD2 : 0 < 2 ^ Zpos p * D) by (pose proof (Z.pow_pos_nonneg 2 (Zpos p)); nia).
    destruct (IH _ N _ P2 HD2 I2) as (P3 & E3 & I3).
    split; [exact P3 |]. split.
    + rewrite E3, E2, !Z.div_div by (try apply Z.pow_pos_nonneg; lia).
      f_equal. rewrite (Pos2Z.inj_xO p).
      replace (2 * Zpos p) with (Zpos p + Zpos p) by lia.
      rewrite !Z.pow_add_r by lia. ring.
    + replace (2 ^ Zpos p~0 * D) with (2 ^ Zpos p * (2 ^ Zpos p * D)); [exact I3 |].
      rewrite (Pos2Z.inj_xO p).
      replace (2 * Zpos p) with (Zpos p + Zpos p) by lia.
      rewrite !Z.pow_add_r by lia. ring.
  - destruct (shr_1_inv mrs N D Hm HD Hinv) as [E1 I1].
    split; [now apply shr_1_nonneg |]. split; [exact E1 |].
    change (2 ^ 1) with 2. exact I1.
Qed.

Lemma round_nearest_even_inv mrs N D :
  0 < D -> frac_inv mrs N D ->
  let m' := round_nearest_even (shr_m mrs) (loc_of_shr_record mrs) in
  (m' = shr_m mrs \/ m' = shr_m mrs + 1) /\ - D <= 2 * (m' * D - N) <= D.
Proof.
  destruct mrs as [m r s]. unfold frac_inv. cbn [shr_m shr_r shr_s].
  intros HD Hinv.
  destruct r, s; cbn [loc_of_shr_record round_nearest_even].
  - split; [now right | nia].
  - destruct (Z.even m); (split; [auto | nia]).
  - split; [now left | nia].
  - split; [now left | nia].
Qed.

Lemma shr_zero mrs e : shr mrs e 0 = (mrs, e).
Proof. reflexivity. Qed.

Lemma shr_fexp_spec mx ex lx N D n :
  0 < D -> 0 <= n ->
  frac_inv (shr_record_of_loc mx lx) N D ->
  2 ^ (52 + n) <= mx < 2 ^ (53 + n) ->
  -1074 <= ex + n ->
  exists mrs,
    shr_fexp prec emax mx ex lx = (mrs, ex + n)
    /\ shr_m mrs = mx / 2 ^ n
    /\ frac_inv mrs N (2 ^ n * D)
    /\ (n = 0 -> mrs = shr_record_of_loc mx lx).
Proof.
  intros HD Hn Hinv Hmx Hex.
  assert (Hpos : 0 < mx).
  { assert (0 < 2 ^ (52 + n)) by (apply Z.pow_pos_nonneg; lia). lia. }
  destruct mx as [| p | p]; try lia.
  unfold shr_fexp. cbn [Zdigits2].
  rewrite (digits2_pos_unique p (53 + n)) by (replace (53 + n - 1) with (52 + n) by lia; exact Hmx).
  rewrite fexp_normal by lia.
  replace (53 + n + ex - 53 - ex) with n by lia.
  assert (Hm0 : shr_m (shr_record_of_loc (Zpos p) lx) = Zpos p)
    by (destruct lx as [| []]; reflexivity).
  destruct n as [| q | q]; [| | lia].
  - exists (shr_record_of_loc (Zpos p) lx). rewrite shr_zero, Z.add_0_r.
    split; [reflexivity |]. split; [now rewrite Hm0, Z.div_1_r |].
    split; [| reflexivity]. change (2 ^ 0) with 1. now rewrite Z.mul_1_l.
  - exists (iter_pos shr_1 q (shr_record_of_loc (Zpos p) lx)).
    cbn [shr]. split; [reflexivity |].
    destruct (iter_shr_inv q (shr_record_of_loc (Zpos p) lx) N D) as (_ & E & I);
      [rewrite Hm0; lia | exact HD | exact Hinv |].
    rewrite Hm0 in E. split; [exact E |]. split; [exact I | discriminate].
Qed.

Lemma binary_round_aux_spec mx ex lx N D n :
  0 < D -> 0 <= n ->
  frac_inv (shr_record_of_loc mx lx) N D ->
  2 ^ (52 + n) <= mx < 2 ^ (53 + n) ->
  -1074 <= ex + n -> ex + n + 1 <= 971 ->
  exists M k,
    (k = 0 \/ k = 1)
    /\ binary_round_aux prec emax false mx ex lx = S754_finite false M (ex + n + k)
    /\ 2 ^ 52 <= Zpos M < 2 ^ 53
    /\ - (2 ^ (n + k) * D) <= 2 * (Zpos M * (2 ^ (n + k) * D) - N) <= 2 ^ (n + k) * D
    /\ (lx = loc_Exact -> n = 0 -> Zpos M = mx /\ k = 0).
Proof.
  intros HD Hn Hinv Hmx Hlo Hhi.
  destruct (shr_fexp_spec mx ex lx N D n HD Hn Hinv Hmx Hlo)
    as (mrs1 & E1 & Hm1 & I1 & Hexact).
  assert (H2n : 0 < 2 ^ n) by (apply Z.pow_pos_nonneg; lia).
  assert (HD1 : 0 < 2 ^ n * D) by nia.
  assert (Hm1b : 2 ^ 52 <= shr_m mrs1 < 2 ^ 53).
  { rewrite Hm1. rewrite !Z.pow_add_r in Hmx by lia. split.
    - apply Z.div_le_lower_bound; lia.
    - apply Z.div_lt_upper_bound; lia. }
  destruct (round_nearest_even_inv mrs1 N _ HD1 I1) as [Hm2 Herr].
  cbv zeta in Hm2, Herr.
  set (m2 := round_nearest_even (shr_m mrs1) (loc_of_shr_record mrs1)) in *.
  unfold binary_round_aux. rewrite E1. fold m2.
  assert (Hinv2 : frac_inv (shr_record_of_loc m2 loc_Exact) m2 1)
    by (unfold frac_inv; cbn; lia).
  destruct (Z.eq_dec m2 (2 ^ 53)) as [Hcarry | Hno].
  - destruct (shr_fexp_spec m2 (ex + n) loc_Exact m2 1 1 ltac:(lia) ltac:(lia) Hinv2)
      as (mrs2 & E2 & Hm2' & _); [rewrite Hcarry; simpl; lia | lia |].
    rewrite E2, Hm2', Hcarry. change (2 ^ 53 / 2 ^ 1) with (Zpos (2 ^ 52)).
    cbv iota beta.
    replace (ex + n + 1 <=? emax - prec) with true
      by (symmetry; apply Z.leb_le; unfold emax, prec; lia).
    exists (2 ^ 52)%positive, 1. split; [now right |]. split; [reflexivity |].
    split; [simpl; lia |]. split.
    + rewrite Z.pow_add_r by lia. change (2 ^ 1) with 2.
      change (Zpos (2 ^ 52)) with (2 ^ 52).
      rewrite Hcarry in Herr. change (2 ^ 53) with (2 ^ 52 * 2) in Herr. nia.
    + intros -> ->. specialize (Hexact eq_refl). subst mrs1.
      cbn in m2. subst m2. simpl in Hmx. lia.
  - destruct (shr_fexp_spec m2 (ex + n) loc_Exact m2 1 0 ltac:(lia) ltac:(lia) Hinv2)
      as (mrs2 & E2 & Hm2' & _); [simpl; lia | lia |].
    rewrite Z.add_0_r in E2. rewrite E2, Hm2', Z.div_1_r.
    assert (Hm2pos : 0 < m2) by lia.
    destruct m2 as [| M | M] eqn:EM; try lia.
    replace (ex + n <=? emax - prec) with true
      by (symmetry; apply Z.leb_le; unfold emax, prec; lia).
    exists M, 0. split; [now left |]. rewrite !Z.add_0_r.
    split; [reflexivity |]. split; [lia |]. split; [exact Herr |].
    intros -> ->. specialize (Hexact eq_refl). subst mrs1.
    cbn in EM. split; [congruence | reflexivity].
Qed.

(** *** The conversion of an [int] below [2 ^ 53] is exact *)

Lemma pos_iter_xO p q : Zpos (Pos.iter xO p q) = Zpos p * 2 ^ Zpos q.
Proof.
  induction q as [| q IH] using Pos.peano_ind.
  - cbn [Pos.iter]. rewrite (Pos2Z.inj_xO p). change (2 ^ 1) with 2. ring.
  - rewrite Pos.iter_succ, (Pos2Z.inj_xO (Pos.iter xO p q)), IH, Pos2Z.inj_succ,
      Z.pow_succ_r by lia.
    ring.
Qed.

Lemma float_of_int_pos c :
  0 < c < 2 ^ 53 ->
  exists M e,
    float_of_int c = S754_finite false M (- e)
    /\ 0 <= e <= 52 /\ Zpos M = c * 2 ^ e /\ 2 ^ 52 <= Zpos M < 2 ^ 53.
Proof.
  intros [Hc0 Hc]. destruct c as [| p | p]; try lia.
  unfold float_of_int, binary_normalize, binary_round.
  pose proof (digits2_pos_bounds p) as [Hlo Hhi].
  set (d := Zpos (digits2_pos p)) in *.
  assert (Hd : 1 <= d <= 53).
  { split; [subst d; lia |].
    assert (d - 1 < 53) by (apply (Z.pow_lt_mono_r_iff 2); subst d; lia). lia. }
  rewrite Z.add_0_r, fexp_normal by lia.
  unfold shl_align. rewrite Z.sub_0_r.
  assert (Hexact : forall mz ez,
            2 ^ 52 <= Zpos mz < 2 ^ 53 -> -52 <= ez <= 0 ->
            binary_round_aux prec emax false (Zpos mz) ez loc_Exact
            = S754_finite false mz ez).
  { intros mz ez Hmz Hez.
    destruct (binary_round_aux_spec (Zpos mz) ez loc_Exact (Zpos mz) 1 0)
      as (M & k & _ & E & _ & _ & Hex); try lia.
    - unfold frac_inv. cbn. lia.
    - destruct (Hex eq_refl eq_refl) as [HM ->].
      rewrite E, !Z.add_0_r. now injection HM as ->. }
  destruct (d - 53) as [| q | q] eqn:Edq; try lia.
  - replace (d - 1) with 52 in Hlo by lia. replace d with 53 in Hhi by lia.
    exists p, 0. rewrite Hexact by lia. repeat split; lia.
  - assert (Hq : Zpos q = 53 - d) by lia.
    assert (Hmz : 2 ^ 52 <= Zpos (Pos.iter xO p q) < 2 ^ 53).
    { assert (E52 : 2 ^ 52 = 2 ^ (d - 1) * 2 ^ (53 - d))
        by (rewrite <- Z.pow_add_r by lia; f_equal; lia).
      assert (E53 : 2 ^ 53 = 2 ^ d * 2 ^ (53 - d))
        by (rewrite <- Z.pow_add_r by lia; f_equal; lia).
      assert (0 < 2 ^ (53 - d)) by (apply Z.pow_pos_nonneg; lia).
      rewrite pos_iter_xO, Hq, E52, E53.
      split; [apply Z.mul_le_mono_nonneg_r | apply Z.mul_lt_mono_pos_r]; lia. }
    exists (Pos.iter xO p q), (53 - d). rewrite Hexact by lia.
    replace (- (53 - d)) with (Zneg q) by lia.
    repeat split; try lia. now rewrite pos_iter_xO, Hq.
Qed.

(** *** The quotient is within half a unit in the last place *)

Lemma new_location_inv q D r :
  0 < D -> 0 <= r < D ->
  frac_inv (shr_record_of_loc q (new_location D r)) (q * D + r) D.
Proof.
  intros HD Hr. unfold new_location.
  destruct (Z.even D) eqn:Ev.
  - unfold new_location_even. destruct (Z.eqb_spec r 0) as [-> | Hr0].
    + unfold frac_inv. cbn. lia.
    + destruct (Z.compare_spec (2 * r) D); unfold frac_inv; cbn [shr_record_of_loc shr_m shr_r shr_s]; lia.
  - unfold new_location_odd. destruct (Z.eqb_spec r 0) as [-> | Hr0].
    + unfold frac_inv. cbn. lia.
    + assert (Hodd : Z.odd D = true) by (now rewrite <- Z.negb_even, Ev).
      apply Z.odd_spec in Hodd. destruct Hodd as [a Ha].
      destruct (Z.compare_spec (2 * r + 1) D); unfold frac_inv; cbn [shr_record_of_loc shr_m shr_r shr_s]; lia.
Qed.

Lemma div_eucl_div_mod a b : Z.div_eucl a b = (a / b, a mod b).
Proof. unfold Z.div, Z.modulo. now destruct (Z.div_eucl a b). Qed.

Lemma SFdiv_core_spec Mc ec Mt et :
  2 ^ 52 <= Zpos Mc < 2 ^ 53 -> 2 ^ 52 <= Zpos Mt < 2 ^ 53 ->
  -1021 <= et - ec ->
  SFdiv_core_binary prec emax (Zpos Mc) (- ec) (Zpos Mt) (- et)
  = (Zpos Mc * 2 ^ 53 / Zpos Mt, et - ec - 53,
     new_location (Zpos Mt) ((Zpos Mc * 2 ^ 53) mod Zpos Mt)).
Proof.
  intros Hc Ht He. unfold SFdiv_core_binary. cbn [Zdigits2].
  rewrite (digits2_pos_unique Mc 53), (digits2_pos_unique Mt 53) by (simpl; lia).
  replace (53 + - ec - (53 + - et)) with (et - ec) by lia.
  rewrite fexp_normal by lia.
  replace (Z.min (et - ec - 53) (- ec - - et)) with (et - ec - 53) by lia.
  replace (- ec - - et - (et - ec - 53)) with 53 by lia.
  cbv zeta iota beta. rewrite Z.shiftl_mul_pow2 by lia.
  now rewrite div_eucl_div_mod.
Qed.

Lemma fdiv_spec c t :
  1 <= c <= t -> t < 2 ^ 53 ->
  exists M w,
    fdiv (float_of_int c) (float_of_int t) = S754_finite false M (- w)
    /\ 2 ^ 52 <= Zpos M < 2 ^ 53
    /\ 51 <= w <= 105
    /\ - t <= 2 * (Zpos M * t - c * 2 ^ w) <= t.
Proof.
  intros Hct Ht.
  destruct (float_of_int_pos c) as (Mc & ec & -> & Hec & HMc & HMcb); [lia |].
  destruct (float_of_int_pos t) as (Mt & et & -> & Het & HMt & HMtb); [lia |].
  assert (Hpc : 0 < 2 ^ ec) by (apply Z.pow_pos_nonneg; lia).
  assert (Hpt : 0 < 2 ^ et) by (apply Z.pow_pos_nonneg; lia).
  assert (Hee : et <= ec).
  { destruct (Z.le_gt_cases et ec) as [| Hgt]; [assumption | exfalso].
    assert (2 ^ (ec + 1) <= 2 ^ et) by (apply Z.pow_le_mono_r; lia).
    rewrite Z.pow_add_r in H by lia. change (2 ^ 1) with 2 in H. nia. }
  unfold fdiv, SFdiv. rewrite SFdiv_core_spec by lia. cbn [xorb].
  set (N := Zpos Mc * 2 ^ 53). set (D := Zpos Mt).
  assert (HD : 0 < D) by (subst D; lia).
  assert (Hq : 2 ^ 52 <= N / D < 2 ^ 54).
  { split.
    - apply Z.div_le_lower_bound; [exact HD |]. subst N D. nia.
    - apply Z.div_lt_upper_bound; [exact HD |]. subst N D.
      change (2 ^ 54) with (2 * 2 ^ 53). nia. }
  assert (Hinv : frac_inv (shr_record_of_loc (N / D) (new_location D (N mod D))) N D).
  { replace N with (N / D * D + N mod D) at 3
      by (rewrite Z.mul_comm; symmetry; apply Z.div_mod; lia).
    apply new_location_inv; [exact HD |]. apply Z.mod_pos_bound. exact HD. }
  assert (Hn : exists n, (n = 0 \/ n = 1) /\ 2 ^ (52 + n) <= N / D < 2 ^ (53 + n)).
  { destruct (Z.lt_ge_cases (N / D) (2 ^ 53)).
    - exists 0. split; [now left | simpl in *; lia].
    - exists 1. split; [now right | simpl in *; lia]. }
  destruct Hn as (n & Hn01 & Hnb).
  destruct (binary_round_aux_spec (N / D) (et - ec - 53) (new_location D (N mod D))
              N D n HD ltac:(lia) Hinv Hnb ltac:(lia) ltac:(lia))
    as (M & k & Hk & E & HM & Herr & _).
  exists M, (53 + ec - et - (n + k)).
  rewrite E. split; [f_equal; lia |]. split; [exact HM |]. split; [lia |].
  set (j := n + k) in *.
  set (w := 53 + ec - et - j).
  assert (Hj : 0 <= j <= 2) by lia.
  assert (HK : 0 < 2 ^ (et + j)) by (apply Z.pow_pos_nonneg; lia).
  assert (EN : N = c * 2 ^ w * 2 ^ (et + j)).
  { subst N. rewrite HMc, <- !Z.mul_assoc, <- !Z.pow_add_r by lia.
    do 2 f_equal. lia. }
  assert (ED : 2 ^ j * D = t * 2 ^ (et + j)).
  { subst D. rewrite HMt, Z.pow_add_r by lia. ring. }
  assert (EMD : Zpos M * (2 ^ j * D) = Zpos M * t * 2 ^ (et + j)) by (rewrite ED; ring).
  rewrite EMD, EN, ED in Herr.
  set (K := 2 ^ (et + j)) in *. set (cw := c * 2 ^ w) in *.
  set (Mt' := Zpos M * t) in *.
  nia.
Qed.

(** *** Multiplication by 100 and comparison *)

Lemma float_of_int_100 :
  float_of_int 100 = S754_finite false 7036874417766400 (-46).
Proof. reflexivity. Qed.

Lemma fmul_100_spec M w :
  2 ^ 52 <= Zpos M < 2 ^ 53 -> 51 <= w <= 105 ->
  exists M' j,
    52 <= j <= 54
    /\ fmul (S754_finite false M (- w)) (float_of_int 100)
       = S754_finite false M' (j - w - 46)
    /\ 2 ^ 52 <= Zpos M' < 2 ^ 53
    /\ - 2 ^ j <= 2 * (Zpos M' * 2 ^ j - Zpos M * 7036874417766400) <= 2 ^ j.
Proof.
  intros HM Hw. rewrite float_of_int_100. unfold fmul, SFmul. cbn [xorb].
  rewrite Pos2Z.inj_mul.
  set (N := Zpos M * 7036874417766400).
  assert (HN : 2 ^ 104 <= N < 2 ^ 106) by (subst N; simpl in *; lia).
  assert (Hn : exists n, (n = 52 \/ n = 53) /\ 2 ^ (52 + n) <= N < 2 ^ (53 + n)).
  { destruct (Z.lt_ge_cases N (2 ^ 105)).
    - exists 52. split; [now left | simpl in *; lia].
    - exists 53. split; [now right | simpl in *; lia]. }
  destruct Hn as (n & Hn & Hnb).
  assert (Hinv : frac_inv (shr_record_of_loc N loc_Exact) N 1)
    by (unfold frac_inv; cbn; lia).
  destruct (binary_round_aux_spec N (- w + -46) loc_Exact N 1 n
              ltac:(lia) ltac:(lia) Hinv Hnb ltac:(lia) ltac:(lia))
    as (M' & k & Hk & E & HM' & Herr & _).
  exists M', (n + k). split; [lia |]. rewrite E.
  split; [f_equal; lia |]. split; [exact HM' |].
  rewrite !Z.mul_1_r in Herr. exact Herr.
Qed.

Lemma fgt_finite M' E' m e :
  fgt (S754_finite false M' E') (S754_finite false m e)
  = (e <? E') || ((e =? E') && (Zpos m <? Zpos M')).
Proof.
  unfold fgt, SFltb, SFcompare.
  destruct (Z.compare_spec e E') as [-> | H | H].
  - rewrite Z.ltb_irrefl, Z.eqb_refl. cbn [orb andb].
    change (Pos.compare_cont Eq m M') with (Pos.compare m M').
    destruct (Pos.compare_spec m M'); destruct (Z.ltb_spec (Zpos m) (Zpos M'));
      try reflexivity; lia.
  - destruct (Z.ltb_spec e E'); [reflexivity | lia].
  - destruct (Z.ltb_spec e E'); [lia |]. destruct (Z.eqb_spec e E'); [lia | reflexivity].
Qed.

Lemma float_of_int_20 :
  float_of_int 20 = S754_finite false 5629499534213120 (-48).
Proof. reflexivity. Qed.

Lemma float_of_int_30 :
  float_of_int 30 = S754_finite false 8444249301319680 (-48).
Proof. reflexivity. Qed.

Lemma pow2_cases_55 w :
  0 <= w -> (w <= 54 /\ 2 ^ w <= 2 ^ 54) \/ (w = 55) \/ (56 <= w /\ 2 ^ 56 <= 2 ^ w).
Proof.
  intros Hw. destruct (Z.le_gt_cases w 54); [left | right].
  - split; [assumption | apply Z.pow_le_mono_r; lia].
  - destruct (Z.eq_dec w 55); [now left | right].
    split; [lia | apply Z.pow_le_mono_r; lia].
Qed.

Lemma pow2_cases_54 w :
  0 <= w -> (w <= 53 /\ 2 ^ w <= 2 ^ 53) \/ (w = 54) \/ (55 <= w /\ 2 ^ 55 <= 2 ^ w).
Proof.
  intros Hw. destruct (Z.le_gt_cases w 53); [left | right].
  - split; [assumption | apply Z.pow_le_mono_r; lia].
  - destruct (Z.eq_dec w 54); [now left | right].
    split; [lia | apply Z.pow_le_mono_r; lia].
Qed.

(** *** The quotient against a ratio *)

Lemma quotient_le a b c t M W :
  0 < a -> 0 <= b -> 0 < t -> 0 < W ->
  a * c <= b * t -> 2 * (M * t - c * W) <= t ->
  2 * a * M <= a + 2 * b * W.
Proof.
  intros Ha Hb Ht HW Hle Herr.
  assert (H1 : a * c * W <= b * t * W) by (apply Z.mul_le_mono_nonneg_r; lia).
  assert (H2 : a * (2 * (M * t - c * W)) <= a * t)
    by (apply Z.mul_le_mono_nonneg_l; lia).
  assert (H3 : (2 * a * M) * t <= (a + 2 * b * W) * t) by nia.
  apply (Z.mul_le_mono_pos_r _ _ t); assumption.
Qed.

Lemma quotient_gt a b c t M W :
  0 < a -> 0 <= b -> 0 < t < 2 ^ 52 -> 0 < W ->
  b * t + 1 <= a * c -> - t <= 2 * (M * t - c * W) ->
  2 * W < 2 ^ 52 * (2 * a * M + a - 2 * b * W).
Proof.
  intros Ha Hb Ht HW Hgt Herr.
  assert (H1 : (b * t + 1) * W <= a * c * W) by (apply Z.mul_le_mono_nonneg_r; lia).
  assert (H2 : a * (- t) <= a * (2 * (M * t - c * W)))
    by (apply Z.mul_le_mono_nonneg_l; lia).
  set (G := 2 * a * M + a - 2 * b * W).
  assert (H3 : 2 * W <= t * G) by (subst G; nia).
  assert (HG : 0 < G) by nia.
  assert (H4 : t * G < 2 ^ 52 * G) by (apply Z.mul_lt_mono_pos_r; lia).
  lia.
Qed.

Ltac split_j j :=
  let H := fresh in
  assert (H : j = 52 \/ j = 53 \/ j = 54) by lia;
  destruct H as [-> | [-> | ->]].

Ltac decide_gt :=
  match goal with
  | |- (?a <? ?b) || ((?c =? ?d) && (?e <? ?f)) = _ =>
      destruct (Z.ltb_spec a b); destruct (Z.eqb_spec c d);
      destruct (Z.ltb_spec e f); cbn [orb andb]; try reflexivity; exfalso
  end.

Lemma percent_gt_20 (count total : nat) :
  (1 <= total)%nat -> (count <= total)%nat -> Z.of_nat total < 2 ^ 52 ->
  fgt (percent count total) (float_of_int 20)
  = (20 * Z.of_nat total <? 100 * Z.of_nat count).
Proof.
  intros Ht Hc Hbound. unfold percent.
  set (c := Z.of_nat count). set (t := Z.of_nat total).
  assert (Hc' : 0 <= c <= t) by lia. assert (Ht' : 1 <= t) by lia.
  destruct (Z.eq_dec c 0) as [-> | Hc0].
  - destruct (float_of_int_pos t) as (Mt & et & -> & _); [simpl in *; lia |].
    destruct (Z.ltb_spec (20 * t) (100 * 0)); [lia | reflexivity].
  - destruct (fdiv_spec c t) as (M & w & -> & HM & Hw & Herr); [lia | simpl in *; lia |].
    destruct (fmul_100_spec M w HM Hw) as (M' & j & Hj & -> & HM' & Herr').
    rewrite float_of_int_20, fgt_finite.
    assert (HW : 0 < 2 ^ w) by (apply Z.pow_pos_nonneg; lia).
    change (2 ^ 52) with 4503599627370496 in *.
    change (2 ^ 53) with 9007199254740992 in *.
    destruct (Z.ltb_spec (20 * t) (100 * c)) as [Hgt | Hle].
    + pose proof (quotient_gt 5 1 c t (Zpos M) (2 ^ w) ltac:(lia) ltac:(lia)
                    ltac:(simpl; lia) HW ltac:(lia) ltac:(lia)) as HQ.
      change (2 ^ 52) with 4503599627370496 in HQ.
      destruct (pow2_cases_55 w ltac:(lia)) as [[Hw1 Hp] | [-> | [Hw1 Hp]]].
      * change (2 ^ 54) with 18014398509481984 in Hp.
        split_j j; [change (2 ^ 52) with 4503599627370496 in Herr'
                   | change (2 ^ 53) with 9007199254740992 in Herr'
                   | change (2 ^ 54) with 18014398509481984 in Herr'];
          decide_gt; lia.
      * change (2 ^ 55) with 36028797018963968 in *.
        split_j j; [change (2 ^ 52) with 4503599627370496 in Herr'
                   | change (2 ^ 53) with 9007199254740992 in Herr'
                   | change (2 ^ 54) with 18014398509481984 in Herr'];
          decide_gt; lia.
      * change (2 ^ 56) with 72057594037927936 in Hp. exfalso. lia.
    + pose proof (quotient_le 5 1 c t (Zpos M) (2 ^ w) ltac:(lia) ltac:(lia)
                    ltac:(lia) HW ltac:(lia) ltac:(lia)) as HQ.
      destruct (pow2_cases_55 w ltac:(lia)) as [[Hw1 Hp] | [-> | [Hw1 Hp]]].
      * change (2 ^ 54) with 18014398509481984 in Hp. exfalso. lia.
      * change (2 ^ 55) with 36028797018963968 in *.
        split_j j; [change (2 ^ 52) with 4503599627370496 in Herr'
                   | change (2 ^ 53) with 9007199254740992 in Herr'
                   | change (2 ^ 54) with 18014398509481984 in Herr'];
          decide_gt; lia.
      * change (2 ^ 56) with 72057594037927936 in Hp.
        split_j j; [change (2 ^ 52) with 4503599627370496 in Herr'
                   | change (2 ^ 53) with 9007199254740992 in Herr'
                   | change (2 ^ 54) with 18014398509481984 in Herr'];
          decide_gt; lia.
Qed.

Lemma percent_gt_30 (count total : nat) :
  (1 <= total)%nat -> (count <= total)%nat -> Z.of_nat total < 2 ^ 52 ->
  fgt (percent count total) (float_of_int 30)
  = (30 * Z.of_nat total <? 100 * Z.of_nat count).
Proof.
  intros Ht Hc Hbound. unfold percent.
  set (c := Z.of_nat count). set (t := Z.of_nat total).
  assert (Hc' : 0 <= c <= t) by lia. assert (Ht' : 1 <= t) by lia.
  destruct (Z.eq_dec c 0) as [-> | Hc0].
  - destruct (float_of_int_pos t) as (Mt & et & -> & _); [simpl in *; lia |].
    destruct (Z.ltb_spec (30 * t) (100 * 0)); [lia | reflexivity].
  - destruct (fdiv_spec c t) as (M & w & -> & HM & Hw & Herr); [lia | simpl in *; lia |].
    destruct (fmul_100_spec M w HM Hw) as (M' & j & Hj & -> & HM' & Herr').
    rewrite float_of_int_30, fgt_finite.
    assert (HW : 0 < 2 ^ w) by (apply Z.pow_pos_nonneg; lia).
    change (2 ^ 52) with 4503599627370496 in *.
    change (2 ^ 53) with 9007199254740992 in *.
    destruct (Z.ltb_spec (30 * t) (100 * c)) as [Hgt | Hle].
    + pose proof (quotient_gt 10 3 c t (Zpos M) (2 ^ w) ltac:(lia) ltac:(lia)
                    ltac:(simpl; lia) HW ltac:(lia) ltac:(lia)) as HQ.
      change (2 ^ 52) with 4503599627370496 in HQ.
      destruct (pow2_cases_54 w ltac:(lia)) as [[Hw1 Hp] | [-> | [Hw1 Hp]]].
      * change (2 ^ 53) with 9007199254740992 in Hp.
        split_j j; [change (2 ^ 52) with 4503599627370496 in Herr'
                   | change (2 ^ 53) with 9007199254740992 in Herr'
                   | change (2 ^ 54) with 18014398509481984 in Herr'];
          decide_gt; lia.
      * change (2 ^ 54) with 18014398509481984 in *.
        split_j j; [change (2 ^ 52) with 4503599627370496 in Herr'
                   | change (2 ^ 53) with 9007199254740992 in Herr'
                   | idtac];
          decide_gt; lia.
      * change (2 ^ 55) with 36028797018963968 in Hp. exfalso. lia.
    + pose proof (quotient_le 10 3 c t (Zpos M) (2 ^ w) ltac:(lia) ltac:(lia)
                    ltac:(lia) HW ltac:(lia) ltac:(lia)) as HQ.
      destruct (pow2_cases_54 w ltac:(lia)) as [[Hw1 Hp] | [-> | [Hw1 Hp]]].
      * change (2 ^ 53) with 9007199254740992 in Hp. exfalso. lia.
      * change (2 ^ 54) with 18014398509481984 in *.
        split_j j; [change (2 ^ 52) with 4503599627370496 in Herr'
                   | change (2 ^ 53) with 9007199254740992 in Herr'
                   | idtac];
          decide_gt; lia.
      * change (2 ^ 55) with 36028797018963968 in Hp.
        split_j j; [change (2 ^ 52) with 4503599627370496 in Herr'
                   | change (2 ^ 53) with 9007199254740992 in Herr'
                   | change (2 ^ 54) with 18014398509481984 in Herr'];
          decide_gt; lia.
Qed.

(** ** The two routers *)

Lemma count_sentiment_le label rs :
  (count_sentiment label rs <= List.length rs)%nat.
Proof. unfold count_sentiment. apply filter_length_le. Qed.

(** A review is counted as negative or as neutral, not both. *)
Lemma concerning_count_filter rs :
  concerning_count rs = List.length (filter is_concerning rs).
Proof.
  unfold concerning_count, count_sentiment, is_concerning.
  induction rs as [| r rs IH]; [reflexivity |]. simpl.
  destruct (String.eqb_spec (overall_sentiment r) "negative") as [Hneg | Hneg];
    destruct (String.eqb_spec (overall_sentiment r) "neutral") as [Hneu | Hneu];
    simpl; try lia.
  rewrite Hneg in Hneu. discriminate.
Qed.

Lemma concerning_count_le rs : (concerning_count rs <= List.length rs)%nat.
Proof. rewrite concerning_count_filter. apply filter_length_le. Qed.

(** The streaming router on exact counts. *)
Lemma concerning_pct_exact rs :
  Z.of_nat (List.length rs) < 2 ^ 52 ->
  fgt (concerning_pct rs) stream_threshold
  = (20 * Z.of_nat (List.length rs) <? 100 * Z.of_nat (concerning_count rs)).
Proof.
  intros Hlen. unfold concerning_pct, guarded_pct.
  destruct rs as [| r rs'] eqn:E; [reflexivity |]. rewrite <- E in *.
  apply percent_gt_20.
  - subst rs. simpl. lia.
  - apply concerning_count_le.
  - exact Hlen.
Qed.

(** The batch router on exact counts. *)
Lemma negative_pct_exact rs :
  (1 <= List.length rs)%nat -> Z.of_nat (List.length rs) < 2 ^ 52 ->
  fgt (percent (count_sentiment "negative" rs) (List.length rs)) batch_threshold
  = (30 * Z.of_nat (List.length rs)
     <? 100 * Z.of_nat (count_sentiment "negative" rs)).
Proof.
  intros Hlen Hbound. apply percent_gt_30; [exact Hlen | | exact Hbound].
  apply count_sentiment_le.
Qed.

Lemma has_phase_false p evs :
  Forall (fun e => in_phase p e = false) evs -> has_phase p evs = false.
Proof.
  induction 1 as [| e evs He _ IH]; [reflexivity |].
  unfold has_phase in *. simpl. now rewrite He, IH.
Qed.

Section StreamRouter.

Variable b : Baml.

Lemma debate_phase_skipped rs s :
  fgt (concerning_pct rs) stream_threshold = false ->
  debate_phase b rs s
  = mkOutcome (Ok []) [EvProgress (MsgDebateSkipped (negative_pct rs))] [] s.
Proof. intros H. unfold debate_phase. rewrite H. reflexivity. Qed.

Lemma debate_phase_started rs s :
  fgt (concerning_pct rs) stream_threshold = true ->
  has_phase "debates_starting" (events (debate_phase b rs s)) = true
  /\ has_phase "debate_skipped" (events (debate_phase b rs s)) = false.
Proof.
  intros H. unfold debate_phase. rewrite H. split.
  - unfold bind at 1. reflexivity.
  - apply has_phase_false.
    match goal with |- Forall ?P (events (?m s)) =>
      assert (Hem : emits b P m); [| apply Hem] end.
    emits_auto; try reflexivity.
    + apply emits_debate_loop; reflexivity.
    + match goal with |- emits _ _ (match ?l with _ => _ end) => destruct l end;
        emits_auto; reflexivity.
Qed.

End StreamRouter.

(** The pipeline's counters count what the specification counts. *)
Lemma count_sentiment_negative rs :
  count_sentiment "negative" rs = Spec.count Spec.negative rs.
Proof.
  unfold count_sentiment, Spec.negative.
  induction rs as [| r rs IH]; [reflexivity |]. cbn [filter Spec.count].
  destruct (String.eqb_spec (overall_sentiment r) "negative");
    destruct (string_dec (overall_sentiment r) "negative");
    try contradiction; cbn [List.length]; now rewrite IH.
Qed.

Lemma concerning_count_spec rs :
  concerning_count rs = Spec.count Spec.concerning rs.
Proof.
  rewrite concerning_count_filter. unfold is_concerning, Spec.concerning.
  induction rs as [| r rs IH]; [reflexivity |]. cbn [filter Spec.count].
  destruct (String.eqb_spec (overall_sentiment r) "negative");
    destruct (string_dec (overall_sentiment r) "negative"); try contradiction;
    destruct (String.eqb_spec (overall_sentiment r) "neutral");
    destruct (string_dec (overall_sentiment r) "neutral"); try contradiction;
    cbn [orb List.length]; now rewrite IH.
Qed.

(** The events of the streaming router tell which branch it took. *)
Lemma debate_phase_branch (b : Baml) rs (s : OracleState b) :
  (has_phase "debates_starting" (events (debate_phase b rs s)) = true
   <-> fgt (concerning_pct rs) stream_threshold = true)
  /\ (has_phase "debate_skipped" (events (debate_phase b rs s)) = true
      <-> fgt (concerning_pct rs) stream_threshold = false).
Proof.
  destruct (fgt (concerning_pct rs) stream_threshold) eqn:E.
  - destruct (debate_phase_started b rs s E) as [H1 H2].
    rewrite H1, H2. split; split; intros; congruence.
  - rewrite (debate_phase_skipped b rs s E). simpl.
    split; split; intros; congruence.
Qed.

(** Node 2 keeps at most one review per persona. *)
Lemma phase1_loop_length (b : Baml) todo prd :
  forall acc (s : OracleState b) rs,
    result (phase1_loop b todo prd acc s) = Ok rs ->
    (List.length rs <= List.length acc + List.length todo)%nat.
Proof.
  induction todo as [| persona rest IH]; intros acc s rs; cbn [phase1_loop].
  - intros [= <-]. simpl. lia.
  - intros H. apply bind_result_ok in H. destruct H as (acc' & Hone & Hrest).
    apply IH in Hrest.
    assert (List.length acc' <= S (List.length acc))%nat; [| simpl; lia].
    revert Hone. unfold try_except, bind, call, print, ret.
    destruct (ReviewPRD b (batch_review_request persona prd) s) as [[r | e] s1];
      cbn; intros [= <-]; [rewrite length_app; simpl |]; lia.
Qed.

Lemma phase1_reviews_node_ok (b : Baml) state (s : OracleState b) state' :
  result (phase1_reviews_node b state s) = Ok state' ->
  exists rs,
    (1 <= List.length rs <= List.length (personas state))%nat
    /\ state' = set_reviews state rs
                  (percent (count_sentiment "negative" rs) (List.length rs)).
Proof.
  unfold phase1_reviews_node. intros H.
  apply bind_result_ok in H. destruct H as (rs & Hloop & H).
  apply bind_result_ok in H. destruct H as (pct & Hpct & H).
  apply phase1_loop_length in Hloop. simpl in Hloop.
  exists rs. destruct rs as [| r rs']; [discriminate |].
  cbn in Hpct. injection Hpct as <-. cbn in H. injection H as <-.
  split; [simpl in *; lia | reflexivity].
Qed.

(** C1. For a review list of fewer than [2 ^ 52] reviews, with the reviews
    counted as the specification counts them. Streaming path: the debate
    phase starts exactly when [20 * total < 100 * concerning], where
    [concerning] is the number of negative or neutral reviews, and is
    skipped exactly when [100 * concerning <= 20 * total]; in particular it
    is skipped when the computed percentage is exactly 20.0. Batch path:
    when node 2 returns, the router answers [debate] exactly when
    [30 * total < 100 * negative] over the reviews that node 2 has stored,
    and [skip_debate] when the stored percentage is exactly 30.0. *)
Theorem debate_thresholds_are_strict
    (b : Baml) (rs : list PRDReview) (s : OracleState b) (state : WorkflowState) :
  Z.of_nat (List.length rs) < 2 ^ 52 ->
  Z.of_nat (List.length (personas state)) < 2 ^ 52 ->
  let total := Z.of_nat (List.length rs) in
  let concerning := Z.of_nat (Spec.count Spec.concerning rs) in
  let evs := events (debate_phase b rs s) in
  (has_phase "debates_starting" evs = true <-> 20 * total < 100 * concerning)
  /\ (has_phase "debate_skipped" evs = true <-> 100 * concerning <= 20 * total)
  /\ (concerning_pct rs = float_of_int 20 ->
      has_phase "debate_skipped" evs = true
      /\ has_phase "debates_starting" evs = false)
  /\ (forall state',
        result (phase1_reviews_node b state s) = Ok state' ->
        (should_debate state' = debate
         <-> 30 * Z.of_nat (List.length (reviews state'))
             < 100 * Z.of_nat (Spec.count Spec.negative (reviews state')))
        /\ (negative_sentiment_pct state' = float_of_int 30 ->
            should_debate state' = skip_debate)).
Proof.
  intros Hlen Hpersonas total concerning evs. subst total concerning evs.
  destruct (debate_phase_branch b rs s) as [Hstart Hskip].
  pose proof (concerning_pct_exact rs Hlen) as Hexact.
  rewrite concerning_count_spec in Hexact.
  split; [| split; [| split]].
  - rewrite Hstart, Hexact. apply Z.ltb_lt.
  - rewrite Hskip, Hexact. apply Z.ltb_ge.
  - intros Heq.
    assert (E : fgt (concerning_pct rs) stream_threshold = false)
      by (rewrite Heq; reflexivity).
    split; [now apply Hskip |].
    apply not_true_is_false. intros E'. apply Hstart in E'. congruence.
  - intros state' Hok.
    destruct (phase1_reviews_node_ok b state s state' Hok) as (rs' & Hlen' & ->).
    cbn [reviews set_reviews negative_sentiment_pct]. split.
    + unfold should_debate, set_reviews. cbn [negative_sentiment_pct].
      rewrite negative_pct_exact by lia.
      rewrite count_sentiment_negative.
      destruct (Z.ltb_spec (30 * Z.of_nat (List.length rs'))
                  (100 * Z.of_nat (Spec.count Spec.negative rs')));
        split; intros; try congruence; lia.
    + intros Heq. unfold should_debate, set_reviews.
      cbn [negative_sentiment_pct]. rewrite Heq. reflexivity.
Qed.

Lemma debate_thresholds_at_the_boundary :
  let b := Scenario.scripted Boundary.three_negative in
  let evs := events (debate_phase b Scenario.one_in_five Scenario.start) in
  (has_phase "debates_starting" evs = true
   <-> 20 * Z.of_nat (List.length Scenario.one_in_five)
       < 100 * Z.of_nat (Spec.count Spec.concerning Scenario.one_in_five))
  /\ (has_phase "debate_skipped" evs = true
      <-> 100 * Z.of_nat (Spec.count Spec.concerning Scenario.one_in_five)
          <= 20 * Z.of_nat (List.length Scenario.one_in_five))
  /\ (concerning_pct Scenario.one_in_five = float_of_int 20 ->
      has_phase "debate_skipped" evs = true
      /\ has_phase "debates_starting" evs = false)
  /\ (forall state',
        result (phase1_reviews_node b Boundary.ten_personas Scenario.start)
        = Ok state' ->
        (should_debate state' = debate
         <-> 30 * Z.of_nat (List.length (reviews state'))
             < 100 * Z.of_nat (Spec.count Spec.negative (reviews state')))
        /\ (negative_sentiment_pct state' = float_of_int 30 ->
            should_debate state' = skip_debate)).
Proof.
  apply (debate_thresholds_are_strict
           (Scenario.scripted Boundary.three_negative) Scenario.one_in_five
           Scenario.start Boundary.ten_personas); reflexivity.
Defined.

(** One neutral review in five is exactly 20 percent: the streaming router
    skips the debate. Ten personas with three negative reviews are exactly
    30 percent: node 2 returns and the batch router skips the debate. *)
Example routers_at_the_boundary :
  let b := Scenario.scripted Boundary.three_negative in
  concerning_pct Scenario.one_in_five = float_of_int 20
  /\ has_phase "debate_skipped"
       (events (debate_phase b Scenario.one_in_five Scenario.start)) = true
  /\ exists state',
       result (phase1_reviews_node b Boundary.ten_personas Scenario.start)
       = Ok state'
       /\ Spec.count Spec.negative (reviews state') = 3%nat
       /\ List.length (reviews state') = 10%nat
       /\ negative_sentiment_pct state' = float_of_int 30
       /\ should_debate state' = skip_debate.
Proof.
  cbv zeta. split; [reflexivity |]. split; [reflexivity |].
  eexists. split; [vm_compute; reflexivity |]. repeat split.
Qed.

(** At exactly 30.0 percent negative reviews the batch router skips the debate. *)
Example batch_router_at_30 :
  batch_negative_pct Scenario.three_in_ten = Ok (float_of_int 30)
  /\ should_debate
       (set_reviews Scenario.empty_state Scenario.three_in_ten (float_of_int 30))
     = skip_debate.
Proof. split; reflexivity. Qed.

(** ** Failures of single oracle calls *)

Section UnitFailures.

Variable b : Baml.

Lemma never_raises_ret {A} (a : A) : never_raises b (ret a).
Proof. intros s. now exists a. Qed.

Lemma never_raises_bind {A B} (m : M b A) (f : A -> M b B) :
  never_raises b m -> (forall a, never_raises b (f a)) -> never_raises b (bind m f).
Proof.
  intros Hm Hf s. destruct (Hm s) as [a Ha].
  rewrite (bind_ok b m f s a Ha). simpl. apply Hf.
Qed.

(** A [try] whose handler returns does not raise, whatever its body does. *)
Lemma never_raises_try_except {A} (m : M b A) h :
  (forall e, never_raises b (h e)) -> never_raises b (try_except m h).
Proof.
  intros Hh s. unfold try_except.
  destruct (result (m s)) as [a | e] eqn:E.
  - now exists a.
  - simpl. apply Hh.
Qed.

Lemma never_raises_log_and_continue {A} (l : LogLine) (a : A) :
  never_raises b (bind (print l) (fun _ => ret a)).
Proof. intros s. now exists a. Qed.

(** Batch path, persona synthesis. *)
Lemma scale_segment_never_raises segment todo :
  forall i acc, never_raises b (scale_segment b segment i todo acc).
Proof.
  induction todo as [| todo IH]; intros i acc; cbn [scale_segment].
  - apply never_raises_ret.
  - apply never_raises_bind; [| intros ?; apply IH].
    apply never_raises_try_except. intros e. apply never_raises_log_and_continue.
Qed.

Lemma scale_personas_never_raises segments n :
  never_raises b (scale_personas b segments n).
Proof.
  unfold scale_personas. generalize (@nil UserPersona).
  induction segments as [| seg rest IH]; intros acc; cbn [scale_personas_from].
  - apply never_raises_ret.
  - apply never_raises_bind; [apply scale_segment_never_raises | intros ?; apply IH].
Qed.

(** Batch path, reviews. *)
Lemma phase1_loop_never_raises todo prd :
  forall acc, never_raises b (phase1_loop b todo prd acc).
Proof.
  induction todo as [| persona rest IH]; intros acc; cbn [phase1_loop].
  - apply never_raises_ret.
  - apply never_raises_bind; [| intros ?; apply IH].
    apply never_raises_try_except. intros e. apply never_raises_log_and_continue.
Qed.

(** Batch path, debates. *)
Lemma phase2_loop_never_raises topics rs :
  forall acc, never_raises b (phase2_loop b topics rs acc).
Proof.
  induction topics as [| t rest IH]; intros acc; cbn [phase2_loop].
  - apply never_raises_ret.
  - apply never_raises_bind; [| intros ?; apply IH].
    apply never_raises_try_except. intros e. apply never_raises_log_and_continue.
Qed.

(** Streaming path, reviews. *)
Lemma stream_reviews_never_raises todo p2s prd :
  forall acc, never_raises b (stream_reviews b todo p2s prd acc).
Proof.
  induction todo as [| persona rest IH]; intros acc; cbn [stream_reviews].
  - apply never_raises_ret.
  - apply never_raises_bind; [| intros ?; apply IH].
    unfold review_one.
    apply never_raises_try_except. intros e. apply never_raises_log_and_continue.
Qed.

(** Streaming path, debates. *)
Lemma debate_loop_never_raises items :
  forall acc, never_raises b (debate_loop b items acc).
Proof.
  induction items as [| [seg_id seg_reviews] rest IH]; intros acc;
    cbn [debate_loop].
  - apply never_raises_ret.
  - apply never_raises_bind; [| intros ?; apply IH].
    unfold debate_one. destruct (2 <=? seg_negative seg_reviews)%nat.
    + apply never_raises_try_except. intros e. apply never_raises_log_and_continue.
    + apply never_raises_ret.
Qed.

(** One turn of the review loop: a review and its event, or a line on the
    console. *)
Lemma review_one_cases persona p2s prd acc s :
  (exists review s1,
     review_one b persona p2s prd acc s
     = mkOutcome (Ok (acc ++ [review]))
         [EvReviewGenerated review (List.length (acc ++ [review]))] [] s1)
  \/ (exists e s1,
        review_one b persona p2s prd acc s
        = mkOutcome (Ok acc) [] [LogReviewError (name persona) e] s1).
Proof.
  unfold review_one, try_except, bind, call, yield, print, ret.
  destruct (ReviewPRD b (stream_review_request persona p2s prd) s)
    as [[review | e] s1]; simpl.
  - left. now exists review, s1.
  - right. now exists e, s1.
Qed.

(** Streaming path, reviews: each persona adds one review and one
    [review_generated] event, or one line on the console. *)
Lemma stream_reviews_outcome todo p2s prd :
  forall acc s,
    let o := stream_reviews b todo p2s prd acc s in
    exists new,
      result o = Ok (acc ++ new)
      /\ map event_type (events o) = repeat "review_generated" (List.length new)
      /\ (List.length new + List.length (console o) = List.length todo)%nat.
Proof.
  induction todo as [| persona rest IH]; intros acc s; cbn [stream_reviews].
  - exists []. simpl. now rewrite app_nil_r.
  - cbv zeta.
    destruct (review_one_cases persona p2s prd acc s)
      as [(review & s1 & Hone) | (e & s1 & Hone)].
    + rewrite (bind_ok b _ _ s (acc ++ [review])) by (now rewrite Hone).
      rewrite Hone. cbn [result events console oracle].
      destruct (IH (acc ++ [review]) s1) as (new & Hres & Hev & Hlen).
      exists (review :: new). cbv zeta in Hres, Hev, Hlen.
      rewrite Hres, <- app_assoc. cbn [map app event_type].
      rewrite Hev. cbn [List.length repeat]. repeat split.
      rewrite length_app in *. simpl in *. lia.
    + rewrite (bind_ok b _ _ s acc) by (now rewrite Hone).
      rewrite Hone. cbn [result events console oracle].
      destruct (IH acc s1) as (new & Hres & Hev & Hlen).
      exists new. cbv zeta in Hres, Hev, Hlen.
      rewrite Hres. cbn [app]. rewrite Hev. repeat split.
      simpl. lia.
Qed.

(** Streaming path, persona synthesis: the call has no handler of its own, so
    the loop raises what the oracle raised. *)
Lemma generate_for_segment_raises seg_id segment todo g s e s1 :
  GeneratePersona b (segment_data segment (variation_prompt (variation_index g))) s
  = (Raise e, s1) ->
  generate_for_segment b seg_id segment (S todo) g s = mkOutcome (Raise e) [] [] s1.
Proof.
  intros H. cbn [generate_for_segment].
  unfold bind, generate_persona_variation, call. now rewrite H.
Qed.

End UnitFailures.

(** Ten personas, three failed reviews: the stream carries seven
    [review_generated] events, no [error] event, reports seven reviews in
    [final_result] and ends in [complete]; the three failures are on the
    console. *)
Example three_of_ten_reviews_fail :
  let run := stream_prd_review (Scenario.scripted Scenario.three_reviews_fail)
               (Ok Scenario.catalog) "prd" 10 Scenario.ten_custom Scenario.start in
  count_events "persona_generated" (events run) = 10%nat
  /\ count_events "review_generated" (events run) = 7%nat
  /\ count_events "error" (events run) = 0%nat
  /\ List.length (console run) = 3%nat
  /\ (exists i, In (EvFinalResult i 7 0) (events run))
  /\ last (events run) EvComplete = EvComplete
  /\ count_events "complete" (events run) = 1%nat.
Proof.
  cbv zeta. repeat split; try (vm_compute; reflexivity).
  eexists. find_in.
Qed.

(** C4, at the failing input: default distribution over the sample catalog,
    the first persona synthesis raises. The streaming run does not drop the
    unit and go on: it yields the [error] event right after the progress
    event of the first segment, and nothing else. The batch loop on the same
    oracle logs the failure and returns the remaining three personas. *)
Theorem persona_failure_ends_the_stream :
  let b := Scenario.scripted Scenario.first_persona_fails in
  events (stream_prd_review b (Ok Scenario.catalog) "prd" 4 None Scenario.start)
  = [ EvProgress (MsgStarting 4);
      EvProgress MsgLoadingSegments;
      EvProgress (MsgAllSegments 4 4);
      EvProgress (MsgSegment 1 "busy_parents");
      EvError Scenario.oracle_error ]
  /\ exists ps,
       result (scale_personas b Scenario.catalog 1 Scenario.start) = Ok ps
       /\ List.length ps = 3%nat
       /\ console (scale_personas b Scenario.catalog 1 Scenario.start)
          = [LogPersonaError 1 Scenario.oracle_error].
Proof.
  cbv zeta. split; [vm_compute; reflexivity |].
  eexists. repeat split; vm_compute; reflexivity.
Qed.

(** ** No completed review *)

Section NoReviews.

Variable b : Baml.

(** Streaming path: both percentages of the empty list are 0 and the router
    skips the debate. *)
Lemma stream_router_no_reviews s :
  negative_pct [] = float_zero /\ concerning_pct [] = float_zero
  /\ debate_phase b [] s
     = mkOutcome (Ok []) [EvProgress (MsgDebateSkipped float_zero)] [] s.
Proof. repeat split. Qed.

(** Batch path: node 2 divides by the number of reviews. *)
Lemma phase1_reviews_node_no_reviews state s :
  result (phase1_loop b (personas state) (prd_content state) [] s) = Ok [] ->
  result (phase1_reviews_node b state s) = Raise division_by_zero.
Proof.
  intros H. unfold phase1_reviews_node.
  rewrite (bind_ok b _ _ s [] H). reflexivity.
Qed.

End NoReviews.

(** C3, at the failing input: four personas over the sample catalog, every
    review call raises. The streaming run reports 0 reviews with 0 percent,
    skips the debate and ends in [complete]; the batch workflow raises
    [ZeroDivisionError] in node 2, before the router, and the non-streaming
    endpoint answers with an HTTP error. *)
Theorem zero_reviews_batch_divides_by_zero :
  let b := Scenario.scripted Scenario.reviews_fail in
  let run := stream_prd_review b (Ok Scenario.catalog) "prd" 4 None Scenario.start in
  In (EvReviewComplete 0 float_zero) (events run)
  /\ has_phase "debate_skipped" (events run) = true
  /\ last (events run) (EvError division_by_zero) = EvComplete
  /\ result (run_workflow b (Ok Scenario.catalog) Scenario.no_saved_personas
               "prd" 4 Scenario.start)
     = Raise division_by_zero
  /\ result (review_prd b (Ok Scenario.catalog) Scenario.no_saved_personas
               "prd" 4 Scenario.start)
     = Raise (HTTPException 500 "division by zero").
Proof.
  cbv zeta. repeat split; try (vm_compute; reflexivity).
  find_in.
Qed.

(** ** Failure of the aggregation call *)

(** *** What leaves the record of the aggregation calls alone *)

Section KeepsBasics.

Variable c : Baml.
Context {X : Type}.
Variable obs : OracleState c -> X.

Lemma keeps_ret {A} (a : A) : keeps c obs (ret a).
Proof. intros s. reflexivity. Qed.

Lemma keeps_raise {A} e : keeps c obs (@raise c A e).
Proof. intros s. reflexivity. Qed.

Lemma keeps_print l : keeps c obs (@print c l).
Proof. intros s. reflexivity. Qed.

Lemma keeps_yield e : keeps c obs (@yield c e).
Proof. intros s. reflexivity. Qed.

Lemma keeps_of_result {A} (r : Result A) : keeps c obs (@of_result c A r).
Proof. destruct r; [apply keeps_ret | apply keeps_raise]. Qed.

Lemma keeps_call {Q A} (op : Q -> OracleState c -> Result A * OracleState c) q :
  (forall s, obs (snd (op q s)) = obs s) -> keeps c obs (call op q).
Proof. intros H s. unfold call. specialize (H s). now destruct (op q s). Qed.

Lemma keeps_bind {A B} (m : M c A) (f : A -> M c B) :
  keeps c obs m -> (forall a, keeps c obs (f a)) -> keeps c obs (bind m f).
Proof.
  intros Hm Hf s. unfold bind. destruct (result (m s)); cbn [oracle].
  - now rewrite Hf, Hm.
  - apply Hm.
Qed.

Lemma keeps_try_except {A} (m : M c A) h :
  keeps c obs m -> (forall e, keeps c obs (h e)) -> keeps c obs (try_except m h).
Proof.
  intros Hm Hh s. unfold try_except. destruct (result (m s)); cbn [oracle].
  - apply Hm.
  - now rewrite Hh, Hm.
Qed.

End KeepsBasics.

Ltac keeps_step :=
  first [ apply keeps_ret | apply keeps_raise | apply keeps_print
        | apply keeps_yield | apply keeps_of_result
        | apply keeps_bind; [ | intros ? ]
        | apply keeps_try_except; [ | intros ? ]
        | apply keeps_call; solve [auto] ].
Ltac keeps_auto := repeat keeps_step.

(** Every stage before the aggregation keeps what the persona, review and
    debate calls keep. *)
Section KeepsStages.

Variable c : Baml.
Context {X : Type}.
Variable obs : OracleState c -> X.
Variable segments_file : Result (list Segment).
Variable personas_file : Z -> option (list UserPersona).

Hypothesis Hpersona : forall q s, obs (snd (GeneratePersona c q s)) = obs s.
Hypothesis Hreview : forall q s, obs (snd (ReviewPRD c q s)) = obs s.
Hypothesis Hdebate : forall q s, obs (snd (FacilitateDebate c q s)) = obs s.

Lemma keeps_scale_personas segments n : keeps c obs (scale_personas c segments n).
Proof.
  unfold scale_personas. generalize (@nil UserPersona).
  induction segments as [| seg rest IH]; intros acc; cbn [scale_personas_from].
  - apply keeps_ret.
  - apply keeps_bind; [| intros ?; apply IH].
    generalize (@nil UserPersona). generalize 0.
    induction (Z.to_nat n) as [| todo IHt]; intros i acc'; cbn [scale_segment].
    + apply keeps_ret.
    + apply keeps_bind; [| intros ?; apply IHt].
      unfold generate_persona_variation. keeps_auto.
Qed.

Lemma keeps_generate_personas_node state :
  keeps c obs (generate_personas_node c segments_file personas_file state).
Proof.
  unfold generate_personas_node, load_segments.
  destruct (personas_file (personas_count state)); keeps_auto.
  apply keeps_scale_personas.
Qed.

Lemma keeps_phase1_reviews_node state : keeps c obs (phase1_reviews_node c state).
Proof.
  unfold phase1_reviews_node. keeps_auto.
  generalize (@nil PRDReview).
  induction (personas state) as [| persona rest IH]; intros acc; cbn [phase1_loop].
  - apply keeps_ret.
  - apply keeps_bind; [| intros ?; apply IH]. keeps_auto.
Qed.

Lemma keeps_debates_node state :
  keeps c obs (match should_debate state with
               | debate => phase2_debates_node c state
               | skip_debate => skip_debate_node c state
               end).
Proof.
  destruct (should_debate state); [| apply keeps_ret].
  unfold phase2_debates_node. keeps_auto.
Qed.

Lemma keeps_persona_stage n cfgs :
  keeps c obs (persona_stage c segments_file n cfgs).
Proof.
  unfold persona_stage, load_segments. keeps_auto.
  - unfold build_distribution. destruct cfgs as [[| cfg cfgs] |]; keeps_auto.
  - match goal with |- keeps _ _ (generate_personas _ ?items ?g) =>
      generalize g; induction items as [| [seg_id config] rest IH]; intros g0 end;
      cbn [generate_personas]; [apply keeps_ret |].
    keeps_auto; [| apply IH].
    generalize g0.
    induction (Z.to_nat (alloc_count config)) as [| k IHk]; intros g1;
      cbn [generate_for_segment]; [apply keeps_ret |].
    unfold generate_persona_variation. keeps_auto. apply IHk.
Qed.

Lemma keeps_review_stage ps p2s prd : keeps c obs (review_stage c ps p2s prd).
Proof.
  unfold review_stage. keeps_auto.
  generalize (@nil PRDReview).
  induction ps as [| persona rest IH]; intros acc; cbn [stream_reviews].
  - apply keeps_ret.
  - apply keeps_bind; [| intros ?; apply IH]. unfold review_one. keeps_auto.
Qed.

Lemma keeps_debate_phase rs : keeps c obs (debate_phase c rs).
Proof.
  unfold debate_phase.
  destruct (fgt (concerning_pct rs) stream_threshold); keeps_auto.
  - generalize (@nil DebateSession).
    induction (group_by_segment rs) as [| [seg_id seg_reviews] rest IH];
      intros acc; cbn [debate_loop]; [apply keeps_ret |].
    apply keeps_bind; [| intros ?; apply IH].
    unfold debate_one. destruct (2 <=? seg_negative seg_reviews)%nat; keeps_auto.
  - match goal with |- keeps _ _ (match ?l with _ => _ end) => destruct l end;
      keeps_auto.
Qed.

End KeepsStages.

(** *** Recording does not change a run *)

Section Simulation.

Variable b : Baml.

Lemma sim_ret {A} (a : A) : simulates (@ret b A a) (ret a).
Proof. intros s log. repeat split. Qed.

Lemma sim_raise {A} e : simulates (@raise b A e) (raise e).
Proof. intros s log. repeat split. Qed.

Lemma sim_yield e : simulates (@yield b e) (yield e).
Proof. intros s log. repeat split. Qed.

Lemma sim_print l : simulates (@print b l) (print l).
Proof. intros s log. repeat split. Qed.

Lemma sim_of_result {A} (r : Result A) : simulates (@of_result b A r) (of_result r).
Proof. destruct r; [apply sim_ret | apply sim_raise]. Qed.

Lemma sim_persona q :
  simulates (call (GeneratePersona b) q) (call (GeneratePersona (recording b)) q).
Proof.
  intros s log. unfold same_run, call. cbn.
  destruct (GeneratePersona b q s). repeat split.
Qed.

Lemma sim_review q :
  simulates (call (ReviewPRD b) q) (call (ReviewPRD (recording b)) q).
Proof.
  intros s log. unfold same_run, call. cbn.
  destruct (ReviewPRD b q s). repeat split.
Qed.

Lemma sim_debate q :
  simulates (call (FacilitateDebate b) q) (call (FacilitateDebate (recording b)) q).
Proof.
  intros s log. unfold same_run, call. cbn.
  destruct (FacilitateDebate b q s). repeat split.
Qed.

Lemma sim_aggregate q :
  simulates (call (AggregateReviews b) q) (call (AggregateReviews (recording b)) q).
Proof.
  intros s log. unfold same_run, call. cbn.
  destruct (AggregateReviews b q s). repeat split.
Qed.

Lemma sim_bind {A B} (m : M b A) m' (f : A -> M b B) f' :
  simulates m m' -> (forall a, simulates (f a) (f' a)) ->
  simulates (bind m f) (bind m' f').
Proof.
  intros Hm Hf s log. destruct (Hm s log) as (Hr & He & Hc & Ho).
  unfold same_run, bind. rewrite Hr, He, Hc.
  destruct (result (m s)) as [a | e]; cbn [result events console oracle].
  - destruct (oracle (m' (s, log))) as [s1 log1]. cbn [fst] in Ho. subst s1.
    destruct (Hf a (oracle (m s)) log1) as (Hr' & He' & Hc' & Ho').
    now rewrite Hr', He', Hc', Ho'.
  - repeat split. exact Ho.
Qed.

Lemma sim_try_except {A} (m : M b A) m' h h' :
  simulates m m' -> (forall e, simulates (h e) (h' e)) ->
  simulates (try_except m h) (try_except m' h').
Proof.
  intros Hm Hh s log. destruct (Hm s log) as (Hr & He & Hc & Ho).
  unfold same_run, try_except. rewrite Hr.
  destruct (result (m s)) as [a | e] eqn:E; cbn [result events console oracle].
  - repeat split; congruence.
  - destruct (oracle (m' (s, log))) as [s1 log1]. cbn [fst] in Ho. subst s1.
    destruct (Hh e (oracle (m s)) log1) as (Hr' & He' & Hc' & Ho').
    now rewrite He, Hc, Hr', He', Hc', Ho'.
Qed.

End Simulation.

Ltac sim_step :=
  first [ apply sim_ret | apply sim_raise | apply sim_yield | apply sim_print
        | apply sim_of_result | apply sim_persona | apply sim_review
        | apply sim_debate | apply sim_aggregate
        | apply sim_bind; [ | intros ? ]
        | apply sim_try_except; [ | intros ? ] ].
Ltac sim_auto := repeat sim_step.

Section SimulatedStages.

Variable b : Baml.
Variable segments_file : Result (list Segment).
Variable personas_file : Z -> option (list UserPersona).

Lemma sim_scale_personas segments n :
  simulates (scale_personas b segments n) (scale_personas (recording b) segments n).
Proof.
  unfold scale_personas. generalize (@nil UserPersona).
  induction segments as [| seg rest IH]; intros acc; cbn [scale_personas_from].
  - apply sim_ret.
  - apply sim_bind; [| intros ?; apply IH].
    generalize (@nil UserPersona). generalize 0.
    induction (Z.to_nat n) as [| todo IHt]; intros i acc'; cbn [scale_segment].
    + apply sim_ret.
    + apply sim_bind; [| intros ?; apply IHt].
      unfold generate_persona_variation. sim_auto.
Qed.

Lemma sim_invoke initial :
  simulates (invoke b segments_file personas_file initial)
            (invoke (recording b) segments_file personas_file initial).
Proof.
  unfold invoke. apply sim_bind; [| intros s1; apply sim_bind; [| intros s2;
    apply sim_bind; [| intros s3]]].
  - unfold generate_personas_node, load_segments.
    destruct (personas_file (personas_count initial)); sim_auto.
    apply sim_scale_personas.
  - unfold phase1_reviews_node. sim_auto.
    generalize (@nil PRDReview).
    induction (personas s1) as [| persona rest IH]; intros acc; cbn [phase1_loop].
    + apply sim_ret.
    + apply sim_bind; [| intros ?; apply IH]. sim_auto.
  - destruct (should_debate s2); [| apply sim_ret].
    unfold phase2_debates_node. sim_auto.
  - unfold aggregation_node. sim_auto.
Qed.

Lemma sim_run_workflow prd n :
  simulates (run_workflow b segments_file personas_file prd n)
            (run_workflow (recording b) segments_file personas_file prd n).
Proof. unfold run_workflow. apply sim_bind; [apply sim_invoke | intros ?; apply sim_ret]. Qed.

Lemma sim_review_prd prd n :
  simulates (review_prd b segments_file personas_file prd n)
            (review_prd (recording b) segments_file personas_file prd n).
Proof.
  unfold review_prd, load_segments.
  apply sim_try_except; [| intros ?; apply sim_raise].
  apply sim_bind; [apply sim_of_result | intros segs].
  apply sim_bind; [apply sim_of_result | intros pps].
  apply sim_bind; [apply sim_scale_personas | intros ps].
  apply sim_bind; [apply sim_invoke | intros final].
  destruct (final_insights final); [destruct (debates final) |]; sim_auto.
Qed.

Lemma sim_stream_prd_review prd n cfgs :
  simulates (stream_prd_review b segments_file prd n cfgs)
            (stream_prd_review (recording b) segments_file prd n cfgs).
Proof.
  unfold stream_prd_review.
  apply sim_try_except; [| intros ?; apply sim_yield].
  apply sim_bind; [| intros ?; apply sim_yield].
  unfold stream_body.
  apply sim_bind; [| intros g; apply sim_bind; [| intros rs;
    apply sim_bind; [| intros ds]]].
  - unfold persona_stage, load_segments. sim_auto.
    + unfold build_distribution. destruct cfgs as [[| cfg cfgs] |]; sim_auto.
    + match goal with |- simulates (generate_personas _ ?items ?g0) _ =>
        generalize g0; induction items as [| [seg_id config] rest IH]; intros g1 end;
        cbn [generate_personas]; [apply sim_ret |].
      sim_auto; [| apply IH].
      generalize g1.
      induction (Z.to_nat (alloc_count config)) as [| k IHk]; intros g2;
        cbn [generate_for_segment]; [apply sim_ret |].
      unfold generate_persona_variation. sim_auto. apply IHk.
  - unfold review_stage. sim_auto.
    generalize (@nil PRDReview).
    induction (all_personas g) as [| persona rest IH]; intros acc;
      cbn [stream_reviews]; [apply sim_ret |].
    apply sim_bind; [| intros ?; apply IH]. unfold review_one. sim_auto.
  - unfold debate_phase.
    destruct (fgt (concerning_pct rs) stream_threshold); sim_auto.
    + generalize (@nil DebateSession).
      induction (group_by_segment rs) as [| [seg_id seg_reviews] rest IH];
        intros acc; cbn [debate_loop]; [apply sim_ret |].
      apply sim_bind; [| intros ?; apply IH].
      unfold debate_one. destruct (2 <=? seg_negative seg_reviews)%nat; sim_auto.
    + match goal with |- simulates (match ?l with _ => _ end) _ => destruct l end;
        sim_auto.
  - unfold aggregation_stage. sim_auto.
Qed.

End SimulatedStages.

(** *** The aggregation call of a run *)

Section AggregationCalls.

Variable b : Baml.
Variable segments_file : Result (list Segment).
Variable personas_file : Z -> option (list UserPersona).

Lemma recording_persona q s :
  aggregation_calls (snd (GeneratePersona (recording b) q s)) = aggregation_calls s.
Proof. cbn. now destruct (GeneratePersona b q (fst s)). Qed.

Lemma recording_review q s :
  aggregation_calls (snd (ReviewPRD (recording b) q s)) = aggregation_calls s.
Proof. cbn. now destruct (ReviewPRD b q (fst s)). Qed.

Lemma recording_debate q s :
  aggregation_calls (snd (FacilitateDebate (recording b) q s)) = aggregation_calls s.
Proof. cbn. now destruct (FacilitateDebate b q (fst s)). Qed.

Lemma calls_once_bind {A B}
    (R : Result AggregatedInsights -> Result B -> list LogLine -> Prop)
    (m : M (recording b) A) (f : A -> M (recording b) B) :
  keeps (recording b) aggregation_calls m -> (forall a, calls_once R (f a)) ->
  (forall r res con pre, R r res con -> R r res (pre ++ con)) ->
  calls_once R (bind m f).
Proof.
  intros Hm Hf Hstable s. unfold bind.
  destruct (result (m s)) as [a | e]; cbn [oracle result console].
  - destruct (Hf a (oracle (m s))) as [H | (rq & r & H & HR)].
    + left. now rewrite H, Hm.
    + right. exists rq, r. split; [now rewrite H, Hm | now apply Hstable].
  - left. apply Hm.
Qed.

Lemma aggregation_stage_calls ps rs ds :
  calls_once streamed (aggregation_stage (recording b) ps rs ds).
Proof.
  intros s. right. unfold aggregation_stage, bind, yield, call, streamed.
  cbn. destruct (AggregateReviews b _ (fst s)) as [[i | e] s1]; cbn;
    eexists; eexists; split; reflexivity.
Qed.

Lemma aggregation_node_calls state :
  calls_once aggregated (aggregation_node (recording b) state).
Proof.
  intros s. right. unfold aggregation_node, try_except, bind, call, print, ret,
    aggregated.
  cbn. destruct (AggregateReviews b _ (fst s)) as [[i | e] s1]; cbn;
    eexists; eexists; (split; [reflexivity |]); eexists; (split; [reflexivity |]).
  - reflexivity.
  - split; [reflexivity |]. now exists [].
Qed.

Lemma stream_body_calls prd n cfgs :
  calls_once streamed (stream_body (recording b) segments_file prd n cfgs).
Proof.
  assert (Hstable : forall r res con pre,
            streamed r res con -> streamed r res (pre ++ con)) by (intros; assumption).
  unfold stream_body.
  apply calls_once_bind; [| intros g | exact Hstable].
  { apply keeps_persona_stage; intros;
      first [apply recording_persona | apply recording_review
            | apply recording_debate]. }
  apply calls_once_bind; [| intros rs | exact Hstable].
  { apply keeps_review_stage; intros;
      first [apply recording_persona | apply recording_review
            | apply recording_debate]. }
  apply calls_once_bind; [| intros ds | exact Hstable].
  { apply keeps_debate_phase; intros;
      first [apply recording_persona | apply recording_review
            | apply recording_debate]. }
  apply aggregation_stage_calls.
Qed.

Lemma invoke_calls initial :
  calls_once aggregated (invoke (recording b) segments_file personas_file initial).
Proof.
  assert (Hstable : forall r res con pre,
            aggregated r res con -> aggregated r res (pre ++ con)).
  { intros r res con pre (final & Hres & H). exists final. split; [exact Hres |].
    destruct r as [i | e]; [exact H |]. destruct H as (Hnone & before & ->).
    split; [exact Hnone |]. exists (pre ++ before). now rewrite app_assoc. }
  unfold invoke.
  apply calls_once_bind; [| intros s1 | exact Hstable].
  { apply keeps_generate_personas_node; intros;
      first [apply recording_persona | apply recording_review
            | apply recording_debate]. }
  apply calls_once_bind; [| intros s2 | exact Hstable].
  { apply keeps_phase1_reviews_node; intros;
      first [apply recording_persona | apply recording_review
            | apply recording_debate]. }
  apply calls_once_bind; [| intros s3 | exact Hstable].
  { apply keeps_debates_node; intros;
      first [apply recording_persona | apply recording_review
            | apply recording_debate]. }
  apply aggregation_node_calls.
Qed.

(** The generator leaves the oracle where the body of its [try] left it. *)
Lemma stream_prd_review_oracle (c : Baml) prd n cfgs (s : OracleState c) :
  oracle (stream_prd_review c segments_file prd n cfgs s)
  = oracle (stream_body c segments_file prd n cfgs s).
Proof.
  unfold stream_prd_review, try_except, bind, yield.
  now destruct (result (stream_body c segments_file prd n cfgs s)).
Qed.

End AggregationCalls.

(** The batch workflow on the sample catalog, with an oracle whose aggregation
    raises: [run_workflow] returns [None] without raising, and the failure is
    only on the console. *)
Lemma batch_aggregation_failure_is_not_raised :
  let run := run_workflow (Scenario.scripted Scenario.aggregation_fails)
               (Ok Scenario.catalog) Scenario.no_saved_personas "prd" 4
               Scenario.start in
  result run = Ok None
  /\ console run = [LogAggregateError Scenario.oracle_error]
  /\ forall e, result run <> Raise e.
Proof.
  cbv zeta. split; [vm_compute; reflexivity |].
  split; [vm_compute; reflexivity |].
  intros e. vm_compute. discriminate.
Qed.

(** The three paths over the recording oracle, started with an empty
    record, when the record holds an aggregation call that raised [e]. *)
Lemma aggregation_failure_recorded
    (b : Baml) (segments_file : Result (list Segment))
    (personas_file : Z -> option (list UserPersona))
    (prd : string) (n : Z) (s : OracleState b)
    (rq : AggregateRequest) (e : Exn) :
  (forall cfgs,
     let run := stream_prd_review (recording b) segments_file prd n cfgs (s, []) in
     In (rq, Raise e) (aggregation_calls (oracle run)) ->
     aggregation_calls (oracle run) = [(rq, Raise e)]
     /\ exists before,
          events run = before ++ [EvError e] /\ Forall ordinary before)
  /\ (let run := run_workflow (recording b) segments_file personas_file prd n
                   (s, []) in
      In (rq, Raise e) (aggregation_calls (oracle run)) ->
      aggregation_calls (oracle run) = [(rq, Raise e)]
      /\ result run = Ok None
      /\ exists before, console run = before ++ [LogAggregateError e])
  /\ (let run := review_prd (recording b) segments_file personas_file prd n
                   (s, []) in
      In (rq, Raise e) (aggregation_calls (oracle run)) ->
      aggregation_calls (oracle run) = [(rq, Raise e)]
      /\ result run
         = Raise (HTTPException 500
                    "'NoneType' object has no attribute 'total_reviews'")).
Proof.
  split; [| split].
  - intros cfgs run Hin. subst run.
    rewrite stream_prd_review_oracle in *.
    destruct (stream_body_calls b segments_file prd n cfgs (s, []))
      as [H | (rq0 & r & H & HR)]; rewrite H in *; cbn in Hin; [contradiction |].
    destruct Hin as [[= -> ->] | []]. split; [reflexivity |].
    unfold streamed in HR.
    destruct (stream_prd_review_cases (recording b) segments_file prd n cfgs (s, []))
      as [_ [(pre & i & k & m & Hok & _) | (pre & e' & Hraise & Hev & Hpre)]].
    + congruence.
    + exists pre. split; [| exact Hpre]. rewrite Hev. congruence.
  - intros run Hin. subst run. unfold run_workflow in *.
    set (initial := mkState prd n [] [] float_zero false None None) in *.
    destruct (invoke_calls b segments_file personas_file initial (s, []))
      as [H | (rq0 & r & H & (final & Hres & HR))].
    + exfalso. revert Hin. unfold bind.
      destruct (result (invoke (recording b) segments_file personas_file initial
                          (s, []))); cbn [oracle ret]; rewrite H; intros [].
    + revert Hin. rewrite (bind_ok (recording b) _ _ (s, []) final Hres).
      cbn [oracle ret result console]. rewrite H. cbn.
      intros [[= -> ->] | []]. destruct HR as (Hnone & before & Hcon).
      split; [reflexivity |]. split; [now rewrite Hnone |].
      exists before. now rewrite Hcon, app_nil_r.
  - intros run Hin. subst run. unfold review_prd in *.
    match type of Hin with
    | In _ (aggregation_calls (oracle (try_except ?body ?h (s, [])))) =>
        set (m := body) in *; set (handler := h) in *
    end.
    assert (Hbody : calls_once
              (fun r res _ =>
                 match r with
                 | Raise _ =>
                     res = Raise (AttributeError
                              "'NoneType' object has no attribute 'total_reviews'")
                 | Ok _ => True
                 end) m).
    { subst m. unfold load_segments.
      apply calls_once_bind; [apply keeps_of_result | intros segs | auto].
      apply calls_once_bind; [apply keeps_of_result | intros pps | auto].
      apply calls_once_bind; [| intros ps | auto].
      { apply keeps_scale_personas; intros;
          first [apply recording_persona | apply recording_review
                | apply recording_debate]. }
      intros s0. unfold bind.
      destruct (invoke_calls b segments_file personas_file
                  (mkState prd (Z.of_nat (List.length ps)) ps [] float_zero false
                     (Some []) None) s0)
        as [H | (rq0 & r & H & (final & Hres & HR))].
      - left.
        destruct (result (invoke (recording b) segments_file personas_file _ s0))
          as [w | e0]; cbn [oracle]; [| exact H].
        destruct (final_insights w) as [i |]; [destruct (debates w) |];
          cbn [oracle raise ret]; exact H.
      - right. exists rq0, r. rewrite Hres. cbn [oracle result].
        destruct r as [i | e0].
        + split; [| exact I]. rewrite HR.
          destruct (debates final); cbn [oracle raise ret]; exact H.
        + destruct HR as (Hnone & _). rewrite Hnone. cbn [oracle raise result].
          split; [exact H | reflexivity]. }
    destruct (Hbody (s, [])) as [H | (rq0 & r & H & HR)].
    + exfalso. revert Hin. unfold try_except.
      destruct (result (m (s, []))); cbn [oracle]; [rewrite H; intros [] |].
      subst handler. cbn [oracle raise]. rewrite H. intros [].
    + revert Hin. unfold try_except.
      destruct (result (m (s, []))) as [resp | e0] eqn:E; cbn [oracle result].
      * rewrite H. cbn. intros [[= -> ->] | []]. discriminate.
      * subst handler. cbn [oracle raise result]. rewrite H. cbn.
        intros [[= -> ->] | []]. split; [reflexivity |].
        injection HR as ->. reflexivity.
Qed.

(** C2, amended. For every oracle [b] and every run, the aggregation calls
    of the run being read off the same run over the recording oracle, which
    has the same result, events and console. In a run that made an
    aggregation call which raised [e], that call is the only aggregation
    call of the run (a failed aggregation is not tried again) and no insight
    is produced or substituted. Streaming path: the stream ends in the
    [error] event of [e], after events none of which is [final_result],
    [complete] or [error]. Batch workflow: the failure is caught in node 4,
    printed as the last line of the console, and [run_workflow] returns
    [None] without raising. Non-streaming endpoint: it raises HTTP 500, with
    the message of the [AttributeError] on the missing insights, not that of
    [e]. *)
Theorem aggregation_failure_by_path
    (b : Baml) (segments_file : Result (list Segment))
    (personas_file : Z -> option (list UserPersona))
    (prd : string) (n : Z) (s : OracleState b)
    (rq : AggregateRequest) (e : Exn) :
  (forall cfgs,
     let run := stream_prd_review b segments_file prd n cfgs s in
     let recorded :=
       stream_prd_review (recording b) segments_file prd n cfgs (s, []) in
     same_run run recorded
     /\ (In (rq, Raise e) (aggregation_calls (oracle recorded)) ->
         aggregation_calls (oracle recorded) = [(rq, Raise e)]
         /\ exists before,
              events run = before ++ [EvError e] /\ Forall ordinary before))
  /\ (let run := run_workflow b segments_file personas_file prd n s in
      let recorded :=
        run_workflow (recording b) segments_file personas_file prd n (s, []) in
      same_run run recorded
      /\ (In (rq, Raise e) (aggregation_calls (oracle recorded)) ->
          aggregation_calls (oracle recorded) = [(rq, Raise e)]
          /\ result run = Ok None
          /\ exists before, console run = before ++ [LogAggregateError e]))
  /\ (let run := review_prd b segments_file personas_file prd n s in
      let recorded :=
        review_prd (recording b) segments_file personas_file prd n (s, []) in
      same_run run recorded
      /\ (In (rq, Raise e) (aggregation_calls (oracle recorded)) ->
          aggregation_calls (oracle recorded) = [(rq, Raise e)]
          /\ result run
             = Raise (HTTPException 500
                        "'NoneType' object has no attribute 'total_reviews'"))).
Proof.
  destruct (aggregation_failure_recorded b segments_file personas_file prd n s rq e)
    as (Hstream & Hbatch & Hendpoint).
  split; [| split].
  - intros cfgs run recorded.
    pose proof (sim_stream_prd_review b segments_file prd n cfgs s [])
      as Hsim.
    split; [exact Hsim |]. intros Hin.
    destruct Hsim as (_ & Hev & _). destruct (Hstream cfgs Hin) as (H1 & H2).
    split; [exact H1 |]. subst run. fold recorded in Hev. now rewrite <- Hev.
  - intros run recorded.
    pose proof (sim_run_workflow b segments_file personas_file prd n s [])
      as Hsim.
    split; [exact Hsim |]. intros Hin.
    destruct Hsim as (Hres & _ & Hcon & _). destruct (Hbatch Hin) as (H1 & H2 & H3).
    split; [exact H1 |]. subst run. fold recorded in Hres, Hcon.
    now rewrite <- Hres, <- Hcon.
  - intros run recorded.
    pose proof (sim_review_prd b segments_file personas_file prd n s [])
      as Hsim.
    split; [exact Hsim |]. intros Hin.
    destruct Hsim as (Hres & _). destruct (Hendpoint Hin) as (H1 & H2).
    split; [exact H1 |]. subst run. fold recorded in Hres. now rewrite <- Hres.
Qed.

Lemma aggregation_failure_on_sample_run :
  let b := Scenario.scripted Scenario.aggregation_fails in
  let rq := mkAggregateRequest
              (map (fun k => Scenario.review_of
                               (batch_review_request (Scenario.persona_of k) "prd")
                               "positive")
                   (seq 0 4))
              [] 4 in
  let run := run_workflow b (Ok Scenario.catalog) Scenario.no_saved_personas
               "prd" 4 Scenario.start in
  let recorded := run_workflow (recording b) (Ok Scenario.catalog)
                    Scenario.no_saved_personas "prd" 4 (Scenario.start, []) in
  In (rq, Raise Scenario.oracle_error) (aggregation_calls (oracle recorded))
  /\ aggregation_calls (oracle recorded) = [(rq, Raise Scenario.oracle_error)]
  /\ result run = Ok None
  /\ exists before, console run = before ++ [LogAggregateError Scenario.oracle_error].
Proof.
  cbv zeta.
  assert (Hin : In (mkAggregateRequest
                      (map (fun k => Scenario.review_of
                                       (batch_review_request (Scenario.persona_of k)
                                          "prd") "positive")
                           (seq 0 4)) [] 4, Raise Scenario.oracle_error)
                  (aggregation_calls
                     (oracle (run_workflow
                                (recording (Scenario.scripted Scenario.aggregation_fails))
                                (Ok Scenario.catalog) Scenario.no_saved_personas
                                "prd" 4 (Scenario.start, [])))))
    by (vm_compute; left; reflexivity).
  split; [exact Hin |].
  destruct (aggregation_failure_by_path
              (Scenario.scripted Scenario.aggregation_fails)
              (Ok Scenario.catalog) Scenario.no_saved_personas "prd" 4
              Scenario.start
              (mkAggregateRequest
                 (map (fun k => Scenario.review_of
                                  (batch_review_request (Scenario.persona_of k)
                                     "prd") "positive")
                      (seq 0 4)) [] 4)
              Scenario.oracle_error) as (_ & (_ & Hbatch) & _).
  exact (Hbatch Hin).
Defined.

(** A transient failure: with an oracle whose first aggregation call raises
    and whose later ones would succeed, the stream still ends in [error]
    after that one call. *)
Example transient_aggregation_failure :
  let b := Scenario.scripted
             (Scenario.mkScript Scenario.never Scenario.never Scenario.never
                (fun k => Nat.eqb k 0) (fun _ => "positive")) in
  let run := stream_prd_review (recording b) (Ok Scenario.catalog) "prd" 4 None
               (Scenario.start, []) in
  List.length (aggregation_calls (oracle run)) = 1%nat
  /\ last (events run) EvComplete = EvError Scenario.oracle_error
  /\ count_events "final_result" (events run) = 0%nat.
Proof. cbv zeta. repeat split; vm_compute; reflexivity. Qed.

(** ** Which segments are debated *)

Lemma reviews_of_app seg rs1 rs2 :
  reviews_of seg (rs1 ++ rs2) = reviews_of seg rs1 ++ reviews_of seg rs2.
Proof. apply filter_app. Qed.

(** The grouping loop, from any point of the review list. *)
Lemma group_fold rs :
  forall done d,
    (forall seg, dict_get d seg = nonempty (reviews_of seg done)) ->
    NoDup (dict_keys d) ->
    (forall seg,
       dict_get (fold_left group_step rs d) seg
       = nonempty (reviews_of seg (done ++ rs)))
    /\ NoDup (dict_keys (fold_left group_step rs d)).
Proof.
  induction rs as [| r rs IH]; intros done d Hget Hnd; simpl.
  - rewrite app_nil_r. now split.
  - replace (done ++ r :: rs) with ((done ++ [r]) ++ rs)
      by (now rewrite <- app_assoc).
    apply IH; [| now apply dict_set_NoDup].
    intros seg. unfold group_step. rewrite reviews_of_app.
    destruct (String.eqb_spec (reviewer_segment r) seg) as [<- | Hne].
    + rewrite dict_get_set_eq. unfold dict_get_default. rewrite Hget.
      unfold reviews_of at 3. simpl. rewrite String.eqb_refl.
      destruct (reviews_of (reviewer_segment r) done); reflexivity.
    + rewrite dict_get_set_neq by exact Hne. rewrite Hget.
      unfold reviews_of at 3. simpl.
      destruct (String.eqb_spec (reviewer_segment r) seg); [contradiction |].
      now rewrite app_nil_r.
Qed.

(** [segment_reviews] maps every segment that has a review to its reviews. *)
Lemma group_by_segment_spec rs :
  (forall seg, dict_get (group_by_segment rs) seg = nonempty (reviews_of seg rs))
  /\ NoDup (dict_keys (group_by_segment rs)).
Proof.
  unfold group_by_segment.
  apply (group_fold rs [] []); [reflexivity | constructor].
Qed.

Lemma group_by_segment_In rs seg l :
  In (seg, l) (group_by_segment rs) <-> l = reviews_of seg rs /\ l <> [].
Proof.
  destruct (group_by_segment_spec rs) as [Hget Hnd]. split.
  - intros Hin. apply (dict_In_get _ _ _ Hnd) in Hin. rewrite Hget in Hin.
    destruct (reviews_of seg rs); [discriminate |].
    injection Hin as <-. split; [reflexivity | discriminate].
  - intros [-> Hne]. apply dict_get_In. rewrite Hget.
    destruct (reviews_of seg rs); [contradiction | reflexivity].
Qed.

Lemma filter_length_Permutation {A} (f : A -> bool) l l' :
  Permutation l l' -> List.length (filter f l) = List.length (filter f l').
Proof.
  induction 1 as [| x l l' _ IH | x y l | l l' l'' _ IH1 _ IH2]; simpl.
  - reflexivity.
  - destruct (f x); simpl; now rewrite IH.
  - destruct (f x), (f y); reflexivity.
  - now rewrite IH1.
Qed.

Lemma concerning_in_filter seg rs :
  concerning_in seg rs
  = List.length
      (filter (fun r => String.eqb (reviewer_segment r) seg && is_concerning r) rs).
Proof.
  unfold concerning_in, seg_negative, reviews_of.
  induction rs as [| r rs IH]; [reflexivity |]. simpl.
  destruct (String.eqb (reviewer_segment r) seg); simpl; [| exact IH].
  destruct (is_concerning r); simpl; now rewrite IH.
Qed.

Lemma concerning_in_Permutation seg rs rs' :
  Permutation rs rs' -> concerning_in seg rs = concerning_in seg rs'.
Proof.
  intros H. rewrite !concerning_in_filter. now apply filter_length_Permutation.
Qed.

Lemma concerning_pct_Permutation rs rs' :
  Permutation rs rs' -> concerning_pct rs = concerning_pct rs'.
Proof.
  intros H. unfold concerning_pct, guarded_pct, concerning_count, count_sentiment.
  rewrite (filter_length_Permutation _ _ _ H).
  rewrite (filter_length_Permutation
             (fun r => String.eqb (overall_sentiment r) "neutral") _ _ H).
  rewrite (Permutation_length H).
  destruct rs as [| r rs0], rs' as [| r' rs0']; try reflexivity.
  - apply Permutation_nil in H. discriminate.
  - apply Permutation_sym, Permutation_nil in H. discriminate.
Qed.

Section Eligibility.

Variable b : Baml.

(** One turn of the debate loop: an eligible segment is announced, then the
    oracle is asked and its debate, if any, is streamed. *)
Lemma debate_one_cases seg_id seg_reviews acc s :
  exists generated acc' s',
    (forall e, In e generated -> exists d, e = EvDebateGenerated d)
    /\ result (debate_one b seg_id seg_reviews acc s) = Ok acc'
    /\ oracle (debate_one b seg_id seg_reviews acc s) = s'
    /\ events (debate_one b seg_id seg_reviews acc s)
       = if (2 <=? seg_negative seg_reviews)%nat
         then EvProgress (MsgDebateRunning seg_id) :: generated
         else [].
Proof.
  unfold debate_one.
  destruct (2 <=? seg_negative seg_reviews)%nat.
  - unfold try_except, bind, yield, call, print, ret. cbn.
    destruct (FacilitateDebate b (debate_request seg_id seg_reviews) s)
      as [[d | e] s1]; cbn.
    + exists [EvDebateGenerated d], (acc ++ [d]), s1. repeat split.
      intros e [<- | []]. now exists d.
    + exists [], acc, s1. repeat split. intros e0 [].
  - exists [], acc, s. repeat split. intros e [].
Qed.

Lemma debate_loop_step seg_id seg_reviews rest acc s :
  exists generated acc' s',
    (forall e, In e generated -> exists d, e = EvDebateGenerated d)
    /\ events (debate_loop b ((seg_id, seg_reviews) :: rest) acc s)
       = (if (2 <=? seg_negative seg_reviews)%nat
          then EvProgress (MsgDebateRunning seg_id) :: generated
          else [])
         ++ events (debate_loop b rest acc' s').
Proof.
  destruct (debate_one_cases seg_id seg_reviews acc s)
    as (generated & acc' & s' & Hgen & Hres & Hs & Hev).
  exists generated, acc', s'. split; [exact Hgen |].
  cbn [debate_loop]. rewrite (bind_ok b _ _ s acc' Hres).
  cbn [events]. now rewrite Hev, Hs.
Qed.

(** A segment is announced, and the oracle asked, exactly when at least two
    of its reviews are negative or neutral. *)
Lemma debate_loop_running items seg :
  forall acc s,
    In (EvProgress (MsgDebateRunning seg)) (events (debate_loop b items acc s))
    <-> exists l, In (seg, l) items /\ (2 <= seg_negative l)%nat.
Proof.
  induction items as [| [seg_id seg_reviews] rest IH]; intros acc s.
  - simpl. split; [intros [] | intros (l & [] & _)].
  - destruct (debate_loop_step seg_id seg_reviews rest acc s)
      as (generated & acc' & s' & Hgen & ->).
    rewrite in_app_iff, IH.
    destruct (Nat.leb_spec 2 (seg_negative seg_reviews)) as [Hle | Hlt]; split.
    + intros [[Heq | Hin] | (l & Hin & Hl)].
      * injection Heq as <-. exists seg_reviews. split; [now left | exact Hle].
      * apply Hgen in Hin. destruct Hin as [d Hd]. discriminate.
      * exists l. split; [now right | exact Hl].
    + intros (l & [Heq | Hin] & Hl).
      * injection Heq as -> ->. left. now left.
      * right. now exists l.
    + intros [[] | (l & Hin & Hl)]. exists l. split; [now right | exact Hl].
    + intros (l & [Heq | Hin] & Hl).
      * injection Heq as -> ->. lia.
      * right. now exists l.
Qed.

Lemma debate_phase_running rs s seg :
  fgt (concerning_pct rs) stream_threshold = true ->
  In (EvProgress (MsgDebateRunning seg)) (events (debate_phase b rs s))
  <-> (2 <= concerning_in seg rs)%nat.
Proof.
  intros Hrun. unfold debate_phase. rewrite Hrun.
  unfold bind at 1. cbn -[debate_loop group_by_segment bind].
  destruct (debate_loop_never_raises b (group_by_segment rs) [] s) as [ds Hds].
  rewrite (bind_ok b _ _ s ds Hds). cbn -[debate_loop group_by_segment].
  assert (Htail : forall evs,
            In (EvProgress (MsgDebateRunning seg))
               (events (debate_loop b (group_by_segment rs) [] s) ++ evs)
            <-> In (EvProgress (MsgDebateRunning seg))
                   (events (debate_loop b (group_by_segment rs) [] s))
                \/ In (EvProgress (MsgDebateRunning seg)) evs)
    by (intros; apply in_app_iff).
  assert (Hloop :
    In (EvProgress (MsgDebateRunning seg))
       (events (debate_loop b (group_by_segment rs) [] s))
    <-> (2 <= concerning_in seg rs)%nat).
  { rewrite debate_loop_running. unfold concerning_in. split.
    - intros (l & Hin & Hl). apply group_by_segment_In in Hin.
      destruct Hin as [-> _]. exact Hl.
    - intros Hl. exists (reviews_of seg rs). split; [| exact Hl].
      apply group_by_segment_In. split; [reflexivity |].
      intros Hnil. rewrite Hnil in Hl. unfold seg_negative in Hl. simpl in Hl. lia. }
  split.
  - intros [Heq | Hin]; [discriminate |].
    apply Htail in Hin. destruct Hin as [Hin | Hin]; [now apply Hloop |].
    destruct ds; simpl in Hin; [destruct Hin |].
    destruct Hin as [Heq | []]. discriminate.
  - intros Hl. right. apply Htail. left. now apply Hloop.
Qed.

End Eligibility.

(** The pipeline's count for a segment is the specification's. *)
Lemma concerning_in_spec seg rs :
  concerning_in seg rs
  = Spec.count (fun r => Spec.of_segment seg r && Spec.concerning r) rs.
Proof.
  rewrite concerning_in_filter.
  unfold is_concerning, Spec.of_segment, Spec.concerning.
  induction rs as [| r rs IH]; [reflexivity |]. cbn [filter Spec.count].
  destruct (String.eqb_spec (reviewer_segment r) seg);
    destruct (string_dec (reviewer_segment r) seg); try contradiction;
    destruct (String.eqb_spec (overall_sentiment r) "negative");
    destruct (string_dec (overall_sentiment r) "negative"); try contradiction;
    destruct (String.eqb_spec (overall_sentiment r) "neutral");
    destruct (string_dec (overall_sentiment r) "neutral"); try contradiction;
    cbn [andb orb List.length]; now rewrite IH.
Qed.

Lemma spec_count_Permutation p rs rs' :
  Permutation rs rs' -> Spec.count p rs = Spec.count p rs'.
Proof.
  induction 1 as [| x l l' _ IH | x y l | l l' l'' _ IH1 _ IH2]; cbn [Spec.count].
  - reflexivity.
  - now rewrite IH.
  - destruct (p x), (p y); reflexivity.
  - now rewrite IH1.
Qed.

(** C5. In every run of the debate stage (a run that yields
    [debates_starting]), a segment is selected for a debate (announced by
    its [debate_running] event, followed by the oracle call) exactly when at
    least 2 of the reviews are reviews of that segment whose sentiment is
    negative or neutral, counted as the specification counts them; and for
    every permutation of the review list the stage runs as well, the count
    is the same and the same segments are selected, whatever the oracle
    does. *)
Theorem debate_eligibility_by_count
    (b : Baml) (rs : list PRDReview) (s : OracleState b) (seg : string) :
  has_phase "debates_starting" (events (debate_phase b rs s)) = true ->
  let concerning_of rs :=
    Spec.count (fun r => Spec.of_segment seg r && Spec.concerning r) rs in
  let selected rs s :=
    In (EvProgress (MsgDebateRunning seg)) (events (debate_phase b rs s)) in
  (selected rs s <-> (2 <= concerning_of rs)%nat)
  /\ forall rs' s',
       Permutation rs rs' ->
       has_phase "debates_starting" (events (debate_phase b rs' s')) = true
       /\ concerning_of rs' = concerning_of rs
       /\ (selected rs' s' <-> selected rs s).
Proof.
  intros Hphase concerning_of selected. subst concerning_of selected.
  cbv beta.
  assert (Hrun : fgt (concerning_pct rs) stream_threshold = true)
    by (now apply (debate_phase_branch b rs s)).
  split.
  - rewrite (debate_phase_running b rs s seg Hrun). now rewrite concerning_in_spec.
  - intros rs' s' Hperm.
    assert (Hrun' : fgt (concerning_pct rs') stream_threshold = true)
      by (now rewrite <- (concerning_pct_Permutation rs rs' Hperm)).
    split; [now apply (debate_phase_branch b rs' s') |].
    split; [symmetry; now apply spec_count_Permutation |].
    rewrite (debate_phase_running b rs' s' seg Hrun').
    rewrite (debate_phase_running b rs s seg Hrun).
    now rewrite (concerning_in_Permutation seg rs rs' Hperm).
Qed.

Lemma debate_eligibility_on_mixed_reviews :
  let b := Scenario.scripted Scenario.all_positive in
  let concerning_of rs :=
    Spec.count (fun r => Spec.of_segment "students" r && Spec.concerning r) rs in
  let selected rs s :=
    In (EvProgress (MsgDebateRunning "students")) (events (debate_phase b rs s)) in
  (selected Scenario.mixed_reviews Scenario.start
   <-> (2 <= concerning_of Scenario.mixed_reviews)%nat)
  /\ forall rs' s',
       Permutation Scenario.mixed_reviews rs' ->
       has_phase "debates_starting" (events (debate_phase b rs' s')) = true
       /\ concerning_of rs' = concerning_of Scenario.mixed_reviews
       /\ (selected rs' s' <-> selected Scenario.mixed_reviews Scenario.start).
Proof.
  apply (debate_eligibility_by_count (Scenario.scripted Scenario.all_positive)
           Scenario.mixed_reviews Scenario.start "students").
  reflexivity.
Defined.

(** On these reviews the students are debated and the retirees are not, also
    with the reviews in reverse order. *)
Example students_debated_retirees_not :
  let b := Scenario.scripted Scenario.all_positive in
  let running rs :=
    filter (in_phase "debate_running") (events (debate_phase b rs Scenario.start)) in
  running Scenario.mixed_reviews = [EvProgress (MsgDebateRunning "students")]
  /\ running (rev Scenario.mixed_reviews) = [EvProgress (MsgDebateRunning "students")]
  /\ Spec.count (fun r => Spec.of_segment "students" r && Spec.concerning r)
       Scenario.mixed_reviews = 2%nat
  /\ Spec.count (fun r => Spec.of_segment "retirees" r && Spec.concerning r)
       Scenario.mixed_reviews = 1%nat.
Proof. cbv zeta. repeat split; vm_compute; reflexivity. Qed.

(** ** The allocation *)

Lemma total_allocated_app d1 d2 :
  total_allocated (d1 ++ d2) = total_allocated d1 + total_allocated d2.
Proof.
  unfold total_allocated. induction d1 as [| kv d1 IH]; simpl; [reflexivity |].
  rewrite IH. lia.
Qed.

(** With distinct segment ids the comprehension keeps the catalog order. *)
Lemma even_distribution_fold all_segments n :
  forall d,
    NoDup (dict_keys d ++ map segment_id all_segments) ->
    fold_left
      (fun d seg => dict_set d (segment_id seg) (mkAllocation seg n))
      all_segments d
    = d ++ map (fun seg => (segment_id seg, mkAllocation seg n)) all_segments.
Proof.
  induction all_segments as [| seg rest IH]; intros d Hnd; simpl.
  - now rewrite app_nil_r.
  - assert (Hnew : ~ In (segment_id seg) (dict_keys d)).
    { intros Hin. apply NoDup_remove_2 in Hnd. apply Hnd.
      apply in_or_app. now left. }
    rewrite (dict_set_new d _ _ Hnew), IH.
    + now rewrite <- app_assoc.
    + unfold dict_keys in *. rewrite map_app. simpl. rewrite <- app_assoc.
      exact Hnd.
Qed.

Lemma even_distribution_spec all_segments n :
  NoDup (map segment_id all_segments) ->
  even_distribution all_segments n
  = map (fun seg => (segment_id seg, mkAllocation seg n)) all_segments.
Proof.
  intros Hnd. unfold even_distribution. now rewrite even_distribution_fold.
Qed.

Lemma total_allocated_even all_segments n :
  total_allocated
    (map (fun seg => (segment_id seg, mkAllocation seg n)) all_segments)
  = Z.of_nat (List.length all_segments) * n.
Proof.
  unfold total_allocated.
  induction all_segments as [| seg rest IH]; [reflexivity |].
  cbn [map fold_right List.length snd alloc_count]. rewrite IH. lia.
Qed.

(** Every entry of a caller-supplied distribution keeps the count of one of
    the supplied entries, which is positive. *)
Lemma custom_distribution_counts all_segments cfgs :
  forall d,
    (forall id a, In (id, a) d ->
       exists cfg, In cfg cfgs /\ cfg_segment_id cfg = id
                   /\ cfg_count cfg = alloc_count a /\ 0 < cfg_count cfg) ->
    forall cfgs',
      (forall cfg, In cfg cfgs' -> In cfg cfgs) ->
      forall id a, In (id, a) (fold_left (add_config all_segments) cfgs' d) ->
        exists cfg, In cfg cfgs /\ cfg_segment_id cfg = id
                    /\ cfg_count cfg = alloc_count a /\ 0 < cfg_count cfg.
Proof.
  intros d Hd cfgs'. revert d Hd.
  induction cfgs' as [| c rest IH]; intros d Hd Hsub id a; simpl.
  - apply Hd.
  - apply IH; [| intros cfg Hin; apply Hsub; now right].
    intros id' a' Hin. unfold add_config in Hin.
    destruct (Z.ltb_spec 0 (cfg_count c)) as [Hpos | Hnonpos]; [| now apply Hd].
    assert (Hnew : forall seg,
              In (id', a') (dict_set d (cfg_segment_id c)
                              (mkAllocation seg (cfg_count c))) ->
              exists cfg, In cfg cfgs /\ cfg_segment_id cfg = id'
                          /\ cfg_count cfg = alloc_count a' /\ 0 < cfg_count cfg).
    { intros seg Hin'. apply dict_set_In in Hin'.
      destruct Hin' as [[-> ->] | Hold]; [| now apply Hd].
      exists c. repeat split; [apply Hsub; now left | exact Hpos]. }
    destruct (startswith (cfg_segment_id c) "custom_");
      [eapply Hnew; exact Hin |].
    destruct (matching_segment all_segments (cfg_segment_id c));
      [eapply Hnew; exact Hin | now apply Hd].
Qed.

Lemma floordiv_ok (a : Z) (n : nat) :
  n <> O -> floordiv a n = Ok (a / Z.of_nat n).
Proof. intros Hn. destruct n; [contradiction | reflexivity]. Qed.

Section BatchPersonas.

Variable b : Baml.

(** Batch path: a segment yields at most the personas asked for. *)
Lemma scale_segment_length segment todo :
  forall i acc s ps,
    result (scale_segment b segment i todo acc s) = Ok ps ->
    (List.length ps <= List.length acc + todo)%nat.
Proof.
  induction todo as [| todo IH]; intros i acc s ps Hres; cbn [scale_segment] in Hres.
  - injection Hres as <-. lia.
  - apply bind_result_ok in Hres. destruct Hres as (acc' & Hstep & Hres).
    apply IH in Hres.
    assert (Hacc' : (List.length acc' <= S (List.length acc))%nat).
    { clear Hres. unfold try_except, bind, generate_persona_variation, call,
        print, ret in Hstep.
      destruct (GeneratePersona b (segment_data segment (variation_prompt i)) s)
        as [[persona | e] s1]; simpl in Hstep; injection Hstep as <-.
      - rewrite length_app. simpl. lia.
      - lia. }
    lia.
Qed.

Lemma scale_personas_from_length segments n :
  forall acc s ps,
    result (scale_personas_from b segments n acc s) = Ok ps ->
    (List.length ps <= List.length acc + List.length segments * Z.to_nat n)%nat.
Proof.
  induction segments as [| seg rest IH]; intros acc s ps Hres;
    cbn [scale_personas_from] in Hres.
  - injection Hres as <-. simpl. lia.
  - apply bind_result_ok in Hres. destruct Hres as (seg_ps & Hseg & Hres).
    apply IH in Hres. apply scale_segment_length in Hseg.
    rewrite length_app in Hres. simpl in *. lia.
Qed.

(** Node 1, when no saved personas are loaded: at most
    [len * (personas_count // len)] personas. *)
Lemma generate_personas_node_length all_segments personas_file state s st :
  all_segments <> [] ->
  0 <= personas_count state ->
  personas_file (personas_count state) = None ->
  result (generate_personas_node b (Ok all_segments) personas_file state s) = Ok st ->
  Z.of_nat (List.length (personas st))
  <= Z.of_nat (List.length all_segments)
     * (personas_count state / Z.of_nat (List.length all_segments)).
Proof.
  intros Hne Hpos Hfile Hres. unfold generate_personas_node in Hres.
  rewrite Hfile in Hres.
  apply bind_result_ok in Hres. destruct Hres as (segs & Hsegs & Hres).
  injection Hsegs as <-.
  apply bind_result_ok in Hres. destruct Hres as (pps & Hpps & Hres).
  apply bind_result_ok in Hres. destruct Hres as (ps & Hps & Hres).
  injection Hres as <-. cbn [set_personas personas].
  rewrite floordiv_ok in Hpps by (now destruct all_segments).
  cbn [of_result ret result] in Hpps. injection Hpps as <-.
  apply scale_personas_from_length in Hps. simpl in Hps.
  assert (Hlen : (0 < List.length all_segments)%nat)
    by (destruct all_segments; [contradiction | simpl; lia]).
  assert (0 <= personas_count state / Z.of_nat (List.length all_segments))
    by (apply Z.div_pos; lia).
  nia.
Qed.

End BatchPersonas.

(** With an explicit distribution of 100 personas in one custom segment and
    4 requested personas, 100 are allocated; with 1 persona in the segment,
    1 is allocated. *)
Lemma explicit_distribution_ignores_requested_count :
  let b := Scenario.scripted Scenario.all_positive in
  let allocation count :=
    build_distribution b 4 (Some [mkSegmentConfig "custom_devs" count None None])
      Scenario.catalog Scenario.start in
  (exists d, result (allocation 100) = Ok d
             /\ total_allocated d = 100 /\ ~ total_allocated d <= 4)
  /\ (exists d, result (allocation 1) = Ok d
                /\ total_allocated d = 1 /\ total_allocated d <> 4).
Proof.
  cbv zeta. split; eexists; (split; [vm_compute; reflexivity |]);
    (split; [reflexivity |]).
  - vm_compute. intros H. apply H. reflexivity.
  - discriminate.
Qed.

(** C6, amended. Without a caller-supplied distribution, over a non-empty
    catalog with distinct ids, every segment is allocated
    [num_personas // len(catalog)] personas, so the total is
    [len * (num_personas // len) <= num_personas], with equality when the
    length divides the requested count; the remainder is not allocated and
    nothing is raised. With a caller-supplied distribution the requested
    count plays no part: the allocation is the same for every requested
    count, and each allocated segment keeps the positive count of one of the
    supplied entries. Batch path: node 1, when it generates the personas,
    makes at most [len * (personas_count // len)] of them. *)
Theorem allocation_totals
    (b : Baml) (all_segments : list Segment) (s : OracleState b) (num_personas : Z) :
  all_segments <> [] ->
  NoDup (map segment_id all_segments) ->
  let len := Z.of_nat (List.length all_segments) in
  (forall cfgs, cfgs = None \/ cfgs = Some [] ->
     exists d,
       result (build_distribution b num_personas cfgs all_segments s) = Ok d
       /\ d = map (fun seg => (segment_id seg, mkAllocation seg (num_personas / len)))
                  all_segments
       /\ total_allocated d = len * (num_personas / len)
       /\ total_allocated d <= num_personas
       /\ (num_personas mod len = 0 -> total_allocated d = num_personas))
  /\ (forall c cs,
        let d := custom_distribution all_segments (c :: cs) in
        (forall n,
           result (build_distribution b n (Some (c :: cs)) all_segments s) = Ok d)
        /\ forall id a, In (id, a) d ->
             exists cfg, In cfg (c :: cs) /\ cfg_segment_id cfg = id
                         /\ cfg_count cfg = alloc_count a /\ 0 < cfg_count cfg)
  /\ (0 <= num_personas ->
      forall personas_file state s' st,
        personas_count state = num_personas ->
        personas_file num_personas = None ->
        result (generate_personas_node b (Ok all_segments) personas_file state s')
        = Ok st ->
        Z.of_nat (List.length (personas st)) <= len * (num_personas / len)
        /\ len * (num_personas / len) <= num_personas).
Proof.
  intros Hne Hnd len.
  assert (Hlen : 0 < len) by (subst len; destruct all_segments; [easy | simpl; lia]).
  split; [| split].
  - intros cfgs Hcfgs.
    exists (map (fun seg => (segment_id seg, mkAllocation seg (num_personas / len)))
              all_segments).
    split; [| split; [reflexivity | split; [| split]]].
    + assert (Hdefault :
        build_distribution b num_personas cfgs all_segments
        = bind (of_result (floordiv num_personas (List.length all_segments)))
            (fun pps =>
               bind (yield (EvProgress
                              (MsgAllSegments num_personas (List.length all_segments))))
                    (fun _ => ret (even_distribution all_segments pps))))
        by (destruct Hcfgs as [-> | ->]; reflexivity).
      rewrite Hdefault. unfold floordiv.
      destruct all_segments as [| seg rest] eqn:E; [contradiction |].
      rewrite <- E in *. replace (List.length all_segments) with (S (List.length rest))
        by (subst all_segments; reflexivity).
      unfold bind, of_result, ret, yield. simpl result.
      rewrite even_distribution_spec by exact Hnd.
      subst len. replace (List.length all_segments) with (S (List.length rest))
        by (subst all_segments; reflexivity).
      reflexivity.
    + apply total_allocated_even.
    + rewrite total_allocated_even. now apply Z.mul_div_le.
    + intros Hmod. rewrite total_allocated_even.
      rewrite (Z.div_mod num_personas len) at 2 by lia. lia.
  - intros c cs d. split; [reflexivity |].
    intros id a Hin.
    apply (custom_distribution_counts all_segments (c :: cs) []
             (fun _ _ H => match H with end) (c :: cs) (fun _ H => H) id a Hin).
  - intros Hpos personas_file state s' st Hcount Hfile Hres. subst num_personas.
    split; [| now apply Z.mul_div_le].
    now apply (generate_personas_node_length b all_segments personas_file state s').
Qed.

Lemma allocation_totals_on_sample_catalog :
  (exists d,
     result (build_distribution (Scenario.scripted Scenario.all_positive) 10 None
               Scenario.catalog Scenario.start) = Ok d
     /\ d = map (fun seg => (segment_id seg, mkAllocation seg (10 / 4))) Scenario.catalog
     /\ total_allocated d = 4 * (10 / 4)
     /\ total_allocated d <= 10
     /\ (10 mod 4 = 0 -> total_allocated d = 10))
  /\ total_allocated (even_distribution Scenario.catalog (10 / 4)) = 8.
Proof.
  split; [| reflexivity].
  assert (Hne : Scenario.catalog <> []) by discriminate.
  assert (Hnd : NoDup (map segment_id Scenario.catalog)).
  { repeat constructor; simpl; intuition discriminate. }
  destruct (allocation_totals (Scenario.scripted Scenario.all_positive)
              Scenario.catalog Scenario.start 10 Hne Hnd) as [Heven _].
  apply Heven. now left.
Defined.

(** ** Custom and unknown segments of a caller-supplied distribution *)

(** The entry of an unknown segment leaves the distribution as it is. *)
Lemma add_config_unmatched all_segments cfg dist :
  startswith (cfg_segment_id cfg) "custom_" = false ->
  matching_segment all_segments (cfg_segment_id cfg) = None ->
  add_config all_segments dist cfg = dist.
Proof.
  intros Hprefix Hmatch. unfold add_config. rewrite Hprefix, Hmatch.
  now destruct (0 <? cfg_count cfg).
Qed.

Lemma custom_distribution_unmatched all_segments cfg l1 l2 :
  startswith (cfg_segment_id cfg) "custom_" = false ->
  matching_segment all_segments (cfg_segment_id cfg) = None ->
  custom_distribution all_segments (l1 ++ cfg :: l2)
  = custom_distribution all_segments (l1 ++ l2).
Proof.
  intros Hprefix Hmatch. unfold custom_distribution.
  rewrite !fold_left_app. simpl.
  now rewrite (add_config_unmatched all_segments cfg _ Hprefix Hmatch).
Qed.

Section DroppedEntry.

Variable b : Baml.

Lemma build_distribution_custom n c cs all_segments s :
  build_distribution b n (Some (c :: cs)) all_segments s
  = mkOutcome (Ok (custom_distribution all_segments (c :: cs)))
      [EvProgress
         (MsgCustomSegments n
            (List.length (custom_distribution all_segments (c :: cs))))]
      [] s.
Proof. reflexivity. Qed.

Lemma build_distribution_unmatched n all_segments cfg l1 l2 s :
  startswith (cfg_segment_id cfg) "custom_" = false ->
  matching_segment all_segments (cfg_segment_id cfg) = None ->
  l1 ++ l2 <> [] ->
  build_distribution b n (Some (l1 ++ cfg :: l2)) all_segments s
  = build_distribution b n (Some (l1 ++ l2)) all_segments s.
Proof.
  intros Hprefix Hmatch Hne.
  destruct (l1 ++ cfg :: l2) as [| c cs] eqn:E1; [now destruct l1 |].
  destruct (l1 ++ l2) as [| c' cs'] eqn:E2; [contradiction |].
  rewrite !build_distribution_custom, <- E1, <- E2.
  now rewrite (custom_distribution_unmatched all_segments cfg l1 l2 Hprefix Hmatch).
Qed.

Lemma persona_stage_unmatched n all_segments cfg l1 l2 s :
  startswith (cfg_segment_id cfg) "custom_" = false ->
  matching_segment all_segments (cfg_segment_id cfg) = None ->
  l1 ++ l2 <> [] ->
  persona_stage b (Ok all_segments) n (Some (l1 ++ cfg :: l2)) s
  = persona_stage b (Ok all_segments) n (Some (l1 ++ l2)) s.
Proof.
  intros Hprefix Hmatch Hne. unfold persona_stage, load_segments, of_result.
  apply bind_congr; [reflexivity | intros _ _].
  apply bind_congr; [reflexivity | intros _ _].
  apply bind_congr; [reflexivity | intros a [= <-]].
  apply bind_congr; [| reflexivity].
  now apply build_distribution_unmatched.
Qed.

Lemma stream_prd_review_unmatched prd n all_segments cfg l1 l2 s :
  startswith (cfg_segment_id cfg) "custom_" = false ->
  matching_segment all_segments (cfg_segment_id cfg) = None ->
  l1 ++ l2 <> [] ->
  stream_prd_review b (Ok all_segments) prd n (Some (l1 ++ cfg :: l2)) s
  = stream_prd_review b (Ok all_segments) prd n (Some (l1 ++ l2)) s.
Proof.
  intros Hprefix Hmatch Hne.
  unfold stream_prd_review, try_except, stream_body.
  assert (Hbody :
    forall k : unit -> M b unit,
      bind (bind (persona_stage b (Ok all_segments) n (Some (l1 ++ cfg :: l2)))
              (fun g =>
                 bind (review_stage b (all_personas g) (persona_to_segment g) prd)
                   (fun rs =>
                      bind (debate_phase b rs)
                        (fun ds => aggregation_stage b (all_personas g) rs ds))))
           k s
      = bind (bind (persona_stage b (Ok all_segments) n (Some (l1 ++ l2)))
                (fun g =>
                   bind (review_stage b (all_personas g) (persona_to_segment g) prd)
                     (fun rs =>
                        bind (debate_phase b rs)
                          (fun ds => aggregation_stage b (all_personas g) rs ds))))
             k s).
  { intros k. apply bind_congr; [| reflexivity].
    apply bind_congr; [| reflexivity].
    now apply persona_stage_unmatched. }
  now rewrite Hbody.
Qed.

End DroppedEntry.

Lemma matching_segment_Some all_segments id seg :
  matching_segment all_segments id = Some seg ->
  In seg all_segments /\ segment_id seg = id.
Proof.
  unfold matching_segment. intros H. apply find_some in H.
  destruct H as [Hin Heq]. split; [exact Hin | now apply String.eqb_eq].
Qed.

(** An entry whose id starts with [custom_] and whose count is 0 is not
    synthesized as a custom segment: it is dropped. *)
Lemma custom_entry_with_zero_count_is_dropped :
  startswith (cfg_segment_id Scenario.custom_nobody) "custom_" = true
  /\ (forall dist, add_config Scenario.catalog dist Scenario.custom_nobody = dist)
  /\ custom_distribution Scenario.catalog [Scenario.custom_nobody] = []
  /\ dict_get (custom_distribution Scenario.catalog
                 [Scenario.custom_devs; Scenario.custom_nobody])
              "custom_nobody" = None.
Proof. repeat split. Qed.

(** C10, amended. An entry with a positive count is synthesized as a custom
    segment, with the generic default attributes and its own id, exactly on
    the branch taken when its id starts with [custom_], without looking at
    the catalog; without the prefix its segment is the catalog segment of
    that id, if there is one. An entry whose id lacks the prefix and matches
    no catalog segment leaves the distribution as it is, whatever its count:
    the allocation is the one of the list without the entry, the only event
    of the allocation carries the requested count and the number of retained
    segments, and the whole stream is the stream of the list without the
    entry (when that list is not empty). *)
Theorem custom_prefix_decides_the_segment
    (all_segments : list Segment) (cfg : SegmentConfig) :
  let id := cfg_segment_id cfg in
  (0 < cfg_count cfg ->
   forall dist,
     (startswith id "custom_" = true ->
      add_config all_segments dist cfg
      = dict_set dist id (mkAllocation (custom_segment cfg) (cfg_count cfg))
      /\ segment_id (custom_segment cfg) = id
      /\ demographic (custom_segment cfg)
         = mkDemographic "18-65" "varied" "varied" "varied"
      /\ behavioral (custom_segment cfg)
         = mkBehavioral "moderate" "moderate" "moderate"
             ["usability"; "value"; "functionality"])
     /\ (startswith id "custom_" = false ->
         match matching_segment all_segments id with
         | Some seg =>
             In seg all_segments /\ segment_id seg = id
             /\ add_config all_segments dist cfg
                = dict_set dist id (mkAllocation seg (cfg_count cfg))
         | None => add_config all_segments dist cfg = dist
         end))
  /\ (startswith id "custom_" = false ->
      matching_segment all_segments id = None ->
      (forall dist, add_config all_segments dist cfg = dist)
      /\ forall l1 l2,
           custom_distribution all_segments (l1 ++ cfg :: l2)
           = custom_distribution all_segments (l1 ++ l2)
           /\ forall (b : Baml) (prd : string) (n : Z) (s : OracleState b),
                events (build_distribution b n (Some (l1 ++ cfg :: l2)) all_segments s)
                = [EvProgress
                     (MsgCustomSegments n
                        (List.length (custom_distribution all_segments (l1 ++ l2))))]
                /\ (l1 ++ l2 <> [] ->
                    stream_prd_review b (Ok all_segments) prd n
                      (Some (l1 ++ cfg :: l2)) s
                    = stream_prd_review b (Ok all_segments) prd n
                        (Some (l1 ++ l2)) s)).
Proof.
  intros id. split.
  - intros Hpos dist. unfold add_config. fold id.
    destruct (Z.ltb_spec 0 (cfg_count cfg)) as [_ | Hle]; [| lia].
    split; intros Hprefix; rewrite Hprefix.
    + repeat split.
    + destruct (matching_segment all_segments id) as [seg |] eqn:E; [| reflexivity].
      destruct (matching_segment_Some all_segments id seg E) as [Hin Hid].
      repeat split; assumption.
  - intros Hprefix Hmatch. split.
    + intros dist. now apply add_config_unmatched.
    + intros l1 l2.
      pose proof (custom_distribution_unmatched all_segments cfg l1 l2
                    Hprefix Hmatch) as Hdist.
      split; [exact Hdist |].
      intros b prd n s. split.
      * destruct (l1 ++ cfg :: l2) as [| c cs] eqn:E; [now destruct l1 |].
        rewrite build_distribution_custom. simpl. now rewrite Hdist.
      * intros Hne. now apply stream_prd_review_unmatched.
Qed.

Lemma custom_and_unknown_entries_on_sample_catalog :
  (forall dist,
     add_config Scenario.catalog dist Scenario.custom_devs
     = dict_set dist "custom_devs"
         (mkAllocation (custom_segment Scenario.custom_devs) 3))
  /\ custom_distribution Scenario.catalog [Scenario.custom_devs; Scenario.martians]
     = custom_distribution Scenario.catalog [Scenario.custom_devs]
  /\ stream_prd_review (Scenario.scripted Scenario.all_positive)
       (Ok Scenario.catalog) "prd" 4
       (Some [Scenario.custom_devs; Scenario.martians]) Scenario.start
     = stream_prd_review (Scenario.scripted Scenario.all_positive)
         (Ok Scenario.catalog) "prd" 4 (Some [Scenario.custom_devs]) Scenario.start.
Proof.
  split; [| split].
  - intros dist.
    destruct (custom_prefix_decides_the_segment Scenario.catalog Scenario.custom_devs)
      as [Hpositive _].
    apply (Hpositive eq_refl dist). reflexivity.
  - destruct (custom_prefix_decides_the_segment Scenario.catalog Scenario.martians)
      as [_ Hdropped].
    destruct (Hdropped eq_refl eq_refl) as [_ Hlists].
    apply (Hlists [Scenario.custom_devs] []).
  - destruct (custom_prefix_decides_the_segment Scenario.catalog Scenario.martians)
      as [_ Hdropped].
    destruct (Hdropped eq_refl eq_refl) as [_ Hlists].
    destruct (Hlists [Scenario.custom_devs] []) as [_ Hstream].
    apply (Hstream (Scenario.scripted Scenario.all_positive) "prd" 4 Scenario.start).
    discriminate.
Defined.

(** ** The segment of a review *)

Section ReviewSegments.

Variable b : Baml.
Hypothesis Hecho : echoes_segment b.

Lemma tracked_add K ps p2s p seg_id :
  In seg_id K -> tracked K ps p2s ->
  tracked K (ps ++ [p]) (dict_set p2s (name p) seg_id).
Proof.
  intros HK [Hkeys Hvals]. split.
  - intros q Hq. apply dict_keys_set. apply in_app_or in Hq.
    destruct Hq as [Hq | [<- | []]]; [right; now apply Hkeys | now left].
  - intros k v. destruct (String.eqb_spec (name p) k) as [<- | Hne].
    + rewrite dict_get_set_eq. now intros [= <-].
    + rewrite dict_get_set_neq by exact Hne. apply Hvals.
Qed.

Lemma generate_for_segment_tracked K seg_id segment todo :
  In seg_id K ->
  forall g s g',
    tracked K (all_personas g) (persona_to_segment g) ->
    result (generate_for_segment b seg_id segment todo g s) = Ok g' ->
    tracked K (all_personas g') (persona_to_segment g').
Proof.
  intros HK. induction todo as [| todo IH]; intros g s g' Hg Hres;
    cbn [generate_for_segment] in Hres.
  - injection Hres as <-. exact Hg.
  - apply bind_result_ok in Hres. destruct Hres as (p & _ & Hres).
    apply bind_result_ok in Hres. destruct Hres as ([] & _ & Hres).
    apply IH in Hres; [exact Hres |].
    cbn [all_personas persona_to_segment]. now apply tracked_add.
Qed.

Lemma generate_personas_tracked K items :
  (forall id a, In (id, a) items -> In id K) ->
  forall g s g',
    tracked K (all_personas g) (persona_to_segment g) ->
    result (generate_personas b items g s) = Ok g' ->
    tracked K (all_personas g') (persona_to_segment g').
Proof.
  induction items as [| [seg_id config] rest IH]; intros HK g s g' Hg Hres;
    cbn [generate_personas] in Hres.
  - injection Hres as <-. exact Hg.
  - apply bind_result_ok in Hres. destruct Hres as ([] & _ & Hres).
    apply bind_result_ok in Hres. destruct Hres as (g1 & Hg1 & Hres).
    apply IH in Hres; [exact Hres | | ].
    + intros id a Hin. apply (HK id a). now right.
    + apply (generate_for_segment_tracked K seg_id _ _
               (HK seg_id config (or_introl eq_refl)) _ _ _ Hg Hg1).
Qed.

(** Streaming path: a tracked persona is reviewed under its tracked segment. *)
Lemma stream_reviews_segments K p2s prd todo :
  (forall k v, dict_get p2s k = Some v -> In v K) ->
  (forall p, In p todo -> In (name p) (dict_keys p2s)) ->
  forall acc s rs,
    Forall (fun r => In (reviewer_segment r) K) acc ->
    result (stream_reviews b todo p2s prd acc s) = Ok rs ->
    Forall (fun r => In (reviewer_segment r) K) rs.
Proof.
  intros Hvals. induction todo as [| persona rest IH]; intros Hkeys acc s rs Hacc Hres;
    cbn [stream_reviews] in Hres.
  - injection Hres as <-. exact Hacc.
  - apply bind_result_ok in Hres. destruct Hres as (acc' & Hstep & Hres).
    apply IH in Hres; [exact Hres | intros p Hp; apply Hkeys; now right |].
    clear Hres. unfold review_one, try_except, bind, call, yield, print, ret in Hstep.
    destruct (ReviewPRD b (stream_review_request persona p2s prd) s)
      as [[review | e] s1] eqn:E; simpl in Hstep; injection Hstep as <-;
      [| exact Hacc].
    apply Forall_app. split; [exact Hacc |]. constructor; [| constructor].
    rewrite (Hecho _ _ _ _ E). cbn [stream_review_request persona_segment].
    destruct (dict_key_get p2s (name persona) (Hkeys persona (or_introl eq_refl)))
      as [v Hv].
    unfold dict_get_default. rewrite Hv. now apply (Hvals (name persona)).
Qed.

(** Streaming path: the segment of every review is a key of the allocation. *)
Lemma stream_reviews_carry_allocated_segments segment_distribution prd s g s' rs :
  result (generate_personas b segment_distribution (mkGenerated [] [] 0) s) = Ok g ->
  result (stream_reviews b (all_personas g) (persona_to_segment g) prd [] s') = Ok rs ->
  Forall (fun r => In (reviewer_segment r) (dict_keys segment_distribution)) rs.
Proof.
  intros Hgen Hrev.
  assert (Hg : tracked (dict_keys segment_distribution)
                 (all_personas g) (persona_to_segment g)).
  { apply (generate_personas_tracked (dict_keys segment_distribution)
             segment_distribution) with (g := mkGenerated [] [] 0) (s := s).
    - intros id a Hin. unfold dict_keys. change id with (fst (id, a)).
      now apply in_map.
    - split; [intros p [] | intros k v; discriminate].
    - exact Hgen. }
  destruct Hg as [Hkeys Hvals].
  apply (stream_reviews_segments _ _ prd _ Hvals Hkeys [] s' rs);
    [constructor | exact Hrev].
Qed.

(** Batch path: every review is asked for under the literal ["unknown"]. *)
Lemma phase1_loop_segments prd todo :
  forall acc s rs,
    Forall (fun r => reviewer_segment r = "unknown") acc ->
    result (phase1_loop b todo prd acc s) = Ok rs ->
    Forall (fun r => reviewer_segment r = "unknown") rs.
Proof.
  induction todo as [| persona rest IH]; intros acc s rs Hacc Hres;
    cbn [phase1_loop] in Hres.
  - injection Hres as <-. exact Hacc.
  - apply bind_result_ok in Hres. destruct Hres as (acc' & Hstep & Hres).
    apply IH in Hres; [exact Hres |].
    clear Hres. unfold try_except, bind, call, print, ret in Hstep.
    destruct (ReviewPRD b (batch_review_request persona prd) s)
      as [[review | e] s1] eqn:E; simpl in Hstep; injection Hstep as <-;
      [| exact Hacc].
    apply Forall_app. split; [exact Hacc |]. constructor; [| constructor].
    now rewrite (Hecho _ _ _ _ E).
Qed.

End ReviewSegments.

Lemma scripted_echoes_segment sc : echoes_segment (Scenario.scripted sc).
Proof.
  intros rq s r s1. simpl. unfold Scenario.answer.
  destruct (Scenario.review_fails sc (Scenario.n_review s)); [discriminate |].
  now intros [= <- _].
Qed.

(** C7, at the failing input: four personas over the sample catalog, with an
    oracle that answers every review under the segment it was asked about.
    The batch workflow asks for every review under the literal ["unknown"],
    so its four reviews carry a segment that is not in the allocation; the
    streaming run on the same input yields one review per catalog segment. *)
Theorem batch_reviews_carry_unknown_segment :
  let b := Scenario.scripted Scenario.all_positive in
  let review_segments evs :=
    flat_map (fun e => match e with
                       | EvReviewGenerated r _ => [reviewer_segment r]
                       | _ => []
                       end) evs in
  (forall persona prd,
     persona_segment (batch_review_request persona prd) = "unknown")
  /\ (exists st,
        result (invoke b (Ok Scenario.catalog) Scenario.no_saved_personas
                  (mkState "prd" 4 [] [] float_zero false None None) Scenario.start)
        = Ok st
        /\ map reviewer_segment (reviews st)
           = ["unknown"; "unknown"; "unknown"; "unknown"])
  /\ ~ In "unknown" (map segment_id Scenario.catalog)
  /\ review_segments
       (events (stream_prd_review b (Ok Scenario.catalog) "prd" 4 None Scenario.start))
     = map segment_id Scenario.catalog.
Proof.
  cbv zeta. split; [reflexivity |]. split; [| split].
  - eexists. split; vm_compute; reflexivity.
  - simpl. intuition discriminate.
  - vm_compute. reflexivity.
Qed.

(** * Further properties of the pipeline *)

(** ** The calls of a loop *)




Lemma raised_app {A} (l1 l2 : list (Result A)) :
  raised (l1 ++ l2) = raised l1 ++ raised l2.
Proof.
  induction l1 as [| [a | e] l1 IH]; simpl; [reflexivity | exact IH | now rewrite IH].
Qed.


Section ReviewCalls.

Variable b : Baml.




End ReviewCalls.


Section BatchCalls.

Variable b : Baml.






End BatchCalls.




(** ** Persona generation in the streaming path *)









Section PersonaCalls.

Variable b : Baml.



End PersonaCalls.




(** ** Name collisions among generated personas *)




(** ** Repeated entries of a caller-supplied distribution *)




(** ** The percentage at the thresholds *)



(** ** The aggregation call of a successful run *)

